(** * Link finders of workspace-spider: the crawl and link-extraction pipeline

    A shallow embedding of [src/atlassian/jiralinks.py] and
    [src/atlassian/confluencelinks.py]: the retrying fetchers, the two
    paginators, the recursive extractor over the issue tracker's document
    format, the classifiers built on regular expressions, and the two report
    loops.

    Conventions.
    - A Python [str] is a [string]; a character stands for a code point
      below 256.
    - A decoded JSON document is a [json] value; a Python [dict] is an
      association list in insertion order, read at its first binding of a key.
    - A Python expression that may raise is a [result]; a loop that the
      source does not bound takes a fuel argument and returns [None] when the
      fuel is used up. *)

From Stdlib Require Import String Ascii List ZArith Lia Bool Arith DecimalString.
Import ListNotations.
Open Scope string_scope.

(* ================================================================== *)
(** ** Python values and primitives *)
(* ================================================================== *)

Module Py.

(** Exceptions the modelled code can meet. [Exception msg] is a plain
    [Exception(msg)]; [HTTPError] is what [raise_for_status] raises;
    [RetryError] is what tenacity raises once it stops retrying. *)
Inductive exn : Type :=
| TypeError
| KeyError (key : string)
| AttributeError
| JSONDecodeError
| Exception (msg : string)
| HTTPError (status : Z)
| RetryError (last : exn).

Inductive result (A : Type) : Type :=
| Ok (a : A)
| Raise (e : exn).
Arguments Ok {A} a.
Arguments Raise {A} e.

Definition bind {A B} (m : result A) (f : A -> result B) : result B :=
  match m with
  | Ok a => f a
  | Raise e => Raise e
  end.

(** [try: m  except Exception: h] *)
Definition try_except {A} (m : result A) (h : exn -> A) : A :=
  match m with
  | Ok a => a
  | Raise e => h e
  end.

Unset Elimination Schemes.
Inductive json : Type :=
| JNull
| JBool (b : bool)
| JNum (z : Z)
| JStr (s : string)
| JList (l : list json)
| JObj (d : list (string * json)).
Set Elimination Schemes.

Definition dict := list (string * json).

(** ** Strings *)

(** [str.isspace] on one character, for code points below 256. *)
Definition is_space (c : ascii) : bool :=
  let n := nat_of_ascii c in
  (((9 <=? n) && (n <=? 13)) || ((28 <=? n) && (n <=? 32))
   || (n =? 133) || (n =? 160))%nat.

Fixpoint lstrip (s : string) : string :=
  match s with
  | String c s' => if is_space c then lstrip s' else s
  | EmptyString => EmptyString
  end.

Fixpoint rstrip (s : string) : string :=
  match s with
  | EmptyString => EmptyString
  | String c s' =>
      match rstrip s' with
      | EmptyString => if is_space c then EmptyString else String c EmptyString
      | r => String c r
      end
  end.

(** [s.strip()] *)
Definition strip (s : string) : string := rstrip (lstrip s).

(** [s.startswith(sub)] *)
Fixpoint startswith (sub s : string) : bool :=
  match sub with
  | EmptyString => true
  | String a sub' =>
      match s with
      | String c s' => Ascii.eqb a c && startswith sub' s'
      | EmptyString => false
      end
  end.

(** [sub in s] on two strings *)
Fixpoint str_contains (sub s : string) : bool :=
  startswith sub s ||
  match s with
  | String _ s' => str_contains sub s'
  | EmptyString => false
  end.

(** [s.replace(a, b)] for single characters *)
Fixpoint replace_char (a b : ascii) (s : string) : string :=
  match s with
  | EmptyString => EmptyString
  | String c s' => String (if Ascii.eqb c a then b else c) (replace_char a b s')
  end.

(** the first [n] characters of [s] *)
Fixpoint take (n : nat) (s : string) : string :=
  match n, s with
  | S n', String c s' => String c (take n' s')
  | _, _ => EmptyString
  end.

(** the double quote, as a one-character string *)
Definition dq : string := String "034"%char EmptyString.

(** ** Dictionaries and dynamic operations *)

(** [d.get(k)] *)
Fixpoint dict_get (k : string) (d : dict) : option json :=
  match d with
  | [] => None
  | (k', v) :: d' => if String.eqb k' k then Some v else dict_get k d'
  end.

(** [k in d] *)
Definition dict_has (k : string) (d : dict) : bool :=
  match dict_get k d with Some _ => true | None => false end.

(** [d[k]] *)
Definition dict_item (k : string) (d : dict) : result json :=
  match dict_get k d with Some v => Ok v | None => Raise (KeyError k) end.

(** Case analysis on the binding of [k], written so that a structurally
    recursive caller may recurse on the value found. *)
Section DictFind.
Context {A : Type} (k : string) (absent : A) (present : json -> A).
Fixpoint dict_find (d : dict) : A :=
  match d with
  | [] => absent
  | (k', v) :: d' => if String.eqb k' k then present v else dict_find d'
  end.
End DictFind.

(** [bool(v)] *)
Definition truthy (v : json) : bool :=
  match v with
  | JNull => false
  | JBool b => b
  | JNum z => negb (Z.eqb z 0)
  | JStr s => negb (String.eqb s "")
  | JList l => match l with [] => false | _ => true end
  | JObj d => match d with [] => false | _ => true end
  end.

(** [v == s] for a string literal [s] *)
Definition eq_str (v : json) (s : string) : bool :=
  match v with JStr t => String.eqb t s | _ => false end.

(** [v.get(k)]: only a dict has a [get] *)
Definition py_get (v : json) (k : string) : result (option json) :=
  match v with
  | JObj d => Ok (dict_get k d)
  | _ => Raise AttributeError
  end.

(** [v[k]] for a string key [k] *)
Definition py_item (v : json) (k : string) : result json :=
  match v with
  | JObj d => dict_item k d
  | _ => Raise TypeError
  end.

(** [k in v] for a string [k]: key of a dict, element of a list, substring
    of a string; other values are not containers. *)
Definition py_in (k : string) (v : json) : result bool :=
  match v with
  | JObj d => Ok (dict_has k d)
  | JList l => Ok (existsb (fun x => eq_str x k) l)
  | JStr s => Ok (str_contains k s)
  | _ => Raise TypeError
  end.

Definition chars (s : string) : list json :=
  map (fun c => JStr (String c EmptyString)) (list_ascii_of_string s).

(** the items a [for] loop (or [list.extend], or [len]) sees in [v] *)
Definition py_iter (v : json) : result (list json) :=
  match v with
  | JList l => Ok l
  | JObj d => Ok (map (fun kv => JStr (fst kv)) d)
  | JStr s => Ok (chars s)
  | _ => Raise TypeError
  end.

(** [v + " "]: defined on strings only *)
Definition py_add_space (v : json) : result string :=
  match v with
  | JStr s => Ok (s ++ " ")
  | _ => Raise TypeError
  end.

End Py.

Import Py.

Declare Scope py_scope.
Delimit Scope py_scope with py.
Notation "x <- m ;; k" := (Py.bind m (fun x => k))
  (at level 61, m at next level, right associativity) : py_scope.
Notation "' pat <- m ;; k" := (Py.bind m (fun x => match x with pat => k end))
  (at level 61, pat pattern, m at next level, right associativity) : py_scope.
Open Scope py_scope.

(* ================================================================== *)
(** ** Regular expressions, as Python's [re] runs them *)
(* ================================================================== *)

Module Re.

(** The patterns of the two scripts repeat character classes only, so
    [Star] and [Plus] take a class. Matching is by backtracking: greedy
    repetition, left alternative first. *)
Inductive regex : Type :=
| Lit (l : string)              (* literal characters *)
| Class (p : ascii -> bool)     (* one character of a class *)
| Seq (r1 r2 : regex)
| Alt (r1 r2 : regex)           (* r1|r2 *)
| Opt (r : regex)               (* r? *)
| Star (p : ascii -> bool)      (* [class]* *)
| Plus (p : ascii -> bool)      (* [class]+ *)
| Group (r : regex).            (* (r), the only capturing group *)

Fixpoint has_group (r : regex) : bool :=
  match r with
  | Lit _ | Class _ | Star _ | Plus _ => false
  | Seq r1 r2 | Alt r1 r2 => has_group r1 || has_group r2
  | Opt r => has_group r
  | Group _ => true
  end.

Section Matcher.
Context {A : Type}.

Fixpoint lit (l : string) (k : string -> option A) (s : string) : option A :=
  match l with
  | EmptyString => k s
  | String a l' =>
      match s with
      | String c s' => if Ascii.eqb a c then lit l' k s' else None
      | EmptyString => None
      end
  end.

(** longest run first, then shorter ones *)
Fixpoint star (p : ascii -> bool) (k : string -> option A) (s : string)
  : option A :=
  match s with
  | String c s' =>
      if p c then
        match star p k s' with
        | Some x => Some x
        | None => k s
        end
      else k s
  | EmptyString => k s
  end.

(** [bt r k cap s]: match [r] at the head of [s], then run [k] on the
    capture and on what is left. *)
Fixpoint bt (r : regex) (k : option string -> string -> option A)
  (cap : option string) (s : string) : option A :=
  match r with
  | Lit l => lit l (k cap) s
  | Class p =>
      match s with
      | String c s' => if p c then k cap s' else None
      | EmptyString => None
      end
  | Seq r1 r2 => bt r1 (bt r2 k) cap s
  | Alt r1 r2 =>
      match bt r1 k cap s with
      | Some x => Some x
      | None => bt r2 k cap s
      end
  | Opt r1 =>
      match bt r1 k cap s with
      | Some x => Some x
      | None => k cap s
      end
  | Star p => star p (k cap) s
  | Plus p =>
      match s with
      | String c s' => if p c then star p (k cap) s' else None
      | EmptyString => None
      end
  | Group r1 =>
      bt r1 (fun _ s' => k (Some (take (String.length s - String.length s') s)) s') cap s
  end.
End Matcher.

(** A match at the head of [s]: the matched text, group 1 and the rest. *)
Definition match_at (r : regex) (s : string)
  : option (string * option string * string) :=
  bt r (fun cap s' => Some (take (String.length s - String.length s') s, cap, s')) None s.

(** what [findall] lists for one match *)
Definition item_of (r : regex) (whole : string) (cap : option string) : string :=
  if has_group r then match cap with Some g => g | None => "" end else whole.

(** [re.findall]: scan left to right; after a match resume where it ended
    (one character further after an empty match). [skip] counts the
    characters still covered by the last match. *)
Fixpoint findall_from (r : regex) (skip : nat) (s : string) : list string :=
  match skip with
  | S n =>
      match s with
      | String _ s' => findall_from r n s'
      | EmptyString => []
      end
  | O =>
      match match_at r s with
      | Some (whole, cap, _) =>
          item_of r whole cap ::
          match s with
          | String _ s' => findall_from r (String.length whole - 1) s'
          | EmptyString => []
          end
      | None =>
          match s with
          | String _ s' => findall_from r 0 s'
          | EmptyString => []
          end
      end
  end.

Definition findall (r : regex) (s : string) : list string := findall_from r 0 s.

(** [re.search], as a truth value *)
Fixpoint search (r : regex) (s : string) : bool :=
  match match_at r s with
  | Some _ => true
  | None =>
      match s with
      | String _ s' => search r s'
      | EmptyString => false
      end
  end.

(** [\S] and [[^\s]] *)
Definition non_space (c : ascii) : bool := negb (is_space c).
(** [[^x]] *)
Definition not_char (x : ascii) (c : ascii) : bool := negb (Ascii.eqb c x).

Declare Scope re_scope.
Delimit Scope re_scope with re.
Notation "r1 ;; r2" := (Seq r1 r2) (at level 61, right associativity) : re_scope.

(** [https?://(?:drive|docs)\.google\.com] *)
Definition google_host : regex :=
  (Lit "http" ;; Opt (Lit "s") ;; Lit "://" ;; Alt (Lit "drive") (Lit "docs") ;;
   Lit ".google.com")%re.

End Re.

Import Re.

(* ================================================================== *)
(** ** The retry decorator *)
(* ================================================================== *)

(** Both fetchers are wrapped in tenacity's [retry]. The decorator is a
    library, not code of the scripts; this module follows tenacity's retry
    loop with the default [retry] predicate (retry on any exception) and the
    default [reraise=False]: call, and on an exception either stop with
    [RetryError] or sleep for [wait attempt_number] and call again. *)
Module Tenacity.

(** [stop_after_attempt(max_attempt_number)] *)
Definition stop_after_attempt (max_attempt_number attempt_number : nat) : bool :=
  (max_attempt_number <=? attempt_number)%nat.

(** [wait_exponential(multiplier, min, max)] with the default base 2:
    [max(max(0, min), min(multiplier * 2 ** (attempt_number - 1), max))] *)
Definition wait_exponential (multiplier min max : Z) (attempt_number : nat) : Z :=
  Z.max (Z.max 0 min)
        (Z.min (multiplier * 2 ^ (Z.of_nat attempt_number - 1)) max).

Inductive event : Type :=
| Attempt (attempt_number : nat)
| Sleep (seconds : Z).

Section Retrying.
Context {A : Type}.
Variable stop : nat -> bool.
Variable wait : nat -> Z.
(** the outcome of the wrapped function at its n-th call *)
Variable fn : nat -> result A.

Fixpoint retrying (fuel : nat) (attempt_number : nat)
  : option (result A * list event) :=
  match fuel with
  | O => None
  | S fuel' =>
      match fn attempt_number with
      | Ok v => Some (Ok v, [Attempt attempt_number])
      | Raise e =>
          if stop attempt_number then
            Some (Raise (RetryError e), [Attempt attempt_number])
          else
            match retrying fuel' (S attempt_number) with
            | Some (r, tr) =>
                Some (r, Attempt attempt_number
                         :: Sleep (wait attempt_number) :: tr)
            | None => None
            end
      end
  end.

(** the decorated function: attempts are numbered from 1 *)
Definition call (fuel : nat) : option (result A * list event) :=
  retrying fuel 1.
End Retrying.

Fixpoint attempts (tr : list event) : nat :=
  match tr with
  | [] => 0
  | Attempt _ :: tr' => S (attempts tr')
  | Sleep _ :: tr' => attempts tr'
  end.

Fixpoint sleeps (tr : list event) : list Z :=
  match tr with
  | [] => []
  | Attempt _ :: tr' => sleeps tr'
  | Sleep w :: tr' => w :: sleeps tr'
  end.

End Tenacity.

(** What [requests.get] hands back, as far as the fetchers look at it. *)
Record response : Type := mkResponse {
  status_code : Z;
  text : string;
  json_body : result json      (* [response.json()] *)
}.

(** [response.raise_for_status()] *)
Definition raise_for_status (r : response) : result unit :=
  if (400 <=? status_code r)%Z && (status_code r <? 600)%Z
  then Raise (HTTPError (status_code r))
  else Ok tt.

(** The body shared by [jira_request] and [confluence_request]: one GET. *)
Definition request_once (r : response) : result json :=
  if (status_code r =? 429)%Z then Raise (Exception "Rate limit exceeded")
  else if negb (status_code r =? 200)%Z then
    _ <- raise_for_status r ;; json_body r
  else json_body r.

(** [@retry(stop=stop_after_attempt(5), wait=wait_exponential(min=2, max=10))]
    around [jira_request]; [server n] is the response to the n-th GET. *)
Definition jira_request_retrying (server : nat -> response) (fuel : nat)
  : option (result json * list Tenacity.event) :=
  Tenacity.call (Tenacity.stop_after_attempt 5)
                (Tenacity.wait_exponential 1 2 10)
                (fun n => request_once (server n)) fuel.

(** [@retry(stop=stop_after_attempt(5),
            wait=wait_exponential(multiplier=1, min=2, max=10))]
    around [confluence_request]. *)
Definition confluence_request_retrying (server : nat -> response) (fuel : nat)
  : option (result json * list Tenacity.event) :=
  Tenacity.call (Tenacity.stop_after_attempt 5)
                (Tenacity.wait_exponential 1 2 10)
                (fun n => request_once (server n)) fuel.

(* ================================================================== *)
(** ** jiralinks.py *)
(* ================================================================== *)

Module Jira.

(** [r"https?://(?:drive|docs)\.google\.com/\S+"] *)
Definition GOOGLE_DRIVE_HARDLINK_REGEX : regex :=
  (google_host ;; Lit "/" ;; Plus non_space)%re.

(** [r"https?://[^\s]+"] *)
Definition url_pattern : regex :=
  (Lit "http" ;; Opt (Lit "s") ;; Lit "://" ;; Plus non_space)%re.

(** the two accumulators [extracted_text] and [links] *)
Definition acc : Type := string * list json.

Section Items.
Variable extract : json -> result acc.

(** [for item in items:
       text, found_links = extract(item)
       extracted_text += text + " "
       links.extend(found_links)] *)
Fixpoint extract_items (items : list json) (a : acc) : result acc :=
  match items with
  | [] => Ok a
  | item :: rest =>
      match extract item with
      | Raise e => Raise e
      | Ok (text, found_links) =>
          extract_items rest (fst a ++ text ++ " ", (snd a ++ found_links)%list)
      end
  end.
End Items.

(** ["attrs" in node and key in node["attrs"]] *)
Definition has_attr (node : json) (key : string) : result bool :=
  b <- py_in "attrs" node ;;
  if b then attrs <- py_item node "attrs" ;; py_in key attrs
  else Ok false.

(** [node["attrs"][key]] *)
Definition attr (node : json) (key : string) : result json :=
  attrs <- py_item node "attrs" ;; py_item attrs key.

(** [if "text" in content: extracted_text += content["text"] + " "] *)
Definition own_text (content : dict) (a : acc) : result acc :=
  if dict_has "text" content then
    t <- dict_item "text" content ;;
    ts <- py_add_space t ;;
    Ok (fst a ++ ts, snd a)
  else Ok a.

(** [if content.get("type") == "inlineCard" and "attrs" in content
        and "url" in content["attrs"]:
       links.append(content["attrs"]["url"])] *)
Definition own_card (content : dict) (a : acc) : result acc :=
  match dict_get "type" content with
  | Some ty =>
      if eq_str ty "inlineCard" then
        b <- has_attr (JObj content) "url" ;;
        if b then u <- attr (JObj content) "url" ;; Ok (fst a, (snd a ++ [u])%list)
        else Ok a
      else Ok a
  | None => Ok a
  end.

(** one turn of [for mark in content["marks"]] *)
Definition mark_link (mark : json) (links : list json) : result (list json) :=
  ty <- py_get mark "type" ;;
  match ty with
  | Some t =>
      if eq_str t "link" then
        b <- has_attr mark "href" ;;
        if b then h <- attr mark "href" ;; Ok (links ++ [h])%list
        else Ok links
      else Ok links
  | None => Ok links
  end.

Fixpoint mark_links (marks : list json) (links : list json) : result (list json) :=
  match marks with
  | [] => Ok links
  | mark :: rest => links' <- mark_link mark links ;; mark_links rest links'
  end.

(** [if "marks" in content: for mark in content["marks"]: ...] *)
Definition own_marks (content : dict) (a : acc) : result acc :=
  if dict_has "marks" content then
    m <- dict_item "marks" content ;;
    marks <- py_iter m ;;
    links <- mark_links marks (snd a) ;;
    Ok (fst a, links)
  else Ok a.

Fixpoint extract_text_and_links (content : json) : result acc :=
  match content with
  | JObj d =>
      a1 <- dict_find "content" (Ok (EmptyString, []))
              (fun c =>
                 match c with
                 | JList items =>
                     extract_items extract_text_and_links items (EmptyString, [])
                 | _ => Ok (EmptyString, [])
                 end) d ;;
      a2 <- own_text d a1 ;;
      a3 <- own_card d a2 ;;
      a4 <- own_marks d a3 ;;
      Ok (strip (fst a4), snd a4)
  | JList items =>
      a <- extract_items extract_text_and_links items (EmptyString, []) ;;
      Ok (strip (fst a), snd a)
  | _ => Ok (strip EmptyString, [])
  end.

(** ["drive.google.com" in link or "docs.google.com" in link] *)
Definition is_google (link : json) : result bool :=
  b <- py_in "drive.google.com" link ;;
  if b then Ok true else py_in "docs.google.com" link.

(** the same test on a URL found in the text *)
Definition is_google_url (url : string) : bool :=
  str_contains "drive.google.com" url || str_contains "docs.google.com" url.

Fixpoint keep_google (links : list json) (google_links : list json)
  : result (list json) :=
  match links with
  | [] => Ok google_links
  | link :: rest =>
      b <- is_google link ;;
      keep_google rest (if b then (google_links ++ [link])%list else google_links)
  end.

Definition extract_google_drive_links (text_or_structure : json)
  : result (list json) :=
  '(text, links) <-
     match text_or_structure with
     | JObj _ | JList _ => extract_text_and_links text_or_structure
     | JStr s => Ok (s, [])
     | _ => Ok (EmptyString, [])
     end ;;
  let all_urls := findall url_pattern text in
  let google_links := map JStr (filter is_google_url all_urls) in
  keep_google links google_links.

(** a report row: [Project, Issue Key, Summary, Link, Source] *)
Definition row : Type := list json.

(** [n] in decimal, as an f-string prints it *)
Definition decimal (n : nat) : string :=
  NilEmpty.string_of_uint (Nat.to_uint n).

Section World.
Variable JIRA_BASE_URL : string.
(** [str(v)] for a value that is not a string, as an f-string prints it *)
Variable repr : json -> string.
(** The decorated [jira_request(url, params)] as its callers see it: what
    the call returns, or what it raises once the retries are over.
    [params=None] is [JNull]. *)
Variable jira_request : string -> json -> result json.

Definition fmt (v : json) : string :=
  match v with JStr s => s | _ => repr v end.

(** [v.get(k, default)] *)
Definition get_or (v : json) (k : string) (default : json) : result json :=
  o <- py_get v k ;;
  Ok (match o with Some x => x | None => default end).

Definition get_all_projects : result json :=
  jira_request (JIRA_BASE_URL ++ "/rest/api/3/project") JNull.

Definition max_results : nat := 100.

Definition search_params (project_key : json) (start_at : Z) : json :=
  JObj [("jql", JStr ("project=" ++ fmt project_key));
        ("startAt", JNum start_at);
        ("maxResults", JNum (Z.of_nat max_results));
        ("fields",
         JStr "summary,description,comment,issuelinks,customfield_*,environment,issueType")].

(** the [while True] loop of [get_all_issues]; [None] when the fuel is
    used up before a short page arrives *)
Fixpoint get_all_issues_loop (fuel : nat) (project_key : json)
  (issues : list json) (start_at : Z) : option (result (list json)) :=
  match fuel with
  | O => None
  | S fuel' =>
      let url := JIRA_BASE_URL ++ "/rest/api/3/search" in
      match
        data <- jira_request url (search_params project_key start_at) ;;
        batch <- get_or data "issues" (JList []) ;;
        py_iter batch
      with
      | Raise e => Some (Raise e)
      | Ok batch_issues =>
          let issues := (issues ++ batch_issues)%list in
          if (List.length batch_issues <? max_results)%nat then Some (Ok issues)
          else get_all_issues_loop fuel' project_key issues
                 (start_at + Z.of_nat max_results)%Z
      end
  end.

Definition get_all_issues (fuel : nat) (project_key : json)
  : option (result (list json)) :=
  get_all_issues_loop fuel project_key [] 0%Z.

(** one element of the comprehension
    [[link.get("object", {}).get("url", "") for link in data
      if "object" in link]] *)
Definition remote_link_url (link : json) : result (option json) :=
  b <- py_in "object" link ;;
  if b then
    o <- get_or link "object" (JObj []) ;;
    u <- get_or o "url" (JStr "") ;;
    Ok (Some u)
  else Ok None.

Fixpoint remote_link_urls (data : list json) : result (list json) :=
  match data with
  | [] => Ok []
  | link :: rest =>
      o <- remote_link_url link ;;
      urls <- remote_link_urls rest ;;
      Ok (match o with Some u => u :: urls | None => urls end)
  end.

Definition get_issue_links (issue_key : json) : list json :=
  let url := JIRA_BASE_URL ++ "/rest/api/3/issue/" ++ fmt issue_key
             ++ "/remotelink" in
  try_except
    (data <- jira_request url JNull ;;
     links <- py_iter data ;;
     remote_link_urls links)
    (fun _ => []).

(** the first loop over the issues: its f-strings read [issue['key']]
    and the keys and items of [issue['fields']] *)
Definition debug_issue (issue : json) : result unit :=
  _ <- py_item issue "key" ;;
  fields <- py_item issue "fields" ;;
  match fields with
  | JObj _ => Ok tt
  | _ => Raise AttributeError
  end.

Fixpoint debug_issues (issues : list json) : result unit :=
  match issues with
  | [] => Ok tt
  | issue :: rest => _ <- debug_issue issue ;; debug_issues rest
  end.

(** [for link in links: results.append([project_key, issue_key, summary,
    link, source])] *)
Definition append_rows (project_key issue_key summary : json)
  (source : string) (links : list json) (results : list row) : list row :=
  (results ++
   map (fun link => [project_key; issue_key; summary; link; JStr source]) links)%list.

(** [for i, comment in enumerate(comments)], from index [i] on *)
Fixpoint process_issue_comments (project_key issue_key summary : json)
  (i : nat) (comments : list json) (results : list row) : result (list row) :=
  match comments with
  | [] => Ok results
  | comment :: rest =>
      comment_body <- get_or comment "body" (JObj []) ;;
      comment_links <- extract_google_drive_links comment_body ;;
      process_issue_comments project_key issue_key summary (S i) rest
        (append_rows project_key issue_key summary
           ("Comment " ++ decimal (i + 1)) comment_links results)
  end.

(** the loop of [process_comments(comments)]:
    [for comment in comments:
         comment_body = comment.get("body", {})
         extracted_links = extract_google_drive_links(comment_body)
         links.extend(extracted_links)] *)
Fixpoint process_comments_loop (comments : list json) (links : list json)
  : result (list json) :=
  match comments with
  | [] => Ok links
  | comment :: rest =>
      comment_body <- get_or comment "body" (JObj []) ;;
      extracted_links <- extract_google_drive_links comment_body ;;
      process_comments_loop rest (links ++ extracted_links)%list
  end.

Definition process_comments (comments : json) : result (list json) :=
  items <- py_iter comments ;;
  process_comments_loop items [].

(** [for field_name, field_value in issue["fields"].items()] *)
Fixpoint process_custom_fields (project_key issue_key summary : json)
  (items : dict) (results : list row) : result (list row) :=
  match items with
  | [] => Ok results
  | (field_name, field_value) :: rest =>
      if startswith "customfield_" field_name then
        custom_field_links <- extract_google_drive_links field_value ;;
        process_custom_fields project_key issue_key summary rest
          (append_rows project_key issue_key summary
             ("Field: " ++ field_name) custom_field_links results)
      else process_custom_fields project_key issue_key summary rest results
  end.

(** [for link in remote_links: if re.search(REGEX, link): ...];
    [re.search] takes a string only *)
Fixpoint process_remote_links (project_key issue_key summary : json)
  (remote_links : list json) (results : list row) : result (list row) :=
  match remote_links with
  | [] => Ok results
  | link :: rest =>
      match link with
      | JStr l =>
          process_remote_links project_key issue_key summary rest
            (if search GOOGLE_DRIVE_HARDLINK_REGEX l
             then append_rows project_key issue_key summary
                    "Remote Link" [link] results
             else results)
      | _ => Raise TypeError
      end
  end.

(** the body of the second [for issue in issues] loop *)
Definition process_issue (project_key issue : json) (results : list row)
  : result (list row) :=
  issue_key <- py_item issue "key" ;;
  fields <- py_item issue "fields" ;;
  summary <- get_or fields "summary" (JStr "N/A") ;;
  description <- get_or fields "description" (JObj []) ;;
  comment <- get_or fields "comment" (JObj []) ;;
  comments <- get_or comment "comments" (JList []) ;;
  summary_links <- extract_google_drive_links summary ;;
  let results :=
    append_rows project_key issue_key summary "Summary" summary_links results in
  description_links <- extract_google_drive_links description ;;
  let results :=
    append_rows project_key issue_key summary "Description"
      description_links results in
  comments <- py_iter comments ;;
  results <- process_issue_comments project_key issue_key summary 0 comments results ;;
  items <- match fields with JObj d => Ok d | _ => Raise AttributeError end ;;
  results <- process_custom_fields project_key issue_key summary items results ;;
  environment <- py_get fields "environment" ;;
  results <-
    match environment with
    | Some env =>
        if truthy env then
          environment_links <- extract_google_drive_links env ;;
          Ok (append_rows project_key issue_key summary "Environment"
                environment_links results)
        else Ok results
    | None => Ok results
    end ;;
  let remote_links := get_issue_links issue_key in
  process_remote_links project_key issue_key summary remote_links results.

Fixpoint process_issues (project_key : json) (issues : list json)
  (results : list row) : result (list row) :=
  match issues with
  | [] => Ok results
  | issue :: rest =>
      results' <- process_issue project_key issue results ;;
      process_issues project_key rest results'
  end.

(** [for project in projects] *)
Fixpoint process_projects (fuel : nat) (projects : list json)
  (results : list row) : option (result (list row)) :=
  match projects with
  | [] => Some (Ok results)
  | project :: rest =>
      match py_item project "key" with
      | Raise e => Some (Raise e)
      | Ok project_key =>
          match get_all_issues fuel project_key with
          | None => None
          | Some (Raise e) => Some (Raise e)
          | Some (Ok issues) =>
              match
                _ <- debug_issues issues ;;
                process_issues project_key issues results
              with
              | Raise e => Some (Raise e)
              | Ok results' => process_projects fuel rest results'
              end
          end
      end
  end.

(** [process_jira]: the rows handed to the report, or [Ok None] when
    the run returns before building one. [fuel] bounds each project's
    pagination. *)
Definition process_jira (fuel : nat) : option (result (option (list row))) :=
  match get_all_projects with
  | Raise e => Some (Raise e)
  | Ok projects =>
      if negb (truthy projects) then Some (Ok None)
      else
        match py_iter projects with
        | Raise e => Some (Raise e)
        | Ok ps =>
            match process_projects fuel ps [] with
            | None => None
            | Some (Raise e) => Some (Raise e)
            | Some (Ok results) => Some (Ok (Some results))
            end
        end
  end.
End World.

End Jira.

(* ================================================================== *)
(** ** confluencelinks.py *)
(* ================================================================== *)

Module Confluence.

(** [r"https?://(?:drive|docs)\.google\.com\S+"] *)
Definition GOOGLE_DRIVE_HARDLINK_REGEX : regex :=
  (google_host ;; Plus non_space)%re.

(** The smart-link pattern of the source, piece by piece:
    [<ac:structured-macro]  [[^>]*]  [ac:name="inline-card"]  [[^>]*]
    [data-card-url="]  [( [^"]* drive\.google\.com [^"]* )]  ["] *)
Definition GOOGLE_DRIVE_SMARTLINK_REGEX : regex :=
  (Lit "<ac:structured-macro" ;; Star (not_char ">") ;;
   Lit ("ac:name=" ++ dq ++ "inline-card" ++ dq) ;; Star (not_char ">") ;;
   Lit ("data-card-url=" ++ dq) ;;
   Group (Star (not_char "034") ;; Lit "drive.google.com" ;; Star (not_char "034")) ;;
   Lit dq)%re.

(** on a page body that is a string *)
Definition extract_google_drive_links (page_content : string)
  : list (string * string) :=
  let hard_links := findall GOOGLE_DRIVE_HARDLINK_REGEX page_content in
  let smart_links := findall GOOGLE_DRIVE_SMARTLINK_REGEX page_content in
  (map (fun link => (link, "Hardcoded")) hard_links ++
   map (fun link => (link, "Smart Link")) smart_links)%list.

(** a report row: [Site, Page, Link, Link Type, Text, Last Modified] *)
Definition row : Type := list json.

(** how one turn of a pagination loop ends *)
Inductive turn : Type :=
| ReturnEmpty                                    (* [return []] *)
| Leave (items : list json)                     (* [break], or [url] falsy *)
| Again (items : list json) (url : string).     (* next turn *)

Section World.
Variable CONFLUENCE_BASE_URL : string.
(** [str(v)] for a value that is not a string, as an f-string prints it *)
Variable repr : json -> string.
(** [str(e)] for a caught exception *)
Variable message : exn -> string.
(** The decorated [confluence_request(url, params)] as its callers see
    it: what the call returns, or what it raises once the retries are
    over. *)
Variable confluence_request : string -> json -> result json.

Definition fmt (v : json) : string :=
  match v with JStr s => s | _ => repr v end.

(** The body of [while url:], the same text in [get_all_spaces] and in
    [get_all_pages]:
    [try:
         data = confluence_request(url, params)
         if not data.get("results"): return []
         items.extend(data["results"])
         url = data["_links"].get("next")
         if url: url = CONFLUENCE_BASE_URL + url
     except Exception: break] *)
Definition turn_of (fetched : result json) (items : list json) : turn :=
  match fetched with
  | Raise _ => Leave items
  | Ok data =>
      match py_get data "results" with
      | Raise _ => Leave items
      | Ok None => ReturnEmpty
      | Ok (Some results) =>
          if negb (truthy results) then ReturnEmpty
          else
            match py_iter results with
            | Raise _ => Leave items
            | Ok more =>
                let items := (items ++ more)%list in
                match links <- py_item data "_links" ;; py_get links "next" with
                | Raise _ => Leave items
                | Ok None => Leave items
                | Ok (Some next) =>
                    if truthy next then
                      match next with
                      | JStr n => Again items (CONFLUENCE_BASE_URL ++ n)
                      | _ => Leave items
                      end
                    else Leave items
                end
            end
      end
  end.

(** The loop [while url:] with [url] a non-empty string. [early] is what
    [return []] gives; [after] is the code below the loop. [None] when the
    fuel is used up inside the loop. *)
Section Paginate.
Context {R : Type} (early : R) (after : list json -> R) (params : json).

Fixpoint paginate (fuel : nat) (items : list json) (url : string)
  : option R :=
  match fuel with
  | O => None
  | S fuel' =>
      match turn_of (confluence_request url params) items with
      | ReturnEmpty => Some early
      | Leave items' => Some (after items')
      | Again items' url' => paginate fuel' items' url'
      end
  end.
End Paginate.

Definition spaces_params : json := JObj [("limit", JNum 100)].

Definition pages_params (space_key : json) : json :=
  JObj [("type", JStr "page"); ("spaceKey", space_key);
        ("expand", JStr "body.storage,version"); ("status", JStr "current");
        ("limit", JNum 100)].

(** the lines below the loop of [get_all_spaces] read [space['key']] and
    [space['name']] of every space, for the log and for the listing *)
Fixpoint list_spaces (spaces : list json) : result unit :=
  match spaces with
  | [] => Ok tt
  | space :: rest =>
      _ <- py_item space "key" ;;
      _ <- py_item space "name" ;;
      list_spaces rest
  end.

(** The first [url] ends in [/rest/api/space], so the loop is entered. *)
Definition get_all_spaces (fuel : nat) : option (result (list json)) :=
  paginate (Ok []) (fun spaces => _ <- list_spaces spaces ;; Ok spaces)
    spaces_params fuel [] (CONFLUENCE_BASE_URL ++ "/rest/api/space").

(** The first [url] ends in [/rest/api/content], so the loop is entered. *)
Definition get_all_pages (fuel : nat) (space_key : json) : option (list json) :=
  paginate [] (fun pages => pages)
    (pages_params space_key) fuel [] (CONFLUENCE_BASE_URL ++ "/rest/api/content").

(** [content = page["body"]["storage"]["value"]
     links = extract_google_drive_links(content)];
    [re.findall] takes a string only *)
Definition page_links (page : json) : result (list (string * string)) :=
  body <- py_item page "body" ;;
  storage <- py_item body "storage" ;;
  content <- py_item storage "value" ;;
  match content with
  | JStr page_content => Ok (extract_google_drive_links page_content)
  | _ => Raise TypeError
  end.

(** the row of one match *)
Definition link_row (space_key page_title last_modified : json)
  (page_url : string) (l : string * string) : row :=
  [space_key; page_title; JStr (fst l); JStr (snd l); JStr page_url;
   last_modified].

(** the row appended when the [try] block raises [e] *)
Definition error_row (space_key page_title : json) (e : exn) : row :=
  [space_key; page_title; JStr "ERROR"; JStr "N/A"; JStr (message e);
   JStr "N/A"].

(** the body of [for page in pages] *)
Definition process_page (space_key page : json) (results : list row)
  : result (list row) :=
  page_id <- py_item page "id" ;;
  page_title <- py_item page "title" ;;
  version <- py_item page "version" ;;
  last_modified <- py_item version "when" ;;
  title <- match page_title with       (* [page_title.replace(' ', '-')] *)
           | JStr t => Ok (replace_char " " "-" t)
           | _ => Raise AttributeError
           end ;;
  let page_url := CONFLUENCE_BASE_URL ++ "/spaces/" ++ fmt space_key
                  ++ "/pages/" ++ fmt page_id ++ "/" ++ title in
  Ok (try_except
        (links <- page_links page ;;
         Ok (results ++
             map (link_row space_key page_title last_modified page_url) links)%list)
        (fun e => (results ++ [error_row space_key page_title e])%list)).

Fixpoint process_pages (space_key : json) (pages : list json)
  (results : list row) : result (list row) :=
  match pages with
  | [] => Ok results
  | page :: rest =>
      results' <- process_page space_key page results ;;
      process_pages space_key rest results'
  end.

(** [for space in spaces]; [fuel] bounds each space's pagination *)
Fixpoint process_spaces (fuel : nat) (spaces : list json) (results : list row)
  : option (result (list row)) :=
  match spaces with
  | [] => Some (Ok results)
  | space :: rest =>
      match py_item space "key" with
      | Raise e => Some (Raise e)
      | Ok space_key =>
          match get_all_pages fuel space_key with
          | None => None
          | Some pages =>
              match process_pages space_key pages results with
              | Raise e => Some (Raise e)
              | Ok results' => process_spaces fuel rest results'
              end
          end
      end
  end.

(** [process_confluence]: the rows handed to the report, or [Ok None]
    when the run returns before building one. *)
Definition process_confluence (fuel : nat)
  : option (result (option (list row))) :=
  match get_all_spaces fuel with
  | None => None
  | Some (Raise e) => Some (Raise e)
  | Some (Ok spaces) =>
      match spaces with
      | [] => Some (Ok None)
      | _ =>
          match process_spaces fuel spaces [] with
          | None => None
          | Some (Raise e) => Some (Raise e)
          | Some (Ok results) => Some (Ok (Some results))
          end
      end
  end.

End World.

End Confluence.

(* ================================================================== *)
(** ** Specification vocabulary *)
(* ================================================================== *)

(** every character of [s] is in the class [p] *)
Fixpoint all_chars (p : ascii -> bool) (s : string) : bool :=
  match s with
  | EmptyString => true
  | String c s' => p c && all_chars p s'
  end.

(** how many times the character [c] occurs in [s] *)
Fixpoint count_char (c : ascii) (s : string) : nat :=
  match s with
  | EmptyString => 0
  | String x s' => (if Ascii.eqb x c then 1 else 0) + count_char c s'
  end.

(** the trace of a call that fails [failures] times from attempt
    [attempt_number] on and then succeeds, under the decorator of the two
    fetchers *)
Fixpoint trace_after (failures attempt_number : nat) : list Tenacity.event :=
  match failures with
  | O => [Tenacity.Attempt attempt_number]
  | S failures' =>
      Tenacity.Attempt attempt_number
      :: Tenacity.Sleep (Tenacity.wait_exponential 1 2 10 attempt_number)
      :: trace_after failures' (S attempt_number)
  end.

(** *** Pages of results *)

(** [d] is a wiki answer that carries the records [records] (at least one)
    and, in its [_links], the cursor [next] (or none) *)
Definition wiki_page (d : dict) (records : list json) (next : option string)
  : Prop :=
  dict_get "results" d = Some (JList records) /\ records <> [] /\
  exists links,
    dict_get "_links" d = Some (JObj links) /\
    dict_get "next" links = option_map JStr next /\
    next <> Some EmptyString.

(** a space record that has a [key] and a [name] *)
Definition listable (space : json) : Prop :=
  exists sd k nm,
    space = JObj sd /\ dict_get "key" sd = Some k /\ dict_get "name" sd = Some nm.

(** the records of the pages [first], ..., [first + count - 1] *)
Definition records_of (page : nat -> list json) (first count : nat) : list json :=
  List.concat (map page (seq first count)).

(** *** Report rows *)

(** the labels the issue loop stamps on its rows *)
Definition jira_source (s : string) : Prop :=
  s = "Summary" \/ s = "Description"
  \/ (exists n, (1 <= n)%nat /\ s = "Comment " ++ Jira.decimal n)
  \/ (exists f, startswith "customfield_" f = true /\ s = "Field: " ++ f)
  \/ s = "Environment" \/ s = "Remote Link".

(** a row of the issue report: five columns, the last a label *)
Definition jira_row (r : Jira.row) : Prop :=
  exists project_key issue_key summary link s,
    r = [project_key; issue_key; summary; link; JStr s] /\ jira_source s.

(** a row of the wiki report: six columns; a match row, or the row of a
    page whose body could not be processed *)
Definition wiki_row (r : Confluence.row) : Prop :=
  exists space_key title link kind text last_modified,
    r = [space_key; title; JStr link; JStr kind; JStr text; last_modified] /\
    (kind = "Hardcoded" \/ kind = "Smart Link"
     \/ (link = "ERROR" /\ kind = "N/A" /\ last_modified = JStr "N/A")).

(** [results'] is [results] with rows appended, all of them in [ok] *)
Definition appends {A : Type} (ok : A -> Prop) (results results' : list A) : Prop :=
  exists new, results' = (results ++ new)%list /\ Forall ok new.

(** the Link column of a row of the issue report *)
Definition link_of (r : Jira.row) : json := nth 3 r JNull.

(** the link [l] has one of the two markers in it, as [is_google] tests *)
Definition google_link (l : json) : bool :=
  match Jira.is_google l with
  | Ok true => true
  | _ => false
  end.

(** a text node whose text is [url] and which links to [url] as well *)
Definition linked_url (url : string) : json :=
  JObj [("type", JStr "text"); ("text", JStr url);
        ("marks", JList [JObj [("type", JStr "link");
                               ("attrs", JObj [("href", JStr url)])]])].

(** [x] occurs in [s] as a contiguous piece *)
Definition piece_of (x s : string) : Prop := exists a b, s = a ++ x ++ b.

(** a remote link as the tracker sends it: a mapping whose [object], when
    it has one, is a mapping *)
Definition remote_link (l : json) : Prop :=
  exists d,
    l = JObj d /\
    (dict_get "object" d = None \/ exists o, dict_get "object" d = Some (JObj o)).

(** what a remote link is listed with: the [url] of its [object], the empty
    string when the object has none; nothing when the link has no [object] *)
Definition listed_url (l : json) : list json :=
  match l with
  | JObj d =>
      match dict_get "object" d with
      | Some (JObj o) =>
          [match dict_get "url" o with Some u => u | None => JStr "" end]
      | _ => []
      end
  | _ => []
  end.

(** the links of one comment: what the classifier returns on its body,
    [{}] standing for a body that is not there *)
Definition comment_links (comment : json) (links : list json) : Prop :=
  exists body,
    Jira.get_or comment "body" (JObj []) = Ok body /\
    Jira.extract_google_drive_links body = Ok links.

(** the rows of the comments from number [i + 1] on, [per] holding the
    links of each comment *)
Fixpoint comment_rows (project_key issue_key summary : json) (i : nat)
  (per : list (list json)) : list Jira.row :=
  match per with
  | [] => []
  | links :: rest =>
      (map (fun l => [project_key; issue_key; summary; l;
                      JStr ("Comment " ++ Jira.decimal (i + 1))]) links
       ++ comment_rows project_key issue_key summary (S i) rest)%list
  end.

(** the names of the fields the issue loop reads *)
Definition scanned_field (name : string) : bool :=
  String.eqb name "summary" || String.eqb name "description"
  || String.eqb name "comment" || String.eqb name "environment"
  || startswith "customfield_" name.

(** the fields of an issue without those the issue loop does not read *)
Definition scanned_fields (fields : dict) : dict :=
  filter (fun kv => scanned_field (fst kv)) fields.

Ltac bind_ok H :=
  match type of H with
  | Py.bind ?m _ = Ok _ =>
      let E := fresh "E" in
      destruct m eqn:E; cbn [Py.bind] in H; [|discriminate H]
  end.

(** the page body has in it a scheme, one of the two hosts and one more
    character that is not whitespace *)
Definition has_hard_link (body : string) : Prop :=
  exists a scheme host c b,
    (scheme = "http" \/ scheme = "https") /\ (host = "drive" \/ host = "docs") /\
    non_space c = true /\
    body = a ++ scheme ++ "://" ++ host ++ ".google.com" ++ String c b.

(** the page body has in it an inline-card macro: the opening of the tag,
    the name attribute and the url attribute in this order with no [>]
    between them, and an attribute value with [drive.google.com] in it *)
Definition has_inline_card (body : string) : Prop :=
  exists a g1 g2 u1 u2 b,
    all_chars (not_char ">") g1 = true /\ all_chars (not_char ">") g2 = true /\
    all_chars (not_char "034") u1 = true /\ all_chars (not_char "034") u2 = true /\
    body = a ++ "<ac:structured-macro" ++ g1
             ++ ("ac:name=" ++ dq ++ "inline-card" ++ dq) ++ g2
             ++ ("data-card-url=" ++ dq)
             ++ (u1 ++ "drive.google.com" ++ u2) ++ dq ++ b.

(** a run of characters of the class [p] cannot go on into [s] *)
Definition stops (p : ascii -> bool) (s : string) : Prop :=
  match s with
  | EmptyString => True
  | String c _ => p c = false
  end.

(** the patterns that end in a run [p+], after any prefix *)
Inductive ends_in_run (p : ascii -> bool) : regex -> Prop :=
| RunPlus : ends_in_run p (Plus p)
| RunSeq r1 r2 : ends_in_run p r2 -> ends_in_run p (Seq r1 r2).

(** a URL as the text scan takes it: a scheme, [://] and at least one
    character, with no whitespace in it *)
Definition plain_url (u : string) : Prop :=
  exists scheme c t,
    (scheme = "http" \/ scheme = "https") /\
    non_space c = true /\ all_chars non_space t = true /\
    u = scheme ++ "://" ++ String c t.




(** the part of a page body in front of the value of the url attribute of
    an inline-card macro: any text, the opening of the tag, the text up to
    the name attribute, the name attribute, the text up to the url
    attribute, and the name of the url attribute with its equals sign *)
Definition card_front (pre g1 g2 : string) : string :=
  pre ++ "<ac:structured-macro" ++ g1
      ++ ("ac:name=" ++ dq ++ "inline-card" ++ dq) ++ g2 ++ "data-card-url=".

(** [matches r cap s cap']: the text [s] is a match of [r], which turns the
    capture [cap] into [cap']. *)
Inductive matches : regex -> option string -> string -> option string -> Prop :=
| MLit l cap : matches (Lit l) cap l cap
| MClass p a cap : p a = true -> matches (Class p) cap (String a EmptyString) cap
| MSeq r1 r2 cap s1 cap1 s2 cap2 :
    matches r1 cap s1 cap1 -> matches r2 cap1 s2 cap2 ->
    matches (Seq r1 r2) cap (s1 ++ s2) cap2
| MAltL r1 r2 cap s cap' : matches r1 cap s cap' -> matches (Alt r1 r2) cap s cap'
| MAltR r1 r2 cap s cap' : matches r2 cap s cap' -> matches (Alt r1 r2) cap s cap'
| MOptSome r cap s cap' : matches r cap s cap' -> matches (Opt r) cap s cap'
| MOptNone r cap : matches (Opt r) cap EmptyString cap
| MStar p s cap : all_chars p s = true -> matches (Star p) cap s cap
| MPlus p a s cap :
    p a = true -> all_chars p s = true -> matches (Plus p) cap (String a s) cap
| MGroup r cap s cap' : matches r cap s cap' -> matches (Group r) cap s (Some s).

(** take apart a hypothesis that a text matches a given pattern *)
Ltac inv_matches :=
  repeat match goal with
    | H : matches (Seq _ _) _ _ _ |- _ => inversion H; subst; clear H
    | H : matches (Alt _ _) _ _ _ |- _ => inversion H; subst; clear H
    | H : matches (Opt _) _ _ _ |- _ => inversion H; subst; clear H
    | H : matches (Group _) _ _ _ |- _ => inversion H; subst; clear H
    | H : matches (Lit _) _ _ _ |- _ => inversion H; subst; clear H
    | H : matches (Star _) _ _ _ |- _ => inversion H; subst; clear H
    | H : matches (Plus _) _ _ _ |- _ => inversion H; subst; clear H
    | H : matches (Class _) _ _ _ |- _ => inversion H; subst; clear H
    end.

(** *** The extractor, described on well-typed trees *)

(** the children of an object node: its [content] when that is a list *)
Definition children_of (d : dict) : list json :=
  match dict_get "content" d with
  | Some (JList items) => items
  | _ => []
  end.

(** the node's own [text], if present *)
Definition own_texts (d : dict) : list string :=
  match dict_get "text" d with
  | Some (JStr t) => [t]
  | _ => []
  end.

(** [attrs[key]] of a node or mark, when [attrs] is a mapping that has it *)
Definition attr_values (d : dict) (key : string) : list json :=
  match dict_get "attrs" d with
  | Some (JObj attrs) =>
      match dict_get key attrs with Some v => [v] | None => [] end
  | _ => []
  end.

(** the URL of an inline card *)
Definition card_urls (d : dict) : list json :=
  match dict_get "type" d with
  | Some ty => if eq_str ty "inlineCard" then attr_values d "url" else []
  | None => []
  end.

(** the [href] of a link mark *)
Definition mark_hrefs (mark : json) : list json :=
  match mark with
  | JObj m =>
      match dict_get "type" m with
      | Some ty => if eq_str ty "link" then attr_values m "href" else []
      | None => []
      end
  | _ => []
  end.

Definition marks_of (d : dict) : list json :=
  match dict_get "marks" d with
  | Some (JList marks) => marks
  | _ => []
  end.

(** every text followed by one space, as the loops of the extractor
    build it *)
Fixpoint spaced (texts : list string) : string :=
  match texts with
  | [] => EmptyString
  | t :: rest => t ++ " " ++ spaced rest
  end.

(** The pair the amended claim C1 describes: the texts of the children
    and the node's own text, separated by single spaces and stripped; the
    links of the children, then the card URL, then the link marks. *)
Fixpoint described (content : json) : Jira.acc :=
  match content with
  | JObj d =>
      let cs :=
        dict_find "content" []
          (fun c => match c with JList items => map described items | _ => [] end) d in
      (strip (String.concat " " (map fst cs ++ own_texts d)),
       (List.concat (map snd cs) ++ card_urls d ++ flat_map mark_hrefs (marks_of d))%list)
  | JList items =>
      let cs := map described items in
      (strip (String.concat " " (map fst cs)), List.concat (map snd cs))
  | _ => (EmptyString, [])
  end.

(** The pair the claim C1 describes, read to the letter: as [described],
    without the stripping. *)
Fixpoint claimed (content : json) : Jira.acc :=
  match content with
  | JObj d =>
      let cs :=
        dict_find "content" []
          (fun c => match c with JList items => map claimed items | _ => [] end) d in
      (String.concat " " (map fst cs ++ own_texts d),
       (List.concat (map snd cs) ++ card_urls d ++ flat_map mark_hrefs (marks_of d))%list)
  | JList items =>
      let cs := map claimed items in
      (String.concat " " (map fst cs), List.concat (map snd cs))
  | _ => (EmptyString, [])
  end.

(** A mapping whose [attrs], if any, is a mapping. *)
Definition attrs_ok (d : dict) : bool :=
  match dict_get "attrs" d with
  | Some (JObj _) | None => true
  | Some _ => false
  end.

Definition mark_ok (mark : json) : bool :=
  match mark with JObj m => attrs_ok m | _ => false end.

(** The fields the extractor reads have the types of the document format:
    [text] is a string, [attrs] a mapping, [marks] a list of mappings. *)
Definition fields_ok (d : dict) : bool :=
  match dict_get "text" d with Some (JStr _) | None => true | Some _ => false end
  && attrs_ok d
  && match dict_get "marks" d with
     | Some (JList marks) => forallb mark_ok marks
     | None => true
     | Some _ => false
     end.

Fixpoint well_typed (content : json) : bool :=
  match content with
  | JObj d =>
      dict_find "content" true
        (fun c => match c with JList items => forallb well_typed items | _ => true end) d
      && fields_ok d
  | JList items => forallb well_typed items
  | _ => true
  end.

(** *** Regrouping the children of a node *)

(** two outcomes of the extractor with the same links, or the same
    exception *)
Definition same_links (r r' : result Jira.acc) : Prop :=
  match r, r' with
  | Ok a, Ok a' => snd a = snd a'
  | Raise e, Raise e' => e = e'
  | _, _ => False
  end.

(** a step that treats the text and the links apart keeps [same_links] *)
Definition links_step (f : Jira.acc -> result Jira.acc) : Prop :=
  forall t t' l, same_links (f (t, l)) (f (t', l)).

(** the extractor finds some text in [c] *)
Definition has_text (c : json) : Prop :=
  exists t l, Jira.extract_text_and_links c = Ok (t, l) /\ t <> EmptyString.

(** [d'] is [d] with the children [run] of its [content] list wrapped in a
    nested list *)
Definition regrouped (d d' : dict) (pre run post : list json) : Prop :=
  dict_get "content" d = Some (JList (pre ++ run ++ post)%list) /\
  dict_get "content" d' = Some (JList (pre ++ JList run :: post)%list) /\
  forall k, k <> "content" -> dict_get k d' = dict_get k d.

(** The host of a URL: what stands between [://] and the next [/], [?]
    or [#]. *)
Fixpoint until_delimiter (s : string) : string :=
  match s with
  | EmptyString => EmptyString
  | String c s' =>
      if (Ascii.eqb c "/" || Ascii.eqb c "?" || Ascii.eqb c "#")%bool
      then EmptyString
      else String c (until_delimiter s')
  end.

Fixpoint after_scheme (s : string) : string :=
  match s with
  | EmptyString => EmptyString
  | String _ s' =>
      if startswith "://" s
      then match s' with String _ (String _ rest) => rest | _ => EmptyString end
      else after_scheme s'
  end.

Definition url_host (url : string) : string := until_delimiter (after_scheme url).

(** the host has one of the two domain markers in it *)
Definition host_has_marker (url : string) : bool :=
  str_contains "drive.google.com" (url_host url)
  || str_contains "docs.google.com" (url_host url).

(** Small worlds on which the paginators are run. *)
Module Examples.

Definition rate_limited : exn := RetryError (Exception "Rate limit exceeded").

Definition wiki_base : string := "https://wiki.example".

(** a first page with one record and a [next] link *)
Definition wiki_page1 : json :=
  JObj [("results", JList [JObj [("id", JStr "1")]]);
        ("_links", JObj [("next", JStr "/rest/api/content?start=1")])].

(** a page with no record *)
Definition wiki_empty_page : json :=
  JObj [("results", JList []); ("_links", JObj [])].

(** the wiki answers the first request; the second one fails for good *)
Definition wiki_page2_fails (url : string) (params : json) : result json :=
  if String.eqb url (wiki_base ++ "/rest/api/content") then Ok wiki_page1
  else Raise rate_limited.

(** the wiki answers the first request for pages or for spaces with
    [wiki_page1]; the page that follows is empty *)
Definition wiki_page2_empty (url : string) (params : json) : result json :=
  if (String.eqb url (wiki_base ++ "/rest/api/content")
      || String.eqb url (wiki_base ++ "/rest/api/space"))%bool
  then Ok wiki_page1
  else Ok wiki_empty_page.

Definition tracker_base : string := "https://tracker.example".

Definition an_issue : json :=
  JObj [("key", JStr "PRJ-1"); ("fields", JObj [("summary", JStr "")])].

(** a full page: as many issues as were asked for *)
Definition tracker_full_page : json :=
  JObj [("issues", JList (repeat an_issue 100))].

(** the tracker answers the request at offset 0; the next one fails for good *)
Definition tracker_page2_fails (url : string) (params : json) : result json :=
  match py_get params "startAt" with
  | Ok (Some (JNum 0)) => Ok tracker_full_page
  | _ => Raise rate_limited
  end.

(** the text of an inline-card macro up to the value of its
    [data-card-url], without its first character *)
Definition card_opening_tail : string :=
  "ac:structured-macro ac:name=" ++ dq ++ "inline-card" ++ dq ++
  " data-card-url=" ++ dq.

Definition card_opening : string := String "<" card_opening_tail.

(** a wiki page body made of one inline-card macro with the given
    [data-card-url] *)
Definition inline_card (url : string) : string :=
  card_opening ++ url ++ dq ++ "/>".

(** a text node of the document format *)
Definition text_node (s : string) : json :=
  JObj [("type", JStr "text"); ("text", JStr s)].

(** an issue with a custom field, set by an app, whose [text] is a number *)
Definition bad_issue : json :=
  JObj [("key", JStr "PRJ-1");
        ("fields", JObj [("summary", JStr "first");
                         ("customfield_10050",
                          JObj [("type", JStr "rating"); ("text", JNum 5)])])].

Definition good_issue : json :=
  JObj [("key", JStr "PRJ-2");
        ("fields", JObj [("summary", JStr "see https://drive.google.com/file/d/1")])].

(** a tracker with one project and the two issues above, in this order *)
Definition tracker_with_bad_issue (url : string) (params : json) : result json :=
  if String.eqb url (tracker_base ++ "/rest/api/3/project")
  then Ok (JList [JObj [("key", JStr "PRJ")]])
  else if String.eqb url (tracker_base ++ "/rest/api/3/search")
  then Ok (JObj [("issues", JList [bad_issue; good_issue])])
  else Ok (JList []).

(** a page that comes without its body *)
Definition bad_page : json :=
  JObj [("id", JStr "1"); ("title", JStr "No body");
        ("version", JObj [("when", JStr "2024-01-01")])].

Definition good_page : json :=
  JObj [("id", JStr "2"); ("title", JStr "Plan");
        ("version", JObj [("when", JStr "2024-01-02")]);
        ("body",
         JObj [("storage",
                JObj [("value", JStr "see https://drive.google.com/file/d/1")])])].

(** a wiki with one space and the two pages above, in this order *)
Definition wiki_with_bad_page (url : string) (params : json) : result json :=
  if String.eqb url (wiki_base ++ "/rest/api/space")
  then Ok (JObj [("results", JList [JObj [("key", JStr "DOC"); ("name", JStr "Docs")]]);
                 ("_links", JObj [])])
  else if String.eqb url (wiki_base ++ "/rest/api/content")
  then Ok (JObj [("results", JList [bad_page; good_page]); ("_links", JObj [])])
  else Raise rate_limited.

(** an issue with an empty summary and nothing else, as scenario C has it *)
Definition bare_fields : dict :=
  [("summary", JStr ""); ("description", JNull);
   ("comment", JObj [("comments", JList [])]);
   ("customfield_10010", JNull); ("environment", JNull)].

Definition bare_issue : dict :=
  [("key", JStr "PRJ-7"); ("fields", JObj bare_fields)].

(** a tracker that knows one remote link of every issue *)
Definition tracker_with_remote_link (link : string) (url : string) (params : json)
  : result json :=
  Ok (JList [JObj [("id", JNum 10000); ("object", JObj [("url", JStr link)])]]).

(** a tracker with 101 issues: a full page, then a page of one *)
Definition tracker_two_pages (url : string) (params : json) : result json :=
  match py_get params "startAt" with
  | Ok (Some (JNum 0)) => Ok tracker_full_page
  | Ok (Some (JNum 100)) => Ok (JObj [("issues", JList [an_issue])])
  | _ => Raise rate_limited
  end.

(** a wiki with two pages of one record each *)
Definition wiki_two_pages (url : string) (params : json) : result json :=
  if String.eqb url (wiki_base ++ "/rest/api/content") then Ok wiki_page1
  else if String.eqb url (wiki_base ++ "/rest/api/content?start=1")
  then Ok (JObj [("results", JList [JObj [("id", JStr "2")]]); ("_links", JObj [])])
  else Raise rate_limited.

(** a wiki whose only page of spaces has a space without a name *)
Definition wiki_nameless_space (url : string) (params : json) : result json :=
  Ok (JObj [("results", JList [JObj [("key", JStr "DOC"); ("name", JStr "Docs")];
                               JObj [("key", JStr "TMP")]]);
            ("_links", JObj [])]).

(** a tracker with one project, whose only issue is [bare_issue] with one
    remote link to a folder *)
Definition tracker_with_one_issue (url : string) (params : json) : result json :=
  if String.eqb url (tracker_base ++ "/rest/api/3/project")
  then Ok (JList [JObj [("key", JStr "PRJ")]])
  else if String.eqb url (tracker_base ++ "/rest/api/3/search")
  then Ok (JObj [("issues", JList [JObj bare_issue])])
  else tracker_with_remote_link "https://drive.google.com/drive/folders/xyz"
         url params.

(** a tracker whose list of remote links has a null after a good link *)
Definition tracker_with_null_remote_link (url : string) (params : json)
  : result json :=
  Ok (JList [JObj [("object", JObj [("url", JStr "https://docs.google.com/d/1")])];
             JNull]).

(** a comment whose body is plain text with one link *)
Definition a_comment : json :=
  JObj [("body", JStr "see https://docs.google.com/d/1 please")].

(** a comment without a link *)
Definition no_link_comment : json :=
  JObj [("body", JStr "thanks")].


(** an inline-card macro with the url attribute in front of the name *)
Definition reversed_card (url : string) : string :=
  "<ac:structured-macro data-card-url=" ++ dq ++ url ++ dq
    ++ " ac:name=" ++ dq ++ "inline-card" ++ dq ++ "/>".

Definition not_found_response : response :=
  mkResponse 404 "Not Found" (Raise JSONDecodeError).

Definition ok_response (body : json) : response :=
  mkResponse 200 "" (Ok body).

Definition rate_limit_response : response :=
  mkResponse 429 "Too Many Requests" (Raise JSONDecodeError).

End Examples.

(* ================================================================== *)
(** ** Facts about strings *)
(* ================================================================== *)

Lemma append_nil_r (s : string) : s ++ "" = s.
Proof. induction s as [|c s IH]; simpl; [reflexivity | now rewrite IH]. Qed.

Lemma append_assoc (a b c : string) : (a ++ b) ++ c = a ++ b ++ c.
Proof. induction a as [|x a IH]; simpl; [reflexivity | now rewrite IH]. Qed.

Lemma length_append (a b : string) :
  String.length (a ++ b) = (String.length a + String.length b)%nat.
Proof. induction a as [|x a IH]; simpl; [reflexivity | now rewrite IH]. Qed.

Lemma take_append (a b : string) : take (String.length a) (a ++ b) = a.
Proof. induction a as [|x a IH]; simpl; [now destruct b | now rewrite IH]. Qed.

Lemma take_consumed (a b : string) :
  take (String.length (a ++ b) - String.length b) (a ++ b) = a.
Proof.
  rewrite length_append.
  replace (String.length a + String.length b - String.length b)%nat
    with (String.length a) by lia.
  apply take_append.
Qed.

Lemma startswith_append (m b : string) : startswith m (m ++ b) = true.
Proof.
  induction m as [|x m IH]; simpl; [reflexivity|].
  now rewrite Ascii.eqb_refl, IH.
Qed.

Lemma str_contains_prefix (m s : string) :
  startswith m s = true -> str_contains m s = true.
Proof. destruct s; simpl; intros ->; reflexivity. Qed.

Lemma str_contains_here (m b : string) : str_contains m (m ++ b) = true.
Proof. apply str_contains_prefix, startswith_append. Qed.

Lemma str_contains_later (m a s : string) :
  str_contains m s = true -> str_contains m (a ++ s) = true.
Proof.
  intros H. induction a as [|x a IH]; simpl; [exact H|].
  rewrite IH. apply orb_true_r.
Qed.

Lemma str_contains_mid (m a b : string) : str_contains m (a ++ m ++ b) = true.
Proof. apply str_contains_later, str_contains_here. Qed.

(* ================================================================== *)
(** ** The matcher returns matches only *)
(* ================================================================== *)

Section Soundness.
Context {A : Type}.

Lemma lit_sound (l : string) (k : string -> option A) (s : string) (x : A) :
  lit l k s = Some x -> exists s2, s = l ++ s2 /\ k s2 = Some x.
Proof.
  revert s. induction l as [|a l IH]; simpl; intros s H.
  - now exists s.
  - destruct s as [|c s]; [discriminate|].
    destruct (Ascii.eqb_spec a c) as [->|]; [|discriminate].
    destruct (IH _ H) as (s2 & -> & Hk). now exists s2.
Qed.

Lemma star_sound (p : ascii -> bool) (k : string -> option A) (s : string) (x : A) :
  star p k s = Some x ->
  exists s1 s2, s = s1 ++ s2 /\ all_chars p s1 = true /\ k s2 = Some x.
Proof.
  induction s as [|c s IH]; simpl; intros H.
  - now exists "", "".
  - destruct (p c) eqn:Hp.
    + destruct (star p k s) as [y|] eqn:Hs.
      * injection H as ->.
        destruct (IH eq_refl) as (s1 & s2 & -> & Hall & Hk).
        exists (String c s1), s2. simpl. now rewrite Hp, Hall.
      * now exists "", (String c s).
    + now exists "", (String c s).
Qed.

Lemma bt_sound (r : regex) :
  forall (k : option string -> string -> option A) cap s x,
    bt r k cap s = Some x ->
    exists s1 s2 cap',
      s = s1 ++ s2 /\ matches r cap s1 cap' /\ k cap' s2 = Some x.
Proof.
  induction r as [l|p|r1 IH1 r2 IH2|r1 IH1 r2 IH2|r1 IH1|p|p|r1 IH1];
    simpl; intros k cap s x H.
  - destruct (lit_sound _ _ _ _ H) as (s2 & -> & Hk).
    exists l, s2, cap. repeat split; [constructor | exact Hk].
  - destruct s as [|c s]; [discriminate|].
    destruct (p c) eqn:Hp; [|discriminate].
    exists (String c ""), s, cap. repeat split; [now constructor | exact H].
  - destruct (IH1 _ _ _ _ H) as (s1 & s' & cap1 & -> & M1 & H2).
    destruct (IH2 _ _ _ _ H2) as (s2 & s3 & cap2 & -> & M2 & Hk).
    exists (s1 ++ s2), s3, cap2. rewrite append_assoc.
    repeat split; [econstructor; eassumption | exact Hk].
  - destruct (bt r1 k cap s) as [y|] eqn:E.
    + injection H as ->.
      destruct (IH1 _ _ _ _ E) as (s1 & s2 & cap' & -> & M & Hk).
      exists s1, s2, cap'. repeat split; [now apply MAltL | exact Hk].
    + destruct (IH2 _ _ _ _ H) as (s1 & s2 & cap' & -> & M & Hk).
      exists s1, s2, cap'. repeat split; [now apply MAltR | exact Hk].
  - destruct (bt r1 k cap s) as [y|] eqn:E.
    + injection H as ->.
      destruct (IH1 _ _ _ _ E) as (s1 & s2 & cap' & -> & M & Hk).
      exists s1, s2, cap'. repeat split; [now apply MOptSome | exact Hk].
    + exists "", s, cap. repeat split; [apply MOptNone | exact H].
  - destruct (star_sound _ _ _ _ H) as (s1 & s2 & -> & Hall & Hk).
    exists s1, s2, cap. repeat split; [now constructor | exact Hk].
  - destruct s as [|c s]; [discriminate|].
    destruct (p c) eqn:Hp; [|discriminate].
    destruct (star_sound _ _ _ _ H) as (s1 & s2 & -> & Hall & Hk).
    exists (String c s1), s2, cap. repeat split; [now constructor | exact Hk].
  - destruct (IH1 _ _ _ _ H) as (s1 & s2 & cap' & -> & M & Hk).
    rewrite take_consumed in Hk.
    exists s1, s2, (Some s1). repeat split; [econstructor; eassumption | exact Hk].
Qed.
End Soundness.

Lemma match_at_sound (r : regex) (s whole rest : string) (cap : option string) :
  match_at r s = Some (whole, cap, rest) ->
  s = whole ++ rest /\ matches r None whole cap.
Proof.
  unfold match_at. intros H.
  destruct (bt_sound r _ _ _ _ H) as (s1 & s2 & cap' & -> & M & Hk).
  rewrite take_consumed in Hk. injection Hk as <- <- <-. now split.
Qed.

Lemma findall_from_sound (r : regex) (s : string) :
  forall skip x,
    In x (findall_from r skip s) ->
    exists whole cap, matches r None whole cap /\ x = item_of r whole cap.
Proof.
  induction s as [|c s IH]; intros skip x; simpl.
  - destruct skip; [|intros []].
    destruct (match_at r "") as [[[whole cap] rest]|] eqn:E; [|intros []].
    intros [<-|[]]. apply match_at_sound in E as [_ M]. now exists whole, cap.
  - destruct skip; [|apply IH].
    destruct (match_at r (String c s)) as [[[whole cap] rest]|] eqn:E; [|apply IH].
    intros [<-|Hin]; [|now apply IH in Hin].
    apply match_at_sound in E as [_ M]. now exists whole, cap.
Qed.

Lemma findall_sound (r : regex) (s x : string) :
  In x (findall r s) ->
  exists whole cap, matches r None whole cap /\ x = item_of r whole cap.
Proof. apply findall_from_sound. Qed.

(* ================================================================== *)
(** ** What the patterns match *)
(* ================================================================== *)

Lemma google_host_matches (cap cap' : option string) (s : string) :
  matches google_host cap s cap' ->
  cap' = cap /\
  exists scheme name,
    s = scheme ++ "://" ++ name ++ ".google.com" /\
    (scheme = "http" \/ scheme = "https") /\ (name = "drive" \/ name = "docs").
Proof.
  unfold google_host. intros H. inv_matches; split; try reflexivity.
  - exists "https", "drive". repeat split; auto.
  - exists "http", "drive". repeat split; auto.
  - exists "https", "docs". repeat split; auto.
  - exists "http", "docs". repeat split; auto.
Qed.

Lemma google_host_marker (s rest : string) (cap cap' : option string) :
  matches google_host cap s cap' ->
  Jira.is_google_url (s ++ rest) = true.
Proof.
  intros H. apply google_host_matches in H as (_ & scheme & name & -> & Hs & Hn).
  unfold Jira.is_google_url. apply orb_true_iff.
  destruct Hs as [-> | ->], Hn as [-> | ->];
    (left; reflexivity) || (right; reflexivity).
Qed.

(** A smart-link item is the captured attribute value, and it has
    [drive.google.com] in it. *)
Lemma smart_link_marker (body x : string) :
  In x (findall Confluence.GOOGLE_DRIVE_SMARTLINK_REGEX body) ->
  str_contains "drive.google.com" x = true.
Proof.
  intros H. apply findall_sound in H as (whole & cap & M & ->).
  unfold Confluence.GOOGLE_DRIVE_SMARTLINK_REGEX in M.
  inv_matches. unfold item_of.
  change (has_group Confluence.GOOGLE_DRIVE_SMARTLINK_REGEX) with true.
  cbv iota. apply str_contains_mid.
Qed.

(** A hard-link item of the wiki pattern starts with the host part. *)
Lemma wiki_hard_link_marker (body x : string) :
  In x (findall Confluence.GOOGLE_DRIVE_HARDLINK_REGEX body) ->
  Jira.is_google_url x = true.
Proof.
  intros H. apply findall_sound in H as (whole & cap & M & ->).
  unfold Confluence.GOOGLE_DRIVE_HARDLINK_REGEX in M.
  inversion M; subst; clear M. unfold item_of. simpl.
  eapply google_host_marker; eassumption.
Qed.

(* ================================================================== *)
(** ** The fetchers *)
(* ================================================================== *)

Lemma request_once_429 (r : response) :
  status_code r = 429%Z ->
  request_once r = Raise (Exception "Rate limit exceeded").
Proof. unfold request_once. now intros ->. Qed.

Lemma wait_exponential_bounds (n : nat) :
  (2 <= Tenacity.wait_exponential 1 2 10 n <= 10)%Z.
Proof. unfold Tenacity.wait_exponential. lia. Qed.

(** The decorated call needs no more than five turns of tenacity's loop,
    whatever the server answers. *)
Lemma retrying_five_attempts (server : nat -> response) (fuel : nat) :
  (5 <= fuel)%nat ->
  exists r tr,
    jira_request_retrying server fuel = Some (r, tr) /\
    (Tenacity.attempts tr <= 5)%nat.
Proof.
  intros Hf. do 5 (destruct fuel as [|fuel]; [lia|]). clear Hf.
  unfold jira_request_retrying, Tenacity.call. simpl.
  repeat match goal with
    | |- context [request_once (server ?n)] =>
        destruct (request_once (server n)); simpl;
        [eexists _, _; split; [reflexivity | simpl; lia] | ]
    end.
  eexists _, _; split; [reflexivity | simpl; lia].
Qed.

(** C6. When every attempt meets HTTP 429, the decorated fetcher (the same
    for [jira_request] and [confluence_request]) makes exactly five
    attempts, sleeps 2, 2, 4 and 8 time-units between them, and then raises
    to its caller (tenacity's RetryError around the rate-limit exception);
    every wait the schedule can produce lies between 2 and 10. *)
Theorem fetcher_retry_policy (server : nat -> response) (fuel : nat) :
  (forall n, status_code (server n) = 429%Z) ->
  (5 <= fuel)%nat ->
  let failure := Raise (RetryError (Exception "Rate limit exceeded")) in
  let trace :=
    [Tenacity.Attempt 1; Tenacity.Sleep 2; Tenacity.Attempt 2; Tenacity.Sleep 2;
     Tenacity.Attempt 3; Tenacity.Sleep 4; Tenacity.Attempt 4; Tenacity.Sleep 8;
     Tenacity.Attempt 5] in
  jira_request_retrying server fuel = Some (failure, trace) /\
  confluence_request_retrying server fuel = Some (failure, trace) /\
  Tenacity.attempts trace = 5%nat /\
  Tenacity.sleeps trace = [2; 2; 4; 8]%Z /\
  (forall n, 2 <= Tenacity.wait_exponential 1 2 10 n <= 10)%Z.
Proof.
  intros H Hf. do 5 (destruct fuel as [|fuel]; [lia|]). clear Hf.
  unfold jira_request_retrying, confluence_request_retrying, Tenacity.call.
  simpl. rewrite !request_once_429 by apply H. simpl.
  repeat split; apply wait_exponential_bounds.
Qed.

Lemma fetcher_retry_policy_witness :
  jira_request_retrying (fun _ => Examples.rate_limit_response) 5
  = Some (Raise (RetryError (Exception "Rate limit exceeded")),
          [Tenacity.Attempt 1; Tenacity.Sleep 2; Tenacity.Attempt 2;
           Tenacity.Sleep 2; Tenacity.Attempt 3; Tenacity.Sleep 4;
           Tenacity.Attempt 4; Tenacity.Sleep 8; Tenacity.Attempt 5]).
Proof.
  apply (fetcher_retry_policy (fun _ => Examples.rate_limit_response) 5).
  - intros n. reflexivity.
  - lia.
Defined.

(* ================================================================== *)
(** ** The paginators *)
(* ================================================================== *)

Section WikiTurns.
Variable BASE : string.

Lemma turn_of_raise (e : exn) (items : list json) :
  Confluence.turn_of BASE (Raise e) items = Confluence.Leave items.
Proof. reflexivity. Qed.

Lemma turn_of_again (d links : dict) (records : list json) (n : string)
      (items : list json) :
  dict_get "results" d = Some (JList records) -> records <> [] ->
  dict_get "_links" d = Some (JObj links) ->
  dict_get "next" links = Some (JStr n) -> n <> "" ->
  Confluence.turn_of BASE (Ok (JObj d)) items
  = Confluence.Again (items ++ records) (BASE ++ n).
Proof.
  intros Hr Hne Hl Hn Hnn. unfold Confluence.turn_of. simpl.
  rewrite Hr. destruct records as [|r records]; [congruence|]. simpl.
  unfold dict_item. rewrite Hl. simpl. rewrite Hn.
  destruct n; [congruence | reflexivity].
Qed.

Lemma turn_of_empty (d : dict) (items : list json) :
  dict_get "results" d = Some (JList []) ->
  Confluence.turn_of BASE (Ok (JObj d)) items = Confluence.ReturnEmpty.
Proof. intros Hr. unfold Confluence.turn_of. simpl. now rewrite Hr. Qed.
End WikiTurns.

(** C3. Page 2 of 3 cannot be fetched. The wiki loop leaves with the
    records of page 1. The issue-tracker loop has no handler around its
    fetch: the failure reaches the caller of [get_all_issues] and the
    issues of page 1 are lost with it. *)
Theorem paginator_page2_failure :
  (forall BASE request space_key d links records n e fuel,
      request (BASE ++ "/rest/api/content") (Confluence.pages_params space_key)
      = Ok (JObj d) ->
      dict_get "results" d = Some (JList records) -> records <> [] ->
      dict_get "_links" d = Some (JObj links) ->
      dict_get "next" links = Some (JStr n) -> n <> "" ->
      request (BASE ++ n) (Confluence.pages_params space_key) = Raise e ->
      Confluence.get_all_pages BASE request (S (S fuel)) space_key = Some records)
  /\
  (forall BASE repr request project_key d batch e fuel,
      request (BASE ++ "/rest/api/3/search") (Jira.search_params repr project_key 0)
      = Ok (JObj d) ->
      dict_get "issues" d = Some (JList batch) -> List.length batch = 100%nat ->
      request (BASE ++ "/rest/api/3/search") (Jira.search_params repr project_key 100)
      = Raise e ->
      Jira.get_all_issues BASE repr request (S (S fuel)) project_key
      = Some (Raise e)).
Proof.
  split.
  - intros BASE request space_key d links records n e fuel H1 Hr Hne Hl Hn Hnn H2.
    unfold Confluence.get_all_pages. simpl.
    rewrite H1, (turn_of_again BASE d links records n) by assumption.
    now rewrite H2.
  - intros BASE repr request project_key d batch e fuel H1 Hi Hlen H2.
    unfold Jira.get_all_issues. simpl.
    rewrite H1. simpl. rewrite Hi. simpl. rewrite Hlen. simpl.
    now rewrite H2.
Qed.

Lemma paginator_page2_failure_witness :
  Confluence.get_all_pages Examples.wiki_base Examples.wiki_page2_fails 2 (JStr "DOC")
  = Some [JObj [("id", JStr "1")]]
  /\ Jira.get_all_issues Examples.tracker_base (fun _ => "") Examples.tracker_page2_fails
       2 (JStr "PRJ")
     = Some (Raise Examples.rate_limited).
Proof.
  split.
  - eapply (proj1 paginator_page2_failure Examples.wiki_base Examples.wiki_page2_fails
              (JStr "DOC") _ _ _ "/rest/api/content?start=1" _ 0);
      try reflexivity; discriminate.
  - eapply (proj2 paginator_page2_failure Examples.tracker_base (fun _ => "")
              Examples.tracker_page2_fails (JStr "PRJ") _ _ _ 0);
      reflexivity.
Defined.

(** C4. A later page with an empty result list: both wiki paginators
    return the empty list, whatever the earlier pages brought; the records
    gathered so far are dropped. *)
Theorem wiki_empty_page_drops_earlier_pages :
  (forall BASE request space_key d links records n d2 fuel,
      request (BASE ++ "/rest/api/content") (Confluence.pages_params space_key)
      = Ok (JObj d) ->
      dict_get "results" d = Some (JList records) -> records <> [] ->
      dict_get "_links" d = Some (JObj links) ->
      dict_get "next" links = Some (JStr n) -> n <> "" ->
      request (BASE ++ n) (Confluence.pages_params space_key) = Ok (JObj d2) ->
      dict_get "results" d2 = Some (JList []) ->
      Confluence.get_all_pages BASE request (S (S fuel)) space_key = Some [])
  /\
  (forall BASE request d links records n d2 fuel,
      request (BASE ++ "/rest/api/space") Confluence.spaces_params = Ok (JObj d) ->
      dict_get "results" d = Some (JList records) -> records <> [] ->
      dict_get "_links" d = Some (JObj links) ->
      dict_get "next" links = Some (JStr n) -> n <> "" ->
      request (BASE ++ n) Confluence.spaces_params = Ok (JObj d2) ->
      dict_get "results" d2 = Some (JList []) ->
      Confluence.get_all_spaces BASE request (S (S fuel)) = Some (Ok [])).
Proof.
  split.
  - intros BASE request space_key d links records n d2 fuel H1 Hr Hne Hl Hn Hnn H2 Hr2.
    unfold Confluence.get_all_pages. simpl.
    rewrite H1, (turn_of_again BASE d links records n) by assumption.
    now rewrite H2, (turn_of_empty BASE d2) by assumption.
  - intros BASE request d links records n d2 fuel H1 Hr Hne Hl Hn Hnn H2 Hr2.
    unfold Confluence.get_all_spaces. simpl.
    rewrite H1, (turn_of_again BASE d links records n) by assumption.
    now rewrite H2, (turn_of_empty BASE d2) by assumption.
Qed.

Lemma wiki_empty_page_drops_earlier_pages_witness :
  Confluence.get_all_pages Examples.wiki_base Examples.wiki_page2_empty 2 (JStr "DOC")
  = Some [] /\
  Confluence.get_all_spaces Examples.wiki_base Examples.wiki_page2_empty 2
  = Some (Ok []).
Proof.
  split.
  - eapply (proj1 wiki_empty_page_drops_earlier_pages
              Examples.wiki_base Examples.wiki_page2_empty (JStr "DOC")
              _ _ _ "/rest/api/content?start=1" _ 0);
      try reflexivity; discriminate.
  - eapply (proj2 wiki_empty_page_drops_earlier_pages
              Examples.wiki_base Examples.wiki_page2_empty
              _ _ _ "/rest/api/content?start=1" _ 0);
      try reflexivity; discriminate.
Defined.

(* ================================================================== *)
(** ** The classifiers *)
(* ================================================================== *)

Lemma in_wiki_links (body url kind : string) :
  In (url, kind) (Confluence.extract_google_drive_links body) ->
  (kind = "Hardcoded" /\ In url (findall Confluence.GOOGLE_DRIVE_HARDLINK_REGEX body))
  \/ (kind = "Smart Link" /\ In url (findall Confluence.GOOGLE_DRIVE_SMARTLINK_REGEX body)).
Proof.
  unfold Confluence.extract_google_drive_links. intros H.
  apply in_app_or in H as [H|H]; apply in_map_iff in H as (l & E & Hin);
    injection E as <- <-; [left | right]; now split.
Qed.

(** C5. On the page body of scenario B the wiki classifier yields one
    match, labeled "Hardcoded", whose text runs through the closing quote
    and the end of the tag; and on no page body at all is the URL
    [https://docs.google.com/document/d/abc] listed as a "Smart Link": the
    smart-link pattern asks for [drive.google.com]. *)
Theorem docs_inline_card_is_no_smart_link :
  Confluence.extract_google_drive_links
    (Examples.inline_card "https://docs.google.com/document/d/abc")
  = [("https://docs.google.com/document/d/abc" ++ dq ++ "/>", "Hardcoded")]
  /\ forall body,
      ~ In ("https://docs.google.com/document/d/abc", "Smart Link")
           (Confluence.extract_google_drive_links body).
Proof.
  split; [vm_compute; reflexivity|].
  intros body H. apply in_wiki_links in H as [[E _]|[_ H]]; [discriminate|].
  apply smart_link_marker in H. vm_compute in H. discriminate.
Qed.

Lemma is_google_of_url (url : string) :
  Jira.is_google_url url = true -> Jira.is_google (JStr url) = Ok true.
Proof.
  unfold Jira.is_google_url, Jira.is_google. simpl.
  destruct (str_contains "drive.google.com" url); simpl; [reflexivity|].
  now intros ->.
Qed.

Lemma keep_google_spec (links : list json) :
  forall google_links r v,
    Jira.keep_google links google_links = Ok r -> In v r ->
    In v google_links \/ Jira.is_google v = Ok true.
Proof.
  induction links as [|link links IH]; simpl; intros g r v H Hin.
  - injection H as <-. now left.
  - destruct (Jira.is_google link) as [b|e] eqn:E; simpl in H; [|discriminate].
    destruct (IH _ _ _ H Hin) as [Hg|Hg]; [|now right].
    destruct b; [|now left].
    apply in_app_or in Hg as [Hg|[<-|[]]]; [now left | now right].
Qed.

(** C2, as amended. Whatever either classifier returns has one of the two
    domain markers somewhere in it: the test is a substring test on the
    whole URL (for a link value taken from the structure, Python's [in]),
    not a test on the host. *)
Theorem classifier_keeps_marked_urls_only :
  (forall text_or_structure r v,
      Jira.extract_google_drive_links text_or_structure = Ok r ->
      In v r -> Jira.is_google v = Ok true)
  /\
  (forall body url kind,
      In (url, kind) (Confluence.extract_google_drive_links body) ->
      Jira.is_google_url url = true).
Proof.
  split.
  - intros x r v H Hin. unfold Jira.extract_google_drive_links in H.
    match type of H with
    | Py.bind ?m _ = _ => destruct m as [[text links]|e]; simpl in H; [|discriminate]
    end.
    destruct (keep_google_spec _ _ _ _ H Hin) as [Hg|Hg]; [|exact Hg].
    apply in_map_iff in Hg as (url & <- & Hu).
    apply filter_In in Hu as [_ Hu]. now apply is_google_of_url.
  - intros body url kind H.
    apply in_wiki_links in H as [[_ H]|[_ H]].
    + now apply wiki_hard_link_marker in H.
    + apply smart_link_marker in H. unfold Jira.is_google_url. now rewrite H.
Qed.

Lemma classifier_keeps_marked_urls_only_witness :
  Jira.is_google (JStr "https://docs.google.com/x") = Ok true
  /\ Jira.is_google_url "https://drive.google.com/file/d/1" = true.
Proof.
  split.
  - apply (proj1 classifier_keeps_marked_urls_only
             (JStr "see https://docs.google.com/x today")
             [JStr "https://docs.google.com/x"]);
      [vm_compute; reflexivity | now left].
  - apply (proj2 classifier_keeps_marked_urls_only
             (Examples.inline_card "https://drive.google.com/file/d/1")
             _ "Smart Link").
    vm_compute. right. now left.
Defined.

(** C2 as stated fails: both classifiers return a URL whose host is
    [evil.example], because a marker occurs further along in the URL. *)
Lemma classifier_host_counterexample :
  Jira.extract_google_drive_links (JStr "https://evil.example/?u=docs.google.com")
  = Ok [JStr "https://evil.example/?u=docs.google.com"]
  /\ Confluence.extract_google_drive_links
       (Examples.inline_card "https://evil.example/?u=drive.google.com")
     = [("https://evil.example/?u=drive.google.com", "Smart Link")]
  /\ url_host "https://evil.example/?u=docs.google.com" = "evil.example"
  /\ host_has_marker "https://evil.example/?u=docs.google.com" = false
  /\ host_has_marker "https://evil.example/?u=drive.google.com" = false.
Proof. repeat split; vm_compute; reflexivity. Qed.

(* ================================================================== *)
(** ** The structured-content extractor *)
(* ================================================================== *)

Lemma json_ind' (P : json -> Prop)
      (Hnull : P JNull) (Hbool : forall b, P (JBool b))
      (Hnum : forall z, P (JNum z)) (Hstr : forall s, P (JStr s))
      (Hlist : forall l, Forall P l -> P (JList l))
      (Hobj : forall d, Forall (fun kv => P (snd kv)) d -> P (JObj d)) :
  forall j, P j.
Proof.
  refine (fix IH (j : json) : P j :=
            match j with
            | JNull => Hnull
            | JBool b => Hbool b
            | JNum z => Hnum z
            | JStr s => Hstr s
            | JList l =>
                Hlist l ((fix all (l : list json) : Forall P l :=
                            match l with
                            | [] => Forall_nil _
                            | x :: l' => Forall_cons _ (IH x) (all l')
                            end) l)
            | JObj d =>
                Hobj d ((fix all (d : dict) : Forall (fun kv => P (snd kv)) d :=
                           match d with
                           | [] => Forall_nil _
                           | kv :: d' => Forall_cons _ (IH (snd kv)) (all d')
                           end) d)
            end).
Qed.

Lemma dict_find_get {A : Type} (k : string) (absent : A) (present : json -> A)
      (d : dict) :
  dict_find k absent present d
  = match dict_get k d with Some v => present v | None => absent end.
Proof.
  induction d as [|[k' v] d IH]; simpl; [reflexivity|].
  now destruct (String.eqb k' k).
Qed.

Lemma dict_get_In (k : string) (d : dict) (v : json) :
  dict_get k d = Some v -> In (k, v) d.
Proof.
  induction d as [|[k' v'] d IH]; simpl; [discriminate|].
  destruct (String.eqb_spec k' k) as [->|_].
  - intros [= ->]. now left.
  - intros H. right. now apply IH.
Qed.

(** *** Stripping *)

Lemma rstrip_space (s : string) : rstrip (s ++ " ") = rstrip s.
Proof.
  induction s as [|c s IH]; simpl; [reflexivity|]. now rewrite IH.
Qed.

Lemma lstrip_space (s : string) :
  lstrip (s ++ " ") = match lstrip s with EmptyString => EmptyString | t => t ++ " " end.
Proof.
  induction s as [|c s IH]; simpl; [reflexivity|].
  destruct (is_space c); [exact IH | reflexivity].
Qed.

Lemma strip_space (s : string) : strip (s ++ " ") = strip s.
Proof.
  unfold strip. rewrite lstrip_space.
  destruct (lstrip s) as [|c t]; [reflexivity|].
  change (String c t ++ " ") with (String c t ++ " "). apply rstrip_space.
Qed.

Lemma spaced_app (l1 l2 : list string) :
  spaced (l1 ++ l2) = spaced l1 ++ spaced l2.
Proof.
  induction l1 as [|t l1 IH]; simpl; [reflexivity|].
  now rewrite IH, !append_assoc.
Qed.

Lemma spaced_concat (t : string) (l : list string) :
  spaced (t :: l) = String.concat " " (t :: l) ++ " ".
Proof.
  revert t. induction l as [|u l IH]; intros t.
  - reflexivity.
  - change (spaced (t :: u :: l)) with (t ++ " " ++ spaced (u :: l)).
    rewrite IH. simpl. now rewrite !append_assoc.
Qed.

Lemma strip_spaced (l : list string) :
  strip (spaced l) = strip (String.concat " " l).
Proof.
  destruct l as [|t l]; [reflexivity|].
  rewrite spaced_concat. apply strip_space.
Qed.

(** *** The loops of the extractor *)

Lemma extract_items_described (items : list json) :
  Forall (fun c => Jira.extract_text_and_links c = Ok (described c)) items ->
  forall a,
    Jira.extract_items Jira.extract_text_and_links items a
    = Ok (fst a ++ spaced (map fst (map described items)),
          (snd a ++ List.concat (map snd (map described items)))%list).
Proof.
  induction 1 as [|c items Hc _ IH]; intros [t l]; simpl.
  - now rewrite append_nil_r, app_nil_r.
  - rewrite Hc. destruct (described c) as [tc lc]. rewrite IH. simpl.
    now rewrite !append_assoc, <- app_assoc.
Qed.

Lemma own_text_described (d : dict) (a : Jira.acc) :
  fields_ok d = true ->
  Jira.own_text d a = Ok (fst a ++ spaced (own_texts d), snd a).
Proof.
  unfold fields_ok, Jira.own_text, own_texts, dict_has, dict_item. intros H.
  destruct (dict_get "text" d) as [[| | |t| |]|]; simpl in *; try discriminate.
  - reflexivity.
  - rewrite append_nil_r. now destruct a.
Qed.

Lemma has_attr_described (d : dict) (key : string) :
  attrs_ok d = true ->
  Jira.has_attr (JObj d) key
  = Ok (match attr_values d key with [] => false | _ => true end)
  /\ forall v, attr_values d key = [v] -> Jira.attr (JObj d) key = Ok v.
Proof.
  unfold attrs_ok, Jira.has_attr, Jira.attr, attr_values. simpl.
  unfold dict_has, dict_item.
  destruct (dict_get "attrs" d) as [[| | | | |attrs]|]; simpl; try discriminate;
    intros _; try (split; [reflexivity | discriminate]).
  unfold dict_has, dict_item.
  destruct (dict_get key attrs) as [v|]; simpl; split;
    try reflexivity; try discriminate.
  now intros ? [= ->].
Qed.

Lemma attr_values_cases (d : dict) (key : string) :
  attr_values d key = [] \/ exists v, attr_values d key = [v].
Proof.
  unfold attr_values.
  destruct (dict_get "attrs" d) as [[| | | | |attrs]|]; auto.
  destruct (dict_get key attrs) as [v|]; eauto.
Qed.

Lemma own_card_described (d : dict) (a : Jira.acc) :
  fields_ok d = true ->
  Jira.own_card d a = Ok (fst a, (snd a ++ card_urls d)%list).
Proof.
  unfold fields_ok. intros H.
  apply andb_prop in H as [H _]. apply andb_prop in H as [_ H].
  unfold Jira.own_card, card_urls.
  destruct (dict_get "type" d) as [ty|]; [|rewrite app_nil_r; now destruct a].
  destruct (eq_str ty "inlineCard"); [|rewrite app_nil_r; now destruct a].
  destruct (has_attr_described d "url" H) as [-> Hv].
  destruct (attr_values_cases d "url") as [E|[v E]]; rewrite E; simpl.
  - rewrite app_nil_r. now destruct a.
  - now rewrite (Hv _ E).
Qed.

Lemma mark_link_described (mark : json) (links : list json) :
  mark_ok mark = true ->
  Jira.mark_link mark links = Ok (links ++ mark_hrefs mark)%list.
Proof.
  destruct mark as [| | | | |m]; simpl; try discriminate. intros H.
  unfold Jira.mark_link. simpl.
  destruct (dict_get "type" m) as [ty|]; [|now rewrite app_nil_r].
  destruct (eq_str ty "link"); [|now rewrite app_nil_r].
  destruct (has_attr_described m "href" H) as [-> Hv].
  destruct (attr_values_cases m "href") as [E|[v E]]; rewrite E; simpl.
  - now rewrite app_nil_r.
  - now rewrite (Hv _ E).
Qed.

Lemma mark_links_described (marks : list json) :
  forallb mark_ok marks = true ->
  forall links,
    Jira.mark_links marks links = Ok (links ++ flat_map mark_hrefs marks)%list.
Proof.
  induction marks as [|mark marks IH]; simpl; intros H links.
  - now rewrite app_nil_r.
  - apply andb_prop in H as [Hm H].
    rewrite (mark_link_described _ _ Hm). simpl.
    now rewrite IH, <- app_assoc.
Qed.

Lemma own_marks_described (d : dict) (a : Jira.acc) :
  fields_ok d = true ->
  Jira.own_marks d a = Ok (fst a, (snd a ++ flat_map mark_hrefs (marks_of d))%list).
Proof.
  unfold fields_ok. intros H. apply andb_prop in H as [_ H].
  unfold Jira.own_marks, marks_of, dict_has, dict_item.
  destruct (dict_get "marks" d) as [[| | | |marks|]|]; simpl in *; try discriminate.
  - now rewrite (mark_links_described _ H).
  - rewrite app_nil_r. now destruct a.
Qed.

Lemma extract_described_strong (content : json) :
  (well_typed content = true ->
   Jira.extract_text_and_links content = Ok (described content))
  /\ match content with
     | JList items =>
         Forall (fun c => well_typed c = true ->
                          Jira.extract_text_and_links c = Ok (described c)) items
     | _ => True
     end.
Proof.
  induction content as [ |b|z|s|items IH|d IH] using json_ind';
    try (split; [reflexivity | exact I]).
  - assert (Hitems : Forall (fun c => well_typed c = true ->
                       Jira.extract_text_and_links c = Ok (described c)) items).
    { eapply Forall_impl; [|exact IH]. now intros c [Hc _]. }
    split; [|exact Hitems].
    intros Hwt. simpl in *.
    rewrite extract_items_described.
    + simpl. now rewrite strip_spaced.
    + rewrite forallb_forall in Hwt. rewrite Forall_forall in *. auto.
  - split; [|exact I]. intros Hwt. simpl in *.
    apply andb_prop in Hwt as [Hc Hf].
    rewrite dict_find_get in Hc. rewrite !dict_find_get.
    assert (Hchildren :
      match dict_get "content" d with
      | Some (JList items) =>
          Jira.extract_items Jira.extract_text_and_links items (EmptyString, [])
      | _ => Ok (EmptyString, [])
      end
      = Ok (spaced (map fst (match dict_get "content" d with
                              | Some (JList items) => map described items
                              | _ => []
                              end)),
            List.concat (map snd (match dict_get "content" d with
                                  | Some (JList items) => map described items
                                  | _ => []
                                  end)))).
    { destruct (dict_get "content" d) as [[| | | |items|]|] eqn:E; try reflexivity.
      rewrite extract_items_described; [reflexivity|].
      apply dict_get_In in E. rewrite Forall_forall in IH.
      destruct (IH _ E) as [_ Hitems]. simpl in Hitems.
      rewrite forallb_forall in Hc. rewrite Forall_forall in *. auto. }
    match goal with
    | |- Py.bind ?m _ = _ =>
        replace m with
          (match dict_get "content" d with
           | Some (JList items) =>
               Jira.extract_items Jira.extract_text_and_links items (EmptyString, [])
           | _ => Ok (EmptyString, [])
           end)
          by (destruct (dict_get "content" d) as [[| | | | |]|]; reflexivity)
    end.
    rewrite Hchildren. simpl.
    rewrite (own_text_described _ _ Hf). simpl.
    rewrite (own_card_described _ _ Hf). simpl.
    rewrite (own_marks_described _ _ Hf). simpl.
    rewrite <- spaced_app, strip_spaced, <- app_assoc. reflexivity.
Qed.

(** C1, as amended. On a tree whose fields have the types of the document
    format the extractor returns, without raising, the pair [described]:
    the texts of the children and the node's own text, in document order,
    separated by single spaces, with leading and trailing whitespace
    removed; and the links of the children, then the card URL, then the
    [href] of each link mark. An input that is neither a mapping nor a
    sequence yields the empty text and no link. *)
Theorem extract_text_and_links_described (content : json) :
  well_typed content = true ->
  Jira.extract_text_and_links content = Ok (described content).
Proof. apply extract_described_strong. Qed.

Lemma extract_text_and_links_described_witness :
  Jira.extract_text_and_links
    (JObj [("type", JStr "paragraph");
           ("content",
            JList [JObj [("type", JStr "text"); ("text", JStr "see ")];
                   JObj [("type", JStr "text"); ("text", JStr "the folder");
                         ("marks",
                          JList [JObj [("type", JStr "link");
                                       ("attrs",
                                        JObj [("href", JStr "https://drive.google.com/f")])]])];
                   JObj [("type", JStr "inlineCard");
                         ("attrs", JObj [("url", JStr "https://docs.google.com/d")])]])])
  = Ok ("see the folder",
        [JStr "https://drive.google.com/f"; JStr "https://docs.google.com/d"]).
Proof.
  exact (extract_text_and_links_described
     (JObj [("type", JStr "paragraph");
           ("content",
            JList [JObj [("type", JStr "text"); ("text", JStr "see ")];
                   JObj [("type", JStr "text"); ("text", JStr "the folder");
                         ("marks",
                          JList [JObj [("type", JStr "link");
                                       ("attrs",
                                        JObj [("href", JStr "https://drive.google.com/f")])]])];
                   JObj [("type", JStr "inlineCard");
                         ("attrs", JObj [("url", JStr "https://docs.google.com/d")])]])])
     eq_refl).
Defined.

(** C1 as stated fails on a text node that starts with a space: the claim
    gives the [text] field as it is, the extractor strips it. *)
Lemma extract_text_counterexample :
  Jira.extract_text_and_links (JObj [("type", JStr "text"); ("text", JStr " a")])
  = Ok ("a", [])
  /\ claimed (JObj [("type", JStr "text"); ("text", JStr " a")]) = (" a", []).
Proof. split; reflexivity. Qed.

(* ================================================================== *)
(** ** Regrouping the content list *)
(* ================================================================== *)

Lemma extract_object_unfold (d : dict) :
  Jira.extract_text_and_links (JObj d)
  = (a1 <- match dict_get "content" d with
           | Some (JList items) =>
               Jira.extract_items Jira.extract_text_and_links items (EmptyString, [])
           | _ => Ok (EmptyString, [])
           end ;;
     a2 <- Jira.own_text d a1 ;;
     a3 <- Jira.own_card d a2 ;;
     a4 <- Jira.own_marks d a3 ;;
     Ok (strip (fst a4), snd a4)).
Proof.
  simpl. rewrite dict_find_get.
  destruct (dict_get "content" d) as [[| | | | |]|]; reflexivity.
Qed.

(** the three steps after the children read [d] at keys other than
    [content] *)
Lemma own_steps_ext (d d' : dict) (a : Jira.acc) :
  (forall k, k <> "content" -> dict_get k d' = dict_get k d) ->
  Jira.own_text d' a = Jira.own_text d a /\
  Jira.own_card d' a = Jira.own_card d a /\
  Jira.own_marks d' a = Jira.own_marks d a.
Proof.
  intros H.
  assert (Ht : dict_get "text" d' = dict_get "text" d) by (apply H; discriminate).
  assert (Hy : dict_get "type" d' = dict_get "type" d) by (apply H; discriminate).
  assert (Ha : dict_get "attrs" d' = dict_get "attrs" d) by (apply H; discriminate).
  assert (Hm : dict_get "marks" d' = dict_get "marks" d) by (apply H; discriminate).
  unfold Jira.own_text, Jira.own_card, Jira.own_marks, Jira.has_attr, Jira.attr.
  simpl. unfold dict_has, dict_item. now rewrite Ht, Hy, Ha, Hm.
Qed.

(** the loop over the items, started from any accumulators *)
Lemma extract_items_acc (items : list json) :
  forall a,
    Jira.extract_items Jira.extract_text_and_links items a
    = (r <- Jira.extract_items Jira.extract_text_and_links items (EmptyString, []) ;;
       Ok (fst a ++ fst r, (snd a ++ snd r)%list)).
Proof.
  induction items as [|c items IH]; intros [t l]; simpl.
  - now rewrite append_nil_r, app_nil_r.
  - destruct (Jira.extract_text_and_links c) as [[tc lc]|e]; [|reflexivity].
    rewrite (IH (t ++ tc ++ " ", (l ++ lc)%list)), (IH (tc ++ " ", lc)).
    destruct (Jira.extract_items _ items _) as [[tr lr]|e]; simpl; [|reflexivity].
    now rewrite !append_assoc, <- app_assoc.
Qed.

Lemma extract_items_app (l1 l2 : list json) (a : Jira.acc) :
  Jira.extract_items Jira.extract_text_and_links (l1 ++ l2) a
  = (a' <- Jira.extract_items Jira.extract_text_and_links l1 a ;;
     Jira.extract_items Jira.extract_text_and_links l2 a').
Proof.
  revert a. induction l1 as [|c l1 IH]; intros a; simpl; [reflexivity|].
  destruct (Jira.extract_text_and_links c) as [[tc lc]|e]; [apply IH | reflexivity].
Qed.

(** wrapping a run: the loop sees the stripped text of the run where it
    saw each text of the run followed by a space *)
Lemma extract_items_wrapped (run post : list json) (a : Jira.acc) :
  Jira.extract_items Jira.extract_text_and_links (JList run :: post) a
  = (r <- Jira.extract_items Jira.extract_text_and_links run (EmptyString, []) ;;
     Jira.extract_items Jira.extract_text_and_links post
       (fst a ++ strip (fst r) ++ " ", (snd a ++ snd r)%list)).
Proof.
  simpl.
  destruct (Jira.extract_items _ run _) as [[tr lr]|e]; reflexivity.
Qed.

Lemma extract_items_unwrapped (run post : list json) (a : Jira.acc) :
  Jira.extract_items Jira.extract_text_and_links (run ++ post) a
  = (r <- Jira.extract_items Jira.extract_text_and_links run (EmptyString, []) ;;
     Jira.extract_items Jira.extract_text_and_links post
       (fst a ++ fst r, (snd a ++ snd r)%list)).
Proof.
  rewrite extract_items_app, extract_items_acc.
  destruct (Jira.extract_items _ run _) as [[tr lr]|e]; reflexivity.
Qed.

(** *** The links do not depend on the text gathered so far *)

Lemma same_links_refl (r : result Jira.acc) : same_links r r.
Proof. destruct r; reflexivity. Qed.

Lemma extract_items_links (items : list json) (t t' : string) (l : list json) :
  same_links (Jira.extract_items Jira.extract_text_and_links items (t, l))
             (Jira.extract_items Jira.extract_text_and_links items (t', l)).
Proof.
  revert t t' l. induction items as [|c items IH]; intros t t' l; simpl.
  - reflexivity.
  - destruct (Jira.extract_text_and_links c) as [[tc lc]|e]; [apply IH | reflexivity].
Qed.

Lemma bind_assoc {A B C : Type} (m : result A) (f : A -> result B)
      (g : B -> result C) :
  Py.bind (Py.bind m f) g = Py.bind m (fun x => Py.bind (f x) g).
Proof. now destruct m. Qed.

Lemma links_step_bind (f : Jira.acc -> result Jira.acc) (r r' : result Jira.acc) :
  links_step f -> same_links r r' ->
  same_links (Py.bind r f) (Py.bind r' f).
Proof.
  intros Hf. destruct r as [[t l]|e], r' as [[t' l']|e']; simpl; try tauto.
  intros ->. apply Hf.
Qed.

Lemma own_text_links (d : dict) : links_step (Jira.own_text d).
Proof.
  intros t t' l. unfold Jira.own_text.
  destruct (dict_has "text" d); simpl; [|reflexivity].
  destruct (dict_item "text" d) as [v|e]; simpl; [|reflexivity].
  destruct (py_add_space v) as [ts|e]; reflexivity.
Qed.

Lemma own_card_links (d : dict) : links_step (Jira.own_card d).
Proof.
  intros t t' l. unfold Jira.own_card.
  destruct (dict_get "type" d) as [ty|]; simpl; [|reflexivity].
  destruct (eq_str ty "inlineCard"); simpl; [|reflexivity].
  destruct (Jira.has_attr (JObj d) "url") as [[|]|e]; simpl; try reflexivity.
  destruct (Jira.attr (JObj d) "url") as [u|e]; reflexivity.
Qed.

Lemma own_marks_links (d : dict) : links_step (Jira.own_marks d).
Proof.
  intros t t' l. unfold Jira.own_marks.
  destruct (dict_has "marks" d); simpl; [|reflexivity].
  destruct (dict_item "marks" d) as [m|e]; simpl; [|reflexivity].
  destruct (py_iter m) as [ms|e]; simpl; [|reflexivity].
  destruct (Jira.mark_links ms l) as [ls|e]; reflexivity.
Qed.

Lemma finish_links :
  links_step (fun a4 : Jira.acc => Ok (strip (fst a4), snd a4)).
Proof. intros t t' l. reflexivity. Qed.

Lemma own_steps_links (d : dict) (r r' : result Jira.acc) :
  same_links r r' ->
  same_links
    (a1 <- r ;; a2 <- Jira.own_text d a1 ;; a3 <- Jira.own_card d a2 ;;
     a4 <- Jira.own_marks d a3 ;; Ok (strip (fst a4), snd a4))
    (a1 <- r' ;; a2 <- Jira.own_text d a1 ;; a3 <- Jira.own_card d a2 ;;
     a4 <- Jira.own_marks d a3 ;; Ok (strip (fst a4), snd a4)).
Proof.
  intros H. rewrite <- !bind_assoc.
  apply links_step_bind; [apply finish_links|].
  apply links_step_bind; [apply own_marks_links|].
  apply links_step_bind; [apply own_card_links|].
  apply links_step_bind; [apply own_text_links | exact H].
Qed.

(** *** Texts without leading or trailing whitespace *)

Lemma lstrip_length (s : string) : (String.length (lstrip s) <= String.length s)%nat.
Proof.
  induction s as [|c s IH]; simpl; [lia|].
  destruct (is_space c); simpl; lia.
Qed.

Lemma lstrip_fixed_head (c : ascii) (s : string) :
  lstrip (String c s) = String c s -> is_space c = false.
Proof.
  simpl. destruct (is_space c); [|reflexivity].
  intros H. pose proof (lstrip_length s) as L. rewrite H in L. simpl in L. lia.
Qed.

Lemma lstrip_rstrip (s : string) : lstrip s = s -> lstrip (rstrip s) = rstrip s.
Proof.
  destruct s as [|c s]; [reflexivity|]. intros H.
  apply lstrip_fixed_head in H. simpl.
  destruct (rstrip s); rewrite ?H; simpl; rewrite H; reflexivity.
Qed.

Lemma lstrip_idem (s : string) : lstrip (lstrip s) = lstrip s.
Proof.
  induction s as [|c s IH]; simpl; [reflexivity|].
  destruct (is_space c) eqn:E; [exact IH | simpl; now rewrite E].
Qed.

Lemma rstrip_idem (s : string) : rstrip (rstrip s) = rstrip s.
Proof.
  induction s as [|c s IH]; simpl; [reflexivity|].
  destruct (rstrip s) as [|c' r] eqn:E.
  - destruct (is_space c) eqn:Ec; simpl; [reflexivity | now rewrite Ec].
  - change (rstrip (String c (String c' r))) with
      (match rstrip (String c' r) with
       | EmptyString => if is_space c then EmptyString else String c EmptyString
       | r0 => String c r0
       end).
    now rewrite IH.
Qed.

(** what [strip] returns has no whitespace at either end *)
Lemma strip_clean (s : string) :
  lstrip (strip s) = strip s /\ rstrip (strip s) = strip s.
Proof.
  unfold strip. split; [apply lstrip_rstrip, lstrip_idem | apply rstrip_idem].
Qed.

Lemma extract_clean (c : json) (t : string) (l : list json) :
  Jira.extract_text_and_links c = Ok (t, l) -> lstrip t = t /\ rstrip t = t.
Proof.
  destruct c as [| | | |items|d].
  1-4: intros [= <- <-]; split; reflexivity.
  - simpl. destruct (Jira.extract_items _ items _) as [a|e]; simpl; [|discriminate].
    intros [= <- <-]. apply strip_clean.
  - rewrite extract_object_unfold.
    repeat match goal with
      | |- Py.bind ?m _ = _ -> _ => destruct m; simpl; [|discriminate]
      end.
    intros [= <- <-]. apply strip_clean.
Qed.

Lemma lstrip_app (t u : string) :
  lstrip t = t -> t <> EmptyString -> lstrip (t ++ u) = t ++ u.
Proof.
  destruct t as [|c t]; [congruence|]. intros H _.
  apply lstrip_fixed_head in H. simpl. now rewrite H.
Qed.

Lemma rstrip_nonempty (t : string) :
  rstrip t = t -> t <> EmptyString -> rstrip t <> EmptyString.
Proof. intros ->. auto. Qed.

Lemma rstrip_app (u t : string) :
  rstrip t = t -> t <> EmptyString -> rstrip (u ++ t) = u ++ t.
Proof.
  intros H Hne. induction u as [|c u IH]; simpl; [exact H|].
  rewrite IH. destruct (u ++ t) eqn:E; [|reflexivity].
  destruct u; simpl in E; [congruence | discriminate].
Qed.

(** [String.concat] with the last text apart *)
Lemma concat_last (l : list string) (t : string) :
  exists u, String.concat " " (l ++ [t]) = u ++ t.
Proof.
  induction l as [|x l [u IH]].
  - now exists "".
  - destruct l as [|y l].
    + exists (x ++ " "). simpl. now rewrite append_assoc.
    + exists (x ++ " " ++ u).
      change (String.concat " " ((x :: y :: l) ++ [t]))
        with (x ++ " " ++ String.concat " " ((y :: l) ++ [t])).
      now rewrite IH, !append_assoc.
Qed.

Lemma concat_first (t : string) (l : list string) :
  exists u, String.concat " " (t :: l) = t ++ u.
Proof.
  destruct l as [|x l]; [exists ""; simpl; now rewrite append_nil_r|].
  now exists (" " ++ String.concat " " (x :: l)).
Qed.

(** Texts whose first and last are not empty and have no whitespace at
    their ends: stripping the spaced run removes its last space only. *)
Lemma strip_spaced_run (texts : list string) (first last : string) :
  hd_error texts = Some first -> List.last texts first = last ->
  lstrip first = first -> first <> EmptyString ->
  rstrip last = last -> last <> EmptyString ->
  strip (spaced texts) ++ " " = spaced texts.
Proof.
  intros Hh Hl Hf Hfn Hr Hrn.
  destruct texts as [|t texts]; [discriminate|]. injection Hh as ->.
  rewrite spaced_concat, strip_space. f_equal.
  assert (Hlast : exists u, String.concat " " (first :: texts) = u ++ last).
  { destruct (@exists_last _ (first :: texts)) as (l' & x & E); [discriminate|].
    rewrite E in Hl |- *. rewrite last_last in Hl. subst x. apply concat_last. }
  destruct (concat_first first texts) as [u Hu].
  destruct Hlast as [v Hv].
  unfold strip. rewrite Hu, (lstrip_app _ _ Hf Hfn), <- Hu, Hv.
  now apply rstrip_app.
Qed.

(** the loop from empty accumulators, in terms of what each item gives *)
Lemma extract_items_outputs (items : list json) (r : Jira.acc) :
  Jira.extract_items Jira.extract_text_and_links items (EmptyString, []) = Ok r ->
  exists outs,
    Forall2 (fun c o => Jira.extract_text_and_links c = Ok o) items outs /\
    fst r = spaced (map fst outs).
Proof.
  revert r. induction items as [|c items IH]; intros r; simpl.
  - intros [= <-]. exists []. split; [constructor | reflexivity].
  - destruct (Jira.extract_text_and_links c) as [[tc lc]|e] eqn:Ec; [|discriminate].
    rewrite extract_items_acc.
    destruct (Jira.extract_items _ items _) as [r0|e] eqn:E0; simpl; [|discriminate].
    intros [= <-]. destruct (IH _ eq_refl) as (outs & HF & Ht).
    exists ((tc, lc) :: outs). split; [now constructor|].
    simpl. now rewrite Ht, append_assoc.
Qed.

Lemma Forall2_hd (items : list json) (outs : list Jira.acc) (c : json) :
  Forall2 (fun c o => Jira.extract_text_and_links c = Ok o) items outs ->
  hd_error items = Some c ->
  exists o, hd_error outs = Some o /\ Jira.extract_text_and_links c = Ok o.
Proof.
  intros [|c' o items' outs' Ho _]; [discriminate|].
  intros [= ->]. now exists o.
Qed.

Lemma Forall2_last (items : list json) (outs : list Jira.acc) (c : json) (o : Jira.acc) :
  Forall2 (fun c o => Jira.extract_text_and_links c = Ok o) items outs ->
  Jira.extract_text_and_links c = Ok o ->
  Jira.extract_text_and_links (List.last items c) = Ok (List.last outs o).
Proof.
  intros HF. revert c o. induction HF as [|c' o' items outs Ho HF IH]; intros c o Hc.
  - exact Hc.
  - destruct HF as [|c'' o'' items outs Ho' HF]; [exact Ho|].
    exact (IH c o Hc).
Qed.

Lemma last_map_fst (outs : list Jira.acc) (o : Jira.acc) :
  List.last (map fst outs) (fst o) = fst (List.last outs o).
Proof.
  revert o. induction outs as [|x outs IH]; intros o; [reflexivity|].
  destruct outs as [|y outs]; [reflexivity|]. exact (IH o).
Qed.

(** the run of a regrouping whose ends carry text: the loop gathers a
    text that stripping shortens by its last space only *)
Lemma run_text_kept (run : list json) (first : json) (r : Jira.acc) :
  hd_error run = Some first -> has_text first -> has_text (List.last run first) ->
  Jira.extract_items Jira.extract_text_and_links run (EmptyString, []) = Ok r ->
  strip (fst r) ++ " " = fst r.
Proof.
  intros Hh (t1 & l1 & E1 & N1) (tn & ln & En & Nn) Hr.
  destruct (extract_items_outputs _ _ Hr) as (outs & HF & ->).
  destruct (Forall2_hd _ _ _ HF Hh) as (o1 & Ho1 & Eo1).
  rewrite E1 in Eo1. injection Eo1 as <-.
  pose proof (Forall2_last _ _ first (t1, l1) HF E1) as HL.
  rewrite En in HL. injection HL as HL.
  apply (strip_spaced_run _ t1 tn).
  - destruct outs; [discriminate|]. simpl in *. now injection Ho1 as ->.
  - change t1 with (fst (t1, l1)). now rewrite last_map_fst, <- HL.
  - eapply extract_clean; eassumption.
  - exact N1.
  - eapply extract_clean; eassumption.
  - exact Nn.
Qed.

(** C9, as amended. Wrapping a run of children of a node's [content] list
    in a nested list keeps the links (and raises the same exception, if
    any). It keeps the text as well when the run is not empty and the
    extractor finds some text in its first and in its last child; without
    that the two texts can differ in their inner spaces. *)
Theorem regrouping_keeps_links (d d' : dict) (pre run post : list json) :
  regrouped d d' pre run post ->
  same_links (Jira.extract_text_and_links (JObj d'))
             (Jira.extract_text_and_links (JObj d))
  /\ (forall first,
        hd_error run = Some first -> has_text first ->
        has_text (List.last run first) ->
        Jira.extract_text_and_links (JObj d') = Jira.extract_text_and_links (JObj d)).
Proof.
  intros (Hd & Hd' & Hk).
  rewrite !extract_object_unfold, Hd, Hd'.
  assert (Hsteps : forall r,
    (a1 <- r ;; a2 <- Jira.own_text d' a1 ;; a3 <- Jira.own_card d' a2 ;;
     a4 <- Jira.own_marks d' a3 ;; Ok (strip (fst a4), snd a4))
    = (a1 <- r ;; a2 <- Jira.own_text d a1 ;; a3 <- Jira.own_card d a2 ;;
       a4 <- Jira.own_marks d a3 ;; Ok (strip (fst a4), snd a4))).
  { intros [a1|e]; simpl; [|reflexivity].
    destruct (own_steps_ext d d' a1 Hk) as (-> & _ & _).
    destruct (Jira.own_text d a1) as [a2|e]; simpl; [|reflexivity].
    destruct (own_steps_ext d d' a2 Hk) as (_ & -> & _).
    destruct (Jira.own_card d a2) as [a3|e]; simpl; [|reflexivity].
    destruct (own_steps_ext d d' a3 Hk) as (_ & _ & ->). reflexivity. }
  rewrite Hsteps.
  rewrite !extract_items_app.
  destruct (Jira.extract_items _ pre _) as [a|e]; [|split; reflexivity].
  cbn [Py.bind].
  rewrite extract_items_wrapped, extract_items_unwrapped.
  destruct (Jira.extract_items _ run _) as [r|e] eqn:Er; [|split; reflexivity].
  cbn [Py.bind]. split.
  - apply own_steps_links, extract_items_links.
  - intros first Hh H1 Hn.
    rewrite <- (run_text_kept run first r Hh H1 Hn Er) at 2.
    reflexivity.
Qed.

Lemma regrouping_keeps_links_witness :
  Jira.extract_text_and_links
    (JObj [("type", JStr "paragraph");
           ("content", JList [JList [Examples.text_node "a"; Examples.text_node "b"];
                              Examples.text_node "c"])])
  = Jira.extract_text_and_links
      (JObj [("type", JStr "paragraph");
             ("content", JList [Examples.text_node "a"; Examples.text_node "b";
                                Examples.text_node "c"])]).
Proof.
  refine (proj2 (regrouping_keeps_links
                   [("type", JStr "paragraph");
                    ("content", JList [Examples.text_node "a"; Examples.text_node "b";
                                       Examples.text_node "c"])]
                   [("type", JStr "paragraph");
                    ("content", JList [JList [Examples.text_node "a";
                                              Examples.text_node "b"];
                                       Examples.text_node "c"])]
                   [] [Examples.text_node "a"; Examples.text_node "b"]
                   [Examples.text_node "c"] _)
                (Examples.text_node "a") eq_refl _ _).
  - repeat split; try reflexivity.
    intros k Hk. cbn [dict_get].
    destruct (String.eqb "type" k); [reflexivity|].
    destruct (String.eqb_spec "content" k); [congruence | reflexivity].
  - exists "a", []. split; [reflexivity | discriminate].
  - exists "b", []. split; [reflexivity | discriminate].
Defined.

(** C9 as stated fails when a child of the wrapped run has no text: the
    original keeps two spaces between [x] and [y], the regrouped tree one. *)
Lemma regrouping_text_counterexample :
  regrouped
    [("content", JList [Examples.text_node "x"; JObj []; Examples.text_node "y"])]
    [("content", JList [JList [Examples.text_node "x"; JObj []]; Examples.text_node "y"])]
    [] [Examples.text_node "x"; JObj []] [Examples.text_node "y"]
  /\ Jira.extract_text_and_links
       (JObj [("content",
               JList [Examples.text_node "x"; JObj []; Examples.text_node "y"])])
     = Ok ("x  y", [])
  /\ Jira.extract_text_and_links
       (JObj [("content",
               JList [JList [Examples.text_node "x"; JObj []]; Examples.text_node "y"])])
     = Ok ("x y", []).
Proof.
  repeat split; try reflexivity.
  intros k Hk. cbn [dict_get].
  destruct (String.eqb_spec "content" k); [congruence | reflexivity].
Qed.

(* ================================================================== *)
(** ** The report loops *)
(* ================================================================== *)

(** C7. In the wiki run an exception raised while the body of a page is
    read or scanned is caught in the page loop: the row with the "ERROR"
    placeholders is appended and the loop goes on with the next page. The
    issue-tracker run has no handler in its issue loop: on the tracker of
    [Examples.tracker_with_bad_issue] the TypeError raised on the first
    issue ends [process_jira], and the link of the second issue is never
    reported. *)
Theorem item_level_errors :
  (forall BASE repr message space_key page rest results
          page_id title version last_modified e,
      py_item page "id" = Ok page_id ->
      py_item page "title" = Ok (JStr title) ->
      py_item page "version" = Ok version ->
      py_item version "when" = Ok last_modified ->
      Confluence.page_links page = Raise e ->
      Confluence.process_pages BASE repr message space_key (page :: rest) results
      = Confluence.process_pages BASE repr message space_key rest
          (results ++ [Confluence.error_row message space_key (JStr title) e])%list)
  /\
  Jira.process_jira Examples.tracker_base (fun _ => "")
    Examples.tracker_with_bad_issue 1
  = Some (Raise TypeError).
Proof.
  split; [|vm_compute; reflexivity].
  intros BASE repr message space_key page rest results
         page_id title version last_modified e Hid Ht Hv Hw Hl.
  simpl. unfold Confluence.process_page.
  rewrite Hid, Ht. simpl. rewrite Hv. simpl. rewrite Hw. simpl.
  rewrite Hl. reflexivity.
Qed.

Lemma item_level_errors_witness :
  Confluence.process_pages Examples.wiki_base (fun _ => "") (fun _ => "no body")
    (JStr "DOC") [Examples.bad_page; Examples.good_page] []
  = Ok [[JStr "DOC"; JStr "No body"; JStr "ERROR"; JStr "N/A"; JStr "no body";
         JStr "N/A"];
        [JStr "DOC"; JStr "Plan"; JStr "https://drive.google.com/file/d/1";
         JStr "Hardcoded"; JStr "https://wiki.example/spaces/DOC/pages/2/Plan";
         JStr "2024-01-02"]].
Proof.
  rewrite (proj1 item_level_errors Examples.wiki_base (fun _ => "")
             (fun _ => "no body") (JStr "DOC") Examples.bad_page
             [Examples.good_page] [] (JStr "1") "No body"
             (JObj [("when", JStr "2024-01-01")]) (JStr "2024-01-01")
             (KeyError "body") eq_refl eq_refl eq_refl eq_refl eq_refl).
  vm_compute. reflexivity.
Defined.

Section RemoteLinks.
Variable BASE : string.
Variable repr : json -> string.
Variable request : string -> json -> result json.


End RemoteLinks.

(* ================================================================== *)
(** ** The matcher finds a match when there is one *)
(* ================================================================== *)

Section Completeness.
Context {A : Type}.

Lemma lit_append (l : string) (k : string -> option A) (s : string) :
  lit l k (l ++ s) = k s.
Proof.
  induction l as [|a l IH]; simpl; [reflexivity|].
  now rewrite Ascii.eqb_refl.
Qed.

Lemma star_here (p : ascii -> bool) (k : string -> option A) (s : string) (x : A) :
  k s = Some x -> exists y, star p k s = Some y.
Proof.
  intros H. destruct s as [|c s]; simpl; [eauto|].
  destruct (p c); [|eauto].
  destruct (star p k s) as [y|]; eauto.
Qed.

Lemma star_complete (p : ascii -> bool) (k : string -> option A)
      (s1 s2 : string) (x : A) :
  all_chars p s1 = true -> k s2 = Some x ->
  exists y, star p k (s1 ++ s2) = Some y.
Proof.
  induction s1 as [|c s1 IH]; simpl; intros Hall Hk.
  - eapply star_here; eassumption.
  - apply andb_prop in Hall as [Hc Hall]. rewrite Hc.
    destruct (IH Hall Hk) as [y ->]. eauto.
Qed.

(** the longest run wins when the continuation accepts what follows it *)
Lemma star_longest (p : ascii -> bool) (k : string -> option A)
      (s : string) (x : A) :
  all_chars p s = true -> k EmptyString = Some x -> star p k s = Some x.
Proof.
  induction s as [|c s IH]; simpl; intros Hall Hk; [exact Hk|].
  apply andb_prop in Hall as [-> Hall]. now rewrite IH.
Qed.
End Completeness.

Lemma bt_complete (r : regex) :
  forall (A : Type) (k : option string -> string -> option A)
         cap s1 cap' s2 x,
    matches r cap s1 cap' -> k cap' s2 = Some x ->
    exists y, bt r k cap (s1 ++ s2) = Some y.
Proof.
  induction r as [l|p|r1 IH1 r2 IH2|r1 IH1 r2 IH2|r1 IH1|p|p|r1 IH1];
    intros A k cap s1 cap' s2 x M Hk; inversion M; subst; simpl.
  - rewrite lit_append. eauto.
  - match goal with H : p _ = true |- _ => rewrite H end. eauto.
  - rewrite append_assoc.
    match goal with
    | M1 : matches r1 _ ?t1 ?c1, M2 : matches r2 ?c1 ?t2 _ |- _ =>
        destruct (IH2 _ k c1 t2 cap' s2 x M2 Hk) as [y Hy];
        exact (IH1 _ (bt r2 k) cap t1 c1 (t2 ++ s2) y M1 Hy)
    end.
  - match goal with
    | M1 : matches r1 _ _ _ |- _ =>
        destruct (IH1 _ k cap s1 cap' s2 x M1 Hk) as [y ->]; eauto
    end.
  - destruct (bt r1 k cap (s1 ++ s2)) as [y|]; [eauto|].
    match goal with
    | M2 : matches r2 _ _ _ |- _ => exact (IH2 _ k cap s1 cap' s2 x M2 Hk)
    end.
  - match goal with
    | M1 : matches r1 _ _ _ |- _ =>
        destruct (IH1 _ k cap s1 cap' s2 x M1 Hk) as [y ->]; eauto
    end.
  - destruct (bt r1 k cap' s2) as [y|]; eauto.
  - eapply star_complete; eassumption.
  - match goal with H : p _ = true |- _ => rewrite H end.
    eapply star_complete; eassumption.
  - match goal with
    | M1 : matches r1 _ _ ?c1 |- _ =>
        eapply (IH1 _ _ cap s1 c1 s2 x M1)
    end.
    now rewrite take_consumed.
Qed.

Lemma match_at_complete (r : regex) (whole rest : string) (cap : option string) :
  matches r None whole cap -> exists y, match_at r (whole ++ rest) = Some y.
Proof.
  intros M. unfold match_at. eapply bt_complete; [exact M | reflexivity].
Qed.

(* ================================================================== *)
(** ** Scanning *)
(* ================================================================== *)

Lemma findall_from_match (r : regex) (c : ascii) (s whole rest : string)
      (cap : option string) :
  match_at r (String c s) = Some (whole, cap, rest) ->
  findall_from r 0 (String c s)
  = item_of r whole cap :: findall_from r (String.length whole - 1) s.
Proof. intros H. simpl. now rewrite H. Qed.

Lemma findall_from_no_match (r : regex) (c : ascii) (s : string) :
  match_at r (String c s) = None ->
  findall_from r 0 (String c s) = findall_from r 0 s.
Proof. intros H. simpl. now rewrite H. Qed.

Lemma findall_from_skip (r : regex) (a b : string) :
  findall_from r (String.length a) (a ++ b) = findall_from r 0 b.
Proof. induction a as [|c a IH]; [reflexivity | exact IH]. Qed.

Lemma findall_from_skip_all (r : regex) (a : string) :
  findall_from r (String.length a) a = findall_from r 0 EmptyString.
Proof. induction a as [|c a IH]; [reflexivity | exact IH]. Qed.

(* ================================================================== *)
(** ** More on strings *)
(* ================================================================== *)

Lemma take_all (s : string) : take (String.length s - 0) s = s.
Proof.
  rewrite Nat.sub_0_r. rewrite <- (append_nil_r s) at 2. apply take_append.
Qed.

Lemma all_chars_app (p : ascii -> bool) (a b : string) :
  all_chars p (a ++ b) = all_chars p a && all_chars p b.
Proof.
  induction a as [|c a IH]; simpl; [reflexivity|].
  now rewrite IH, andb_assoc.
Qed.

(** *** Counting a character, and sequences of patterns *)

Lemma count_char_app (c : ascii) (a b : string) :
  count_char c (a ++ b) = (count_char c a + count_char c b)%nat.
Proof. induction a as [|x a IH]; simpl; [reflexivity | rewrite IH; lia]. Qed.

Lemma count_char_zero (c : ascii) (s : string) :
  all_chars (not_char c) s = true <-> count_char c s = 0%nat.
Proof.
  induction s as [|x s IH]; simpl; [tauto|].
  unfold not_char at 1. destruct (Ascii.eqb x c); simpl.
  - split; [discriminate | lia].
  - exact IH.
Qed.

Lemma split_at_char (c : ascii) (x x' y y' : string) :
  count_char c x = 0%nat -> count_char c x' = 0%nat ->
  x ++ String c y = x' ++ String c y' -> x = x' /\ y = y'.
Proof.
  revert x'. induction x as [|a x IH]; intros [|a' x']; simpl; intros H H' E.
  - injection E as <-. now split.
  - injection E as <- _. rewrite Ascii.eqb_refl in H'. discriminate.
  - injection E as -> _. rewrite Ascii.eqb_refl in H. discriminate.
  - injection E as <- E.
    destruct (Ascii.eqb a c); [discriminate|].
    destruct (IH x' H H' E) as [-> ->]. now split.
Qed.

Lemma matches_seq (r1 r2 : regex) (cap cap1 cap2 : option string)
      (s s1 s2 : string) :
  matches r1 cap s1 cap1 -> matches r2 cap1 s2 cap2 -> s = s1 ++ s2 ->
  matches (Seq r1 r2) cap s cap2.
Proof. intros M1 M2 ->. econstructor; eassumption. Qed.

(* ================================================================== *)
(** ** One inline-card macro: where the claim fails *)
(* ================================================================== *)

(** C10 as stated fails in two ways. When [drive.google.com] stands further
    along in the attribute value, the value has no whitespace and contains
    the marker, and the macro gives the "Smart Link" entry alone. When the
    url attribute stands in front of the name attribute, the macro gives
    the "Hardcoded" entry alone. *)
Lemma wiki_inline_card_counterexample :
  (all_chars non_space "https://example.com/?u=drive.google.com" = true
   /\ str_contains "drive.google.com" "https://example.com/?u=drive.google.com" = true
   /\ Confluence.extract_google_drive_links
        (Examples.inline_card "https://example.com/?u=drive.google.com")
      = [("https://example.com/?u=drive.google.com", "Smart Link")])
  /\ (all_chars non_space "https://drive.google.com/a" = true
      /\ str_contains "drive.google.com" "https://drive.google.com/a" = true
      /\ Confluence.extract_google_drive_links
           (Examples.reversed_card "https://drive.google.com/a")
         = [("https://drive.google.com/a" ++ dq, "Hardcoded")]).
Proof. repeat split; vm_compute; reflexivity. Qed.

(* ================================================================== *)
(** ** More on the fetchers *)
(* ================================================================== *)

(** X1. Whatever the server answers, a decorated fetch ends within five
    turns of the retry loop: between one and five attempts, one sleep
    between two attempts, every sleep between 2 and 10 time-units. *)
Theorem fetcher_attempts_bounded (server : nat -> response) (fuel : nat) :
  (5 <= fuel)%nat ->
  exists r tr,
    jira_request_retrying server fuel = Some (r, tr) /\
    confluence_request_retrying server fuel = Some (r, tr) /\
    (1 <= Tenacity.attempts tr <= 5)%nat /\
    List.length (Tenacity.sleeps tr) = (Tenacity.attempts tr - 1)%nat /\
    Forall (fun w => 2 <= w <= 10)%Z (Tenacity.sleeps tr).
Proof.
  intros Hf. do 5 (destruct fuel as [|fuel]; [lia|]). clear Hf.
  unfold confluence_request_retrying, jira_request_retrying, Tenacity.call. simpl.
  repeat match goal with
    | |- context [request_once (server ?n)] =>
        destruct (request_once (server n)); simpl;
        [eexists _, _; repeat split; try reflexivity; simpl; try lia;
         repeat constructor; apply wait_exponential_bounds | ]
    end.
  eexists _, _; repeat split; try reflexivity; simpl; try lia;
    repeat constructor; apply wait_exponential_bounds.
Qed.

Lemma fetcher_attempts_bounded_witness :
  exists r tr,
    jira_request_retrying (fun _ => Examples.not_found_response) 5 = Some (r, tr) /\
    confluence_request_retrying (fun _ => Examples.not_found_response) 5
    = Some (r, tr) /\
    (1 <= Tenacity.attempts tr <= 5)%nat /\
    List.length (Tenacity.sleeps tr) = (Tenacity.attempts tr - 1)%nat /\
    Forall (fun w => 2 <= w <= 10)%Z (Tenacity.sleeps tr).
Proof.
  apply (fetcher_attempts_bounded (fun _ => Examples.not_found_response) 5). lia.
Defined.

(** X2. Every kind of failure is retried, not the rate limit alone: when
    the first five attempts raise, whatever they raise, the fetch makes five
    attempts, sleeps 2, 2, 4 and 8, and raises RetryError around the
    exception of the fifth attempt. *)
Theorem fetcher_retries_any_failure (server : nat -> response) (err : nat -> exn)
        (fuel : nat) :
  (forall n, (1 <= n <= 5)%nat -> request_once (server n) = Raise (err n)) ->
  (5 <= fuel)%nat ->
  jira_request_retrying server fuel
  = Some (Raise (RetryError (err 5%nat)),
          [Tenacity.Attempt 1; Tenacity.Sleep 2; Tenacity.Attempt 2;
           Tenacity.Sleep 2; Tenacity.Attempt 3; Tenacity.Sleep 4;
           Tenacity.Attempt 4; Tenacity.Sleep 8; Tenacity.Attempt 5])
  /\ confluence_request_retrying server fuel = jira_request_retrying server fuel.
Proof.
  intros H Hf. split; [|reflexivity].
  do 5 (destruct fuel as [|fuel]; [lia|]). clear Hf.
  unfold jira_request_retrying, Tenacity.call. simpl.
  rewrite !H by lia. reflexivity.
Qed.

Lemma fetcher_retries_any_failure_witness :
  jira_request_retrying (fun _ => Examples.not_found_response) 5
  = Some (Raise (RetryError (HTTPError 404)),
          [Tenacity.Attempt 1; Tenacity.Sleep 2; Tenacity.Attempt 2;
           Tenacity.Sleep 2; Tenacity.Attempt 3; Tenacity.Sleep 4;
           Tenacity.Attempt 4; Tenacity.Sleep 8; Tenacity.Attempt 5]).
Proof.
  apply (fetcher_retries_any_failure (fun _ => Examples.not_found_response)
           (fun _ => HTTPError 404) 5).
  - intros n _. reflexivity.
  - lia.
Defined.

Lemma retrying_until_success (server : nat -> response) (body : json) :
  forall failures attempt_number fuel,
    (forall n, (attempt_number <= n < attempt_number + failures)%nat ->
               exists e, request_once (server n) = Raise e) ->
    request_once (server (attempt_number + failures)%nat) = Ok body ->
    (attempt_number + failures <= 5)%nat ->
    (failures < fuel)%nat ->
    Tenacity.retrying (Tenacity.stop_after_attempt 5)
      (Tenacity.wait_exponential 1 2 10)
      (fun n => request_once (server n)) fuel attempt_number
    = Some (Ok body, trace_after failures attempt_number).
Proof.
  induction failures as [|failures IH]; intros a fuel Hfail Hok Hle Hfuel;
    (destruct fuel as [|fuel]; [lia|]); cbn [Tenacity.retrying trace_after].
  - rewrite Nat.add_0_r in Hok. now rewrite Hok.
  - destruct (Hfail a ltac:(lia)) as [e ->].
    assert (Hs : Tenacity.stop_after_attempt 5 a = false)
      by (unfold Tenacity.stop_after_attempt; apply Nat.leb_gt; lia).
    rewrite Hs.
    rewrite (IH (S a) fuel); [reflexivity | | | lia | lia].
    + intros n Hn. apply Hfail. lia.
    + now replace (S a + failures)%nat with (a + S failures)%nat by lia.
Qed.

(** X3. A fetch whose attempts fail until attempt k, with k at most 5,
    returns the document of attempt k after exactly k attempts, having slept
    after each failed attempt as the schedule says. *)
Theorem fetcher_returns_first_success (server : nat -> response) (body : json)
        (k fuel : nat) :
  (1 <= k <= 5)%nat -> (k <= fuel)%nat ->
  (forall n, (1 <= n < k)%nat -> exists e, request_once (server n) = Raise e) ->
  request_once (server k) = Ok body ->
  jira_request_retrying server fuel = Some (Ok body, trace_after (k - 1) 1)
  /\ confluence_request_retrying server fuel = Some (Ok body, trace_after (k - 1) 1)
  /\ Tenacity.attempts (trace_after (k - 1) 1) = k
  /\ Tenacity.sleeps (trace_after (k - 1) 1) = firstn (k - 1) [2; 2; 4; 8]%Z.
Proof.
  intros Hk Hfuel Hfail Hok.
  assert (E : jira_request_retrying server fuel
              = Some (Ok body, trace_after (k - 1) 1)).
  { unfold jira_request_retrying, Tenacity.call.
    apply retrying_until_success; try lia.
    - intros n Hn. apply Hfail. lia.
    - now replace (1 + (k - 1))%nat with k by lia. }
  repeat split; try exact E.
  - destruct k as [|[|[|[|[|[|k]]]]]]; try lia; reflexivity.
  - destruct k as [|[|[|[|[|[|k]]]]]]; try lia; reflexivity.
Qed.

Lemma fetcher_returns_first_success_witness :
  jira_request_retrying
    (fun n => if (n <? 3)%nat then Examples.rate_limit_response
              else Examples.ok_response (JList [])) 5
  = Some (Ok (JList []),
          [Tenacity.Attempt 1; Tenacity.Sleep 2; Tenacity.Attempt 2;
           Tenacity.Sleep 2; Tenacity.Attempt 3]).
Proof.
  apply (fetcher_returns_first_success
           (fun n => if (n <? 3)%nat then Examples.rate_limit_response
                     else Examples.ok_response (JList []))
           (JList []) 3 5).
  - lia.
  - lia.
  - intros n Hn. exists (Exception "Rate limit exceeded").
    destruct n as [|[|[|n]]]; try lia; reflexivity.
  - reflexivity.
Defined.

(** X4. One GET raises in three cases only: status 429 (the rate-limit
    exception), a status from 400 to 599 (HTTPError), or a body that is not
    JSON. Any other status, 200 or not, gives [response.json()]: a 204 or
    a 302 is logged as an error and its body is returned all the same. *)
Theorem request_once_cases (r : response) :
  (status_code r = 429%Z ->
   request_once r = Raise (Exception "Rate limit exceeded"))
  /\ ((400 <= status_code r < 600)%Z -> status_code r <> 429%Z ->
      request_once r = Raise (HTTPError (status_code r)))
  /\ ((status_code r < 400 \/ 600 <= status_code r)%Z ->
      request_once r = json_body r).
Proof.
  unfold request_once, raise_for_status. repeat split.
  - now intros ->.
  - intros [H1 H2] H3.
    destruct (Z.eqb_spec (status_code r) 429); [contradiction|].
    destruct (Z.eqb_spec (status_code r) 200); [lia|]. simpl.
    destruct (Z.leb_spec 400 (status_code r)); [|lia].
    destruct (Z.ltb_spec (status_code r) 600); [|lia]. reflexivity.
  - intros H.
    destruct (Z.eqb_spec (status_code r) 429); [lia|].
    destruct (Z.eqb_spec (status_code r) 200); [reflexivity|]. simpl.
    destruct (Z.leb_spec 400 (status_code r)),
             (Z.ltb_spec (status_code r) 600); simpl; try lia;
      now destruct (json_body r).
Qed.

Lemma request_once_cases_witness :
  request_once (mkResponse 204 "" (Ok JNull)) = Ok JNull
  /\ request_once Examples.not_found_response = Raise (HTTPError 404).
Proof.
  split.
  - apply (proj2 (proj2 (request_once_cases (mkResponse 204 "" (Ok JNull))))).
    left. simpl. lia.
  - apply (proj1 (proj2 (request_once_cases Examples.not_found_response)));
      simpl; lia.
Defined.

(* ================================================================== *)
(** ** More on the paginators *)
(* ================================================================== *)

Lemma records_of_step (page : nat -> list json) (first count : nat) :
  records_of page first (S count)
  = (page first ++ records_of page (S first) count)%list.
Proof. reflexivity. Qed.

Lemma records_of_last (page : nat -> list json) (first count : nat) :
  records_of page first (S count)
  = (records_of page first count ++ page (first + count)%nat)%list.
Proof.
  unfold records_of. rewrite seq_S, map_app, concat_app. simpl.
  now rewrite app_nil_r.
Qed.

Section IssuePages.
Variable BASE : string.
Variable repr : json -> string.
Variable request : string -> json -> result json.
Variable project_key : json.
Variable page : nat -> list json.
Variable last : nat.

Hypothesis answers :
  forall i, (i <= last)%nat ->
    exists d,
      request (BASE ++ "/rest/api/3/search")
              (Jira.search_params repr project_key (100 * Z.of_nat i))
      = Ok (JObj d)
      /\ dict_get "issues" d = Some (JList (page i)).
Hypothesis full : forall i, (i < last)%nat -> List.length (page i) = 100%nat.
Hypothesis short : (List.length (page last) < 100)%nat.

Lemma get_all_issues_loop_pages :
  forall m i fuel issues,
    (i + m)%nat = last -> (m < fuel)%nat ->
    Jira.get_all_issues_loop BASE repr request fuel project_key issues
      (100 * Z.of_nat i)
    = Some (Ok (issues ++ records_of page i (S m))%list).
Proof.
  induction m as [|m IH]; intros i fuel issues Hi Hfuel;
    (destruct fuel as [|fuel]; [lia|]); cbn [Jira.get_all_issues_loop];
    destruct (answers i ltac:(lia)) as (d & -> & Hd);
    cbn [Py.bind]; unfold Jira.get_or; cbn [py_get Py.bind]; rewrite Hd;
    cbn [py_iter Py.bind].
  - assert (E : i = last) by lia. subst i.
    destruct (Nat.ltb_spec (List.length (page last)) Jira.max_results) as [_|H];
      [|unfold Jira.max_results in H; lia].
    unfold records_of. simpl. now rewrite app_nil_r.
  - rewrite (full i) by lia.
    change (100 <? Jira.max_results)%nat with false. cbv iota.
    change (Z.of_nat Jira.max_results) with 100%Z.
    replace (100 * Z.of_nat i + 100)%Z with (100 * Z.of_nat (S i))%Z by lia.
    rewrite (IH (S i)) by lia.
    now rewrite (records_of_step page i (S m)), app_assoc.
Qed.
End IssuePages.

(** X5. Offset pagination: when the tracker answers the offsets 0, 100,
    200, ... with full pages of 100 issues and then with a shorter page, the
    issue paginator returns the issues of all these pages, in order, after
    one request per page. *)
Theorem get_all_issues_collects_every_page :
  forall BASE repr request project_key (page : nat -> list json) last fuel,
    (forall i, (i <= last)%nat ->
       exists d,
         request (BASE ++ "/rest/api/3/search")
                 (Jira.search_params repr project_key (100 * Z.of_nat i))
         = Ok (JObj d)
         /\ dict_get "issues" d = Some (JList (page i))) ->
    (forall i, (i < last)%nat -> List.length (page i) = 100%nat) ->
    (List.length (page last) < 100)%nat ->
    (last < fuel)%nat ->
    Jira.get_all_issues BASE repr request fuel project_key
    = Some (Ok (records_of page 0 (S last))).
Proof.
  intros BASE repr request project_key page last fuel Ha Hf Hs Hfuel.
  unfold Jira.get_all_issues.
  exact (get_all_issues_loop_pages BASE repr request project_key page last
           Ha Hf Hs last 0%nat fuel [] eq_refl Hfuel).
Qed.

Lemma get_all_issues_collects_every_page_witness :
  Jira.get_all_issues Examples.tracker_base (fun _ => "")
    Examples.tracker_two_pages 2 (JStr "PRJ")
  = Some (Ok (repeat Examples.an_issue 101)).
Proof.
  refine (get_all_issues_collects_every_page Examples.tracker_base (fun _ => "")
            Examples.tracker_two_pages (JStr "PRJ")
            (fun i => match i with
                      | O => repeat Examples.an_issue 100
                      | _ => [Examples.an_issue]
                      end)
            1 2 _ _ _ _).
  - intros [|[|i]] Hi; [| |lia]; eexists; split; reflexivity.
  - intros [|i] Hi; [reflexivity | lia].
  - simpl. lia.
  - lia.
Defined.

Lemma turn_of_page (BASE : string) (d : dict) (records : list json)
      (next : option string) (items : list json) :
  wiki_page d records next ->
  Confluence.turn_of BASE (Ok (JObj d)) items
  = match next with
    | Some n => Confluence.Again (items ++ records) (BASE ++ n)
    | None => Confluence.Leave (items ++ records)
    end.
Proof.
  intros (Hr & Hne & links & Hl & Hn & Hnn).
  destruct next as [n|].
  - apply (turn_of_again BASE d links records n); try assumption. congruence.
  - unfold Confluence.turn_of. simpl. rewrite Hr.
    destruct records as [|r records]; [congruence|]. simpl.
    unfold dict_item. rewrite Hl. simpl. now rewrite Hn.
Qed.

Section WikiPages.
Variable BASE : string.
Variable request : string -> json -> result json.
Variable params : json.
Variable url : nat -> string.
Variable page : nat -> list json.
Variable count : nat.
Context {R : Type} (early : R) (after : list json -> R).

Hypothesis answers :
  forall i, (i < count)%nat ->
    exists d n,
      request (url i) params = Ok (JObj d)
      /\ wiki_page d (page i) (Some n)
      /\ url (S i) = BASE ++ n.

(** the turns of the loop over the first [count] pages *)
Lemma paginate_pages :
  forall m i fuel items,
    (i + m)%nat = count ->
    Confluence.paginate BASE request early after params (m + fuel) items (url i)
    = Confluence.paginate BASE request early after params fuel
        (items ++ records_of page i m) (url count).
Proof.
  induction m as [|m IH]; intros i fuel items Hi.
  - assert (E : i = count) by lia. subst i.
    unfold records_of. simpl. now rewrite app_nil_r.
  - cbn [Nat.add Confluence.paginate].
    destruct (answers i ltac:(lia)) as (d & n & -> & Hp & Hu).
    rewrite (turn_of_page BASE d (page i) (Some n) items Hp), <- Hu.
    rewrite (IH (S i)) by lia.
    now rewrite (records_of_step page i m), app_assoc.
Qed.
End WikiPages.

(** X6. Cursor pagination: when every page but the last carries records
    and a [next] cursor, and the last carries records and no cursor, the
    page paginator follows the cursors and returns the records of all the
    pages, in order, after one request per page. *)
Theorem get_all_pages_collects_every_page :
  forall BASE request space_key (url : nat -> string) (page : nat -> list json)
         last fuel,
    url 0%nat = BASE ++ "/rest/api/content" ->
    (forall i, (i < last)%nat ->
       exists d n,
         request (url i) (Confluence.pages_params space_key) = Ok (JObj d)
         /\ wiki_page d (page i) (Some n)
         /\ url (S i) = BASE ++ n) ->
    (exists d,
       request (url last) (Confluence.pages_params space_key) = Ok (JObj d)
       /\ wiki_page d (page last) None) ->
    (last < fuel)%nat ->
    Confluence.get_all_pages BASE request fuel space_key
    = Some (records_of page 0 (S last)).
Proof.
  intros BASE request space_key url page last fuel H0 Ha (d & Hreq & Hp) Hfuel.
  unfold Confluence.get_all_pages. rewrite <- H0.
  replace fuel with (last + S (fuel - S last))%nat by lia.
  rewrite (paginate_pages BASE request (Confluence.pages_params space_key)
             url page last [] (fun pages => pages) Ha last 0%nat _ [] eq_refl).
  cbn [Confluence.paginate]. rewrite Hreq.
  rewrite (turn_of_page BASE d (page last) None _ Hp).
  now rewrite records_of_last.
Qed.

Lemma get_all_pages_collects_every_page_witness :
  Confluence.get_all_pages Examples.wiki_base Examples.wiki_two_pages 2 (JStr "DOC")
  = Some [JObj [("id", JStr "1")]; JObj [("id", JStr "2")]].
Proof.
  refine (get_all_pages_collects_every_page Examples.wiki_base
            Examples.wiki_two_pages (JStr "DOC")
            (fun i => match i with
                      | O => Examples.wiki_base ++ "/rest/api/content"
                      | _ => Examples.wiki_base ++ "/rest/api/content?start=1"
                      end)
            (fun i => match i with
                      | O => [JObj [("id", JStr "1")]]
                      | _ => [JObj [("id", JStr "2")]]
                      end)
            1 2 eq_refl _ _ _).
  - intros [|i] Hi; [|lia].
    eexists _, "/rest/api/content?start=1".
    split; [reflexivity|]. split; [|reflexivity].
    split; [reflexivity|]. split; [discriminate|].
    eexists. split; [reflexivity|]. split; [reflexivity | discriminate].
  - eexists. split; [reflexivity|].
    split; [reflexivity|]. split; [discriminate|].
    eexists. split; [reflexivity|]. split; [reflexivity | discriminate].
  - lia.
Defined.

(** X7. Partial results at any depth: when the fetch of a page fails after
    its retries, the page paginator returns the records of all the pages
    fetched before it, in order, and does not raise. *)
Theorem get_all_pages_keeps_pages_before_failure :
  forall BASE request space_key (url : nat -> string) (page : nat -> list json)
         failed e fuel,
    url 0%nat = BASE ++ "/rest/api/content" ->
    (forall i, (i < failed)%nat ->
       exists d n,
         request (url i) (Confluence.pages_params space_key) = Ok (JObj d)
         /\ wiki_page d (page i) (Some n)
         /\ url (S i) = BASE ++ n) ->
    request (url failed) (Confluence.pages_params space_key) = Raise e ->
    (failed < fuel)%nat ->
    Confluence.get_all_pages BASE request fuel space_key
    = Some (records_of page 0 failed).
Proof.
  intros BASE request space_key url page failed e fuel H0 Ha Hreq Hfuel.
  unfold Confluence.get_all_pages. rewrite <- H0.
  replace fuel with (failed + S (fuel - S failed))%nat by lia.
  rewrite (paginate_pages BASE request (Confluence.pages_params space_key)
             url page failed [] (fun pages => pages) Ha failed 0%nat _ []
             eq_refl).
  cbn [Confluence.paginate]. now rewrite Hreq.
Qed.

Lemma get_all_pages_keeps_pages_before_failure_witness :
  Confluence.get_all_pages Examples.wiki_base Examples.wiki_page2_fails 2 (JStr "DOC")
  = Some [JObj [("id", JStr "1")]].
Proof.
  refine (get_all_pages_keeps_pages_before_failure Examples.wiki_base
            Examples.wiki_page2_fails (JStr "DOC")
            (fun i => match i with
                      | O => Examples.wiki_base ++ "/rest/api/content"
                      | _ => Examples.wiki_base ++ "/rest/api/content?start=1"
                      end)
            (fun _ => [JObj [("id", JStr "1")]])
            1 Examples.rate_limited 2 eq_refl _ eq_refl _).
  - intros [|i] Hi; [|lia].
    eexists _, "/rest/api/content?start=1".
    split; [reflexivity|]. split; [|reflexivity].
    split; [reflexivity|]. split; [discriminate|].
    eexists. split; [reflexivity|]. split; [reflexivity | discriminate].
  - lia.
Defined.

Lemma list_spaces_ok (spaces : list json) :
  Forall listable spaces -> Confluence.list_spaces spaces = Ok tt.
Proof.
  induction 1 as [|space spaces (sd & k & nm & -> & Hk & Hn) _ IH];
    [reflexivity|].
  cbn [Confluence.list_spaces py_item]. unfold dict_item.
  now rewrite Hk, Hn.
Qed.

Lemma list_spaces_nameless (pre post : list json) (sd : dict) (k : json) :
  Forall listable pre ->
  dict_get "key" sd = Some k -> dict_get "name" sd = None ->
  Confluence.list_spaces (pre ++ JObj sd :: post) = Raise (KeyError "name").
Proof.
  intros Hpre Hk Hn.
  induction Hpre as [|space pre (sd0 & k0 & nm0 & -> & Hk0 & Hn0) _ IH].
  - cbn [app Confluence.list_spaces py_item]. unfold dict_item.
    now rewrite Hk, Hn.
  - cbn [app Confluence.list_spaces py_item]. unfold dict_item.
    now rewrite Hk0, Hn0.
Qed.

(** X8. The listing below the loop of [get_all_spaces] is outside the
    [try]: when the spaces arrive on one page and every space has a key and
    a name, the function returns them; when one of them has a key and no
    name (the spaces before it being complete), the function raises
    KeyError("name") although every fetch succeeded. *)
Theorem get_all_spaces_needs_names :
  forall BASE request d spaces fuel,
    request (BASE ++ "/rest/api/space") Confluence.spaces_params = Ok (JObj d) ->
    wiki_page d spaces None ->
    (Forall listable spaces ->
     Confluence.get_all_spaces BASE request (S fuel) = Some (Ok spaces))
    /\ (forall pre sd k post,
          spaces = (pre ++ JObj sd :: post)%list -> Forall listable pre ->
          dict_get "key" sd = Some k -> dict_get "name" sd = None ->
          Confluence.get_all_spaces BASE request (S fuel)
          = Some (Raise (KeyError "name"))).
Proof.
  intros BASE request d spaces fuel Hreq Hp.
  unfold Confluence.get_all_spaces. cbn [Confluence.paginate].
  rewrite Hreq, (turn_of_page BASE d spaces None [] Hp). cbn [app].
  split.
  - intros Hall. now rewrite list_spaces_ok.
  - intros pre sd k post -> Hpre Hk Hn.
    now rewrite (list_spaces_nameless pre post sd k Hpre Hk Hn).
Qed.

Lemma get_all_spaces_needs_names_witness :
  Confluence.get_all_spaces Examples.wiki_base Examples.wiki_nameless_space 1
  = Some (Raise (KeyError "name")).
Proof.
  refine (proj2 (get_all_spaces_needs_names Examples.wiki_base
                   Examples.wiki_nameless_space _ _ 0 eq_refl _)
                [JObj [("key", JStr "DOC"); ("name", JStr "Docs")]]
                [("key", JStr "TMP")] (JStr "TMP") [] eq_refl _ eq_refl eq_refl).
  - split; [reflexivity|]. split; [discriminate|].
    eexists. split; [reflexivity|]. split; [reflexivity | discriminate].
  - constructor; [|constructor].
    eexists _, _, _. split; [reflexivity|]. split; reflexivity.
Defined.

(* ================================================================== *)
(** ** More on the report loops *)
(* ================================================================== *)

Lemma appends_refl {A : Type} (ok : A -> Prop) (results : list A) :
  appends ok results results.
Proof. exists []. split; [now rewrite app_nil_r | constructor]. Qed.

Lemma appends_trans {A : Type} (ok : A -> Prop) (r1 r2 r3 : list A) :
  appends ok r1 r2 -> appends ok r2 r3 -> appends ok r1 r3.
Proof.
  intros (n1 & -> & H1) (n2 & -> & H2). exists (n1 ++ n2)%list.
  split; [now rewrite app_assoc | now apply Forall_app].
Qed.

Lemma appends_app {A : Type} (ok : A -> Prop) (results new : list A) :
  Forall ok new -> appends ok results (results ++ new).
Proof. intros H. now exists new. Qed.

(** *** The issue report *)

Lemma append_rows_appends (project_key issue_key summary : json) (source : string)
      (links : list json) (results : list Jira.row) :
  jira_source source ->
  appends jira_row results
    (Jira.append_rows project_key issue_key summary source links results).
Proof.
  intros Hs. apply appends_app. apply Forall_forall. intros r Hr.
  apply in_map_iff in Hr as (link & <- & _).
  now exists project_key, issue_key, summary, link, source.
Qed.

Lemma process_issue_comments_appends (project_key issue_key summary : json)
      (comments : list json) :
  forall i results r,
    Jira.process_issue_comments project_key issue_key summary i comments results
    = Ok r ->
    appends jira_row results r.
Proof.
  induction comments as [|c comments IH]; intros i results r; simpl.
  - intros [= <-]. apply appends_refl.
  - destruct (Jira.get_or c "body" (JObj [])) as [body|e]; simpl; [|discriminate].
    destruct (Jira.extract_google_drive_links body) as [links|e]; simpl;
      [|discriminate].
    intros H. eapply appends_trans; [|exact (IH _ _ _ H)].
    apply append_rows_appends. right. right. left.
    exists (i + 1)%nat. split; [lia | reflexivity].
Qed.

Lemma process_custom_fields_appends (project_key issue_key summary : json)
      (items : dict) :
  forall results r,
    Jira.process_custom_fields project_key issue_key summary items results = Ok r ->
    appends jira_row results r.
Proof.
  induction items as [|[k v] items IH]; intros results r;
    cbn [Jira.process_custom_fields].
  - intros [= <-]. apply appends_refl.
  - destruct (startswith "customfield_" k) eqn:Hk; [|apply IH].
    destruct (Jira.extract_google_drive_links v) as [links|e]; cbn [Py.bind];
      [|discriminate].
    intros H. eapply appends_trans; [|exact (IH _ _ H)].
    apply append_rows_appends. do 3 right. left. now exists k.
Qed.

Lemma process_remote_links_appends (project_key issue_key summary : json)
      (remote_links : list json) :
  forall results r,
    Jira.process_remote_links project_key issue_key summary remote_links results
    = Ok r ->
    appends jira_row results r.
Proof.
  induction remote_links as [|link links IH]; intros results r;
    cbn [Jira.process_remote_links].
  - intros [= <-]. apply appends_refl.
  - destruct link as [| | |l| |]; try discriminate.
    intros H. eapply appends_trans; [|exact (IH _ _ H)].
    destruct (search Jira.GOOGLE_DRIVE_HARDLINK_REGEX l); [|apply appends_refl].
    apply append_rows_appends. do 5 right. reflexivity.
Qed.

Lemma process_issue_appends (BASE : string) (repr : json -> string)
      (request : string -> json -> result json) (project_key issue : json)
      (results r : list Jira.row) :
  Jira.process_issue BASE repr request project_key issue results = Ok r ->
  appends jira_row results r.
Proof.
  unfold Jira.process_issue. intros H.
  repeat bind_ok H.
  apply process_remote_links_appends in H.
  match goal with
  | E : Jira.process_issue_comments _ _ _ _ _ _ = Ok _ |- _ =>
      apply process_issue_comments_appends in E
  end.
  match goal with
  | E : Jira.process_custom_fields _ _ _ _ _ = Ok _ |- _ =>
      apply process_custom_fields_appends in E
  end.
  assert (Henv : appends jira_row a10 a12).
  { destruct a11 as [env|]; [|injection E12 as <-; apply appends_refl].
    destruct (truthy env); [|injection E12 as <-; apply appends_refl].
    bind_ok E12. injection E12 as <-.
    apply append_rows_appends. do 4 right. now left. }
  eapply appends_trans; [|exact H].
  eapply appends_trans; [|exact Henv].
  eapply appends_trans; [|exact E10].
  eapply appends_trans; [|exact E8].
  eapply appends_trans; apply append_rows_appends; [left | right; left];
    reflexivity.
Qed.

Lemma process_issues_appends (BASE : string) (repr : json -> string)
      (request : string -> json -> result json) (project_key : json)
      (issues : list json) :
  forall results r,
    Jira.process_issues BASE repr request project_key issues results = Ok r ->
    appends jira_row results r.
Proof.
  induction issues as [|issue issues IH]; intros results r;
    cbn [Jira.process_issues].
  - intros [= <-]. apply appends_refl.
  - intros H. bind_ok H.
    eapply appends_trans; [eapply process_issue_appends; eassumption|].
    now apply IH.
Qed.

Lemma process_projects_appends (BASE : string) (repr : json -> string)
      (request : string -> json -> result json) (fuel : nat)
      (projects : list json) :
  forall results r,
    Jira.process_projects BASE repr request fuel projects results = Some (Ok r) ->
    appends jira_row results r.
Proof.
  induction projects as [|project projects IH]; intros results r;
    cbn [Jira.process_projects].
  - intros [= <-]. apply appends_refl.
  - destruct (py_item project "key") as [project_key|e]; [|discriminate].
    destruct (Jira.get_all_issues BASE repr request fuel project_key)
      as [[issues|e]|]; try discriminate.
    destruct (Jira.debug_issues issues) as [[]|e]; cbn [Py.bind];
      [|discriminate].
    destruct (Jira.process_issues BASE repr request project_key issues results)
      as [results'|e] eqn:E; [|discriminate].
    intros H. eapply appends_trans; [|exact (IH _ _ H)].
    eapply process_issues_appends; eassumption.
Qed.

(** X9. The issue report is append-only and keeps its schema: the issue
    loop leaves the rows it was given unchanged and in place, and every
    row it appends has the five columns Project, Issue Key, Summary, Link,
    Source, with a Source among Summary, Description, Comment n (n from 1),
    Field: customfield_..., Environment and Remote Link. So has every row
    of the report of a whole run. *)
Theorem issue_report_rows :
  forall BASE repr request,
    (forall project_key issues results r,
        Jira.process_issues BASE repr request project_key issues results = Ok r ->
        appends jira_row results r)
    /\ (forall fuel rows,
          Jira.process_jira BASE repr request fuel = Some (Ok (Some rows)) ->
          Forall (fun row => jira_row row /\ List.length row = 5%nat) rows).
Proof.
  intros BASE repr request. split.
  - intros project_key issues results r. apply process_issues_appends.
  - intros fuel rows. unfold Jira.process_jira.
    destruct (Jira.get_all_projects BASE request) as [projects|e]; [|discriminate].
    destruct (negb (truthy projects)); [discriminate|].
    destruct (py_iter projects) as [ps|e]; [|discriminate].
    destruct (Jira.process_projects BASE repr request fuel ps [])
      as [[results|e]|] eqn:E; try discriminate.
    intros [= <-]. apply process_projects_appends in E as (new & -> & Hnew).
    simpl. eapply Forall_impl; [|exact Hnew].
    intros row Hrow. split; [exact Hrow|].
    now destruct Hrow as (? & ? & ? & ? & ? & -> & _).
Qed.

Lemma issue_report_rows_witness :
  Forall (fun row => jira_row row /\ List.length row = 5%nat)
    [[JStr "PRJ"; JStr "PRJ-7"; JStr "";
      JStr "https://drive.google.com/drive/folders/xyz"; JStr "Remote Link"]].
Proof.
  apply (proj2 (issue_report_rows Examples.tracker_base (fun _ => "")
                  Examples.tracker_with_one_issue) 1).
  vm_compute. reflexivity.
Defined.

(** *** The wiki report *)

Lemma link_rows_ok (space_key page_title last_modified : json) (page_url body : string) :
  Forall wiki_row
    (map (Confluence.link_row space_key page_title last_modified page_url)
         (Confluence.extract_google_drive_links body)).
Proof.
  apply Forall_forall. intros r Hr.
  apply in_map_iff in Hr as ([link kind] & <- & Hin).
  exists space_key, page_title, link, kind, page_url, last_modified.
  split; [reflexivity|].
  apply in_wiki_links in Hin as [[-> _]|[-> _]]; auto.
Qed.

Lemma process_page_appends (BASE : string) (repr : json -> string)
      (message : exn -> string) (space_key page : json)
      (results r : list Confluence.row) :
  Confluence.process_page BASE repr message space_key page results = Ok r ->
  appends wiki_row results r.
Proof.
  unfold Confluence.process_page. intros H. repeat bind_ok H.
  injection H as <-.
  unfold Confluence.page_links.
  destruct (py_item page "body") as [body|e]; cbn [Py.bind try_except].
  2: { apply appends_app. constructor; [|constructor].
       eexists _, _, _, _, _, _. split; [reflexivity|]. auto. }
  destruct (py_item body "storage") as [storage|e]; cbn [Py.bind try_except].
  2: { apply appends_app. constructor; [|constructor].
       eexists _, _, _, _, _, _. split; [reflexivity|]. auto. }
  destruct (py_item storage "value") as [content|e]; cbn [Py.bind try_except].
  2: { apply appends_app. constructor; [|constructor].
       eexists _, _, _, _, _, _. split; [reflexivity|]. auto. }
  destruct content as [| | |page_content| |]; cbn [Py.bind try_except];
    try (apply appends_app; constructor; [|constructor];
         eexists _, _, _, _, _, _; split; [reflexivity|]; auto).
  apply appends_app, link_rows_ok.
Qed.

Lemma process_pages_appends (BASE : string) (repr : json -> string)
      (message : exn -> string) (space_key : json) (pages : list json) :
  forall results r,
    Confluence.process_pages BASE repr message space_key pages results = Ok r ->
    appends wiki_row results r.
Proof.
  induction pages as [|page pages IH]; intros results r;
    cbn [Confluence.process_pages].
  - intros [= <-]. apply appends_refl.
  - intros H. bind_ok H.
    eapply appends_trans; [eapply process_page_appends; eassumption|].
    now apply IH.
Qed.

Lemma process_spaces_appends (BASE : string) (repr : json -> string)
      (message : exn -> string) (request : string -> json -> result json)
      (fuel : nat) (spaces : list json) :
  forall results r,
    Confluence.process_spaces BASE repr message request fuel spaces results
    = Some (Ok r) ->
    appends wiki_row results r.
Proof.
  induction spaces as [|space spaces IH]; intros results r;
    cbn [Confluence.process_spaces].
  - intros [= <-]. apply appends_refl.
  - destruct (py_item space "key") as [space_key|e]; [|discriminate].
    destruct (Confluence.get_all_pages BASE request fuel space_key) as [pages|];
      [|discriminate].
    destruct (Confluence.process_pages BASE repr message space_key pages results)
      as [results'|e] eqn:E; [|discriminate].
    intros H. eapply appends_trans; [|exact (IH _ _ H)].
    eapply process_pages_appends; eassumption.
Qed.

(** X10. The wiki report is append-only and keeps its schema: the page
    loop leaves the rows it was given unchanged and in place, and every row
    it appends has the six columns Site, Page, Link, Link Type, Text, Last
    Modified, with Link Type "Hardcoded" or "Smart Link", or else is the
    row of a failed page (Link "ERROR", Link Type and Last Modified "N/A").
    So has every row of the report of a whole run. *)
Theorem wiki_report_rows :
  forall BASE repr message request,
    (forall space_key pages results r,
        Confluence.process_pages BASE repr message space_key pages results = Ok r ->
        appends wiki_row results r)
    /\ (forall fuel rows,
          Confluence.process_confluence BASE repr message request fuel
          = Some (Ok (Some rows)) ->
          Forall (fun row => wiki_row row /\ List.length row = 6%nat) rows).
Proof.
  intros BASE repr message request. split.
  - intros space_key pages results r. apply process_pages_appends.
  - intros fuel rows. unfold Confluence.process_confluence.
    destruct (Confluence.get_all_spaces BASE request fuel) as [[spaces|e]|];
      try discriminate.
    destruct spaces as [|space spaces]; [discriminate|].
    destruct (Confluence.process_spaces BASE repr message request fuel
                (space :: spaces) []) as [[results|e]|] eqn:E; try discriminate.
    intros [= <-]. apply process_spaces_appends in E as (new & -> & Hnew).
    simpl. eapply Forall_impl; [|exact Hnew].
    intros row Hrow. split; [exact Hrow|].
    now destruct Hrow as (? & ? & ? & ? & ? & ? & -> & _).
Qed.

Lemma wiki_report_rows_witness :
  Forall (fun row => wiki_row row /\ List.length row = 6%nat)
    [[JStr "DOC"; JStr "No body"; JStr "ERROR"; JStr "N/A"; JStr "no body";
      JStr "N/A"];
     [JStr "DOC"; JStr "Plan"; JStr "https://drive.google.com/file/d/1";
      JStr "Hardcoded"; JStr "https://wiki.example/spaces/DOC/pages/2/Plan";
      JStr "2024-01-02"]].
Proof.
  apply (proj2 (wiki_report_rows Examples.wiki_base (fun _ => "")
                  (fun _ => "no body") Examples.wiki_with_bad_page) 1).
  vm_compute. reflexivity.
Defined.

(** X11. The page loop protects the body of a page only. A page record
    without a title, or whose title is not a string, raises in front of the
    [try]: the exception leaves the loop, no row is written for the page and
    the pages after it are not processed. *)
Theorem page_metadata_errors_escape :
  forall BASE repr message space_key d page_id rest results,
    dict_get "id" d = Some page_id ->
    (dict_get "title" d = None ->
     Confluence.process_pages BASE repr message space_key (JObj d :: rest) results
     = Raise (KeyError "title"))
    /\ (forall title version last_modified,
          dict_get "title" d = Some title ->
          (forall t, title <> JStr t) ->
          dict_get "version" d = Some (JObj version) ->
          dict_get "when" version = Some last_modified ->
          Confluence.process_pages BASE repr message space_key (JObj d :: rest)
            results
          = Raise AttributeError).
Proof.
  intros BASE repr message space_key d page_id rest results Hid.
  cbn [Confluence.process_pages]. unfold Confluence.process_page.
  cbn [py_item]. unfold dict_item. rewrite Hid. cbn [Py.bind]. split.
  - now intros ->.
  - intros title version last_modified -> Ht -> . cbn [Py.bind py_item].
    unfold dict_item. intros ->. cbn [Py.bind].
    destruct title as [| | |t| |]; try reflexivity.
    now destruct (Ht t).
Qed.

Lemma page_metadata_errors_escape_witness :
  Confluence.process_pages Examples.wiki_base (fun _ => "") (fun _ => "")
    (JStr "DOC") [JObj [("id", JStr "1")]; Examples.good_page] []
  = Raise (KeyError "title").
Proof.
  apply (proj1 (page_metadata_errors_escape Examples.wiki_base (fun _ => "")
                  (fun _ => "") (JStr "DOC") [("id", JStr "1")] (JStr "1")
                  [Examples.good_page] [] eq_refl)).
  reflexivity.
Defined.

(* ================================================================== *)
(** ** More on the extractor and on the issue classifier *)
(* ================================================================== *)

(** X12. Whatever the tree, a text the extractor returns has no whitespace
    at either end: stripping it again changes nothing. *)
Theorem extracted_text_is_stripped (content : json) (t : string) (l : list json) :
  Jira.extract_text_and_links content = Ok (t, l) ->
  strip t = t /\ lstrip t = t /\ rstrip t = t.
Proof.
  intros H. destruct (extract_clean content t l H) as [Hl Hr].
  unfold strip. now rewrite Hl, Hr.
Qed.

Lemma extracted_text_is_stripped_witness :
  strip "a b" = "a b" /\ lstrip "a b" = "a b" /\ rstrip "a b" = "a b".
Proof.
  apply (extracted_text_is_stripped
           (JList [Examples.text_node " a "; Examples.text_node "b "]) "a b" []).
  reflexivity.
Defined.

Lemma extract_items_ok_prefix (pre rest : list json) :
  Forall (fun x => exists o, Jira.extract_text_and_links x = Ok o) pre ->
  forall a,
    exists a',
      Jira.extract_items Jira.extract_text_and_links (pre ++ rest) a
      = Jira.extract_items Jira.extract_text_and_links rest a'.
Proof.
  induction 1 as [|x pre [[t l] Hx] _ IH]; intros a; cbn [app Jira.extract_items].
  - now exists a.
  - rewrite Hx. apply IH.
Qed.

(** X13. One bad node spoils the field: when a child of a node's [content]
    list makes the extractor raise, and the children before it do not, the
    extractor raises the same exception on the node, and on the list taken
    as a list node; no text and no link of the other children is returned. *)
Theorem extract_raises_with_its_child :
  forall d pre c post e,
    dict_get "content" d = Some (JList (pre ++ c :: post)) ->
    Forall (fun x => exists o, Jira.extract_text_and_links x = Ok o) pre ->
    Jira.extract_text_and_links c = Raise e ->
    Jira.extract_text_and_links (JObj d) = Raise e
    /\ Jira.extract_text_and_links (JList (pre ++ c :: post)) = Raise e
    /\ Jira.extract_google_drive_links (JObj d) = Raise e.
Proof.
  intros d pre c post e Hd Hpre Hc.
  assert (Hitems :
    Jira.extract_items Jira.extract_text_and_links (pre ++ c :: post)
      (EmptyString, []) = Raise e).
  { destruct (extract_items_ok_prefix pre (c :: post) Hpre (EmptyString, []))
      as [a' ->].
    cbn [Jira.extract_items]. now rewrite Hc. }
  assert (Hobj : Jira.extract_text_and_links (JObj d) = Raise e)
    by (now rewrite extract_object_unfold, Hd, Hitems).
  repeat split.
  - exact Hobj.
  - cbn [Jira.extract_text_and_links]. now rewrite Hitems.
  - unfold Jira.extract_google_drive_links. now rewrite Hobj.
Qed.

Lemma extract_raises_with_its_child_witness :
  Jira.extract_text_and_links
    (JObj [("content", JList [Examples.text_node "a"; JObj [("text", JNum 5)];
                              Examples.text_node "b"])])
  = Raise TypeError.
Proof.
  apply (extract_raises_with_its_child
           [("content", JList [Examples.text_node "a"; JObj [("text", JNum 5)];
                               Examples.text_node "b"])]
           [Examples.text_node "a"] (JObj [("text", JNum 5)])
           [Examples.text_node "b"] TypeError eq_refl).
  - constructor; [|constructor]. eexists. reflexivity.
  - reflexivity.
Defined.

Lemma keep_google_filter (links : list json) :
  Forall (fun l => exists b, Jira.is_google l = Ok b) links ->
  forall google_links,
    Jira.keep_google links google_links
    = Ok (google_links ++ filter google_link links)%list.
Proof.
  induction 1 as [|l links [b Hb] _ IH]; intros g; cbn [Jira.keep_google filter].
  - now rewrite app_nil_r.
  - unfold google_link at 1. rewrite Hb. cbn [Py.bind]. rewrite IH.
    destruct b; [now rewrite <- app_assoc | reflexivity].
Qed.

Lemma keep_google_raises (pre post : list json) (l : json) (e : exn) :
  Forall (fun l => exists b, Jira.is_google l = Ok b) pre ->
  Jira.is_google l = Raise e ->
  forall google_links,
    Jira.keep_google (pre ++ l :: post) google_links = Raise e.
Proof.
  intros Hpre Hl.
  induction Hpre as [|x pre [b Hb] _ IH]; intros g; cbn [app Jira.keep_google].
  - now rewrite Hl.
  - rewrite Hb. cbn [Py.bind]. apply IH.
Qed.

(** X14. What the issue classifier returns for a tree, and in which order:
    first the URLs found in the extracted text that carry a marker, in
    their order in the text, then the links of the structure that carry a
    marker, in document order; nothing is merged or dropped as a duplicate.
    A link of the structure that is no string, list or mapping (a null
    [href]) makes the classifier raise. *)
Theorem issue_classifier_order :
  forall x text links,
    (exists d, x = JObj d) \/ (exists items, x = JList items) ->
    Jira.extract_text_and_links x = Ok (text, links) ->
    (Forall (fun l => exists b, Jira.is_google l = Ok b) links ->
     Jira.extract_google_drive_links x
     = Ok (map JStr (filter Jira.is_google_url (findall Jira.url_pattern text))
           ++ filter google_link links)%list)
    /\ (forall pre l post e,
          links = (pre ++ l :: post)%list ->
          Forall (fun l => exists b, Jira.is_google l = Ok b) pre ->
          Jira.is_google l = Raise e ->
          Jira.extract_google_drive_links x = Raise e).
Proof.
  intros x text links Hx He.
  assert (Hc : Jira.extract_google_drive_links x
               = Jira.keep_google links
                   (map JStr (filter Jira.is_google_url
                                     (findall Jira.url_pattern text)))).
  { unfold Jira.extract_google_drive_links.
    destruct Hx as [[d ->]|[items ->]]; now rewrite He. }
  split.
  - intros Hall. rewrite Hc. now apply keep_google_filter.
  - intros pre l post e -> Hpre Hl. rewrite Hc. now apply keep_google_raises.
Qed.

Lemma issue_classifier_order_witness :
  Jira.extract_google_drive_links
    (JList [Examples.text_node "see https://docs.google.com/a";
            JObj [("type", JStr "inlineCard");
                  ("attrs", JObj [("url", JStr "https://drive.google.com/b")])];
            JObj [("type", JStr "inlineCard");
                  ("attrs", JObj [("url", JStr "https://example.com/c")])]])
  = Ok [JStr "https://docs.google.com/a"; JStr "https://drive.google.com/b"].
Proof.
  refine (proj1 (issue_classifier_order
            (JList [Examples.text_node "see https://docs.google.com/a";
                    JObj [("type", JStr "inlineCard");
                          ("attrs", JObj [("url", JStr "https://drive.google.com/b")])];
                    JObj [("type", JStr "inlineCard");
                          ("attrs", JObj [("url", JStr "https://example.com/c")])]])
            "see https://docs.google.com/a"
            [JStr "https://drive.google.com/b"; JStr "https://example.com/c"]
            (or_intror (ex_intro _ _ eq_refl)) eq_refl) _).
  repeat constructor; eexists; reflexivity.
Defined.

(* ================================================================== *)
(** ** More on the patterns as the scripts use them *)
(* ================================================================== *)

Lemma findall_from_piece (r : regex) (s : string) :
  forall skip x,
    In x (findall_from r skip s) ->
    exists a whole b cap,
      s = a ++ whole ++ b /\ matches r None whole cap /\ x = item_of r whole cap.
Proof.
  induction s as [|c s IH]; intros skip x; simpl.
  - destruct skip; [|intros []].
    destruct (match_at r "") as [[[whole cap] rest]|] eqn:E; [|intros []].
    intros [<-|[]]. apply match_at_sound in E as [E M].
    now exists "", whole, rest, cap.
  - assert (Hlater : In x (findall_from r 0 s) \/
                     (exists n, In x (findall_from r n s)) ->
                     exists a whole b cap,
                       String c s = a ++ whole ++ b /\ matches r None whole cap /\
                       x = item_of r whole cap).
    { intros [H|[n H]]; apply IH in H as (a & whole & b & cap & -> & M & ->);
        now exists (String c a), whole, b, cap. }
    destruct skip; [|intros H; apply Hlater; right; eauto].
    destruct (match_at r (String c s)) as [[[whole cap] rest]|] eqn:E;
      [|intros H; apply Hlater; now left].
    intros [<-|Hin]; [|apply Hlater; right; eauto].
    apply match_at_sound in E as [E M].
    exists "", whole, rest, cap. now split.
Qed.

Lemma search_sound (r : regex) (s : string) :
  search r s = true ->
  exists a whole b cap, s = a ++ whole ++ b /\ matches r None whole cap.
Proof.
  induction s as [|c s IH]; simpl.
  - destruct (match_at r "") as [[[whole cap] rest]|] eqn:E; [|discriminate].
    intros _. apply match_at_sound in E as [E M]. now exists "", whole, rest, cap.
  - destruct (match_at r (String c s)) as [[[whole cap] rest]|] eqn:E.
    + intros _. apply match_at_sound in E as [E M].
      now exists "", whole, rest, cap.
    + intros H. apply IH in H as (a & whole & b & cap & -> & M).
      now exists (String c a), whole, b, cap.
Qed.

Lemma search_complete (r : regex) (a whole b : string) (cap : option string) :
  matches r None whole cap -> search r (a ++ whole ++ b) = true.
Proof.
  intros M.
  assert (H0 : search r (whole ++ b) = true).
  { destruct (match_at_complete r whole b cap M) as [y Hy].
    destruct (whole ++ b); simpl; now rewrite Hy. }
  induction a as [|c a IH]; [exact H0|].
  cbn [append search]. destruct (match_at r (String c (a ++ whole ++ b)));
    [reflexivity | exact IH].
Qed.

Lemma google_host_intro (scheme host : string) (cap : option string) :
  (scheme = "http" \/ scheme = "https") -> (host = "drive" \/ host = "docs") ->
  matches google_host cap (scheme ++ "://" ++ host ++ ".google.com") cap.
Proof.
  unfold google_host. intros [-> | ->] [-> | ->].
  - eapply matches_seq; [apply MLit | | reflexivity].
    eapply (matches_seq _ _ _ _ _ _ ""); [apply MOptNone | | reflexivity].
    eapply matches_seq; [apply MLit | | reflexivity].
    eapply matches_seq; [apply MAltL, MLit | apply MLit | reflexivity].
  - eapply matches_seq; [apply MLit | | reflexivity].
    eapply (matches_seq _ _ _ _ _ _ ""); [apply MOptNone | | reflexivity].
    eapply matches_seq; [apply MLit | | reflexivity].
    eapply matches_seq; [apply MAltR, MLit | apply MLit | reflexivity].
  - eapply (matches_seq _ _ _ _ _ _ "http"); [apply MLit | | reflexivity].
    eapply (matches_seq _ _ _ _ _ _ "s"); [apply MOptSome, MLit | | reflexivity].
    eapply matches_seq; [apply MLit | | reflexivity].
    eapply matches_seq; [apply MAltL, MLit | apply MLit | reflexivity].
  - eapply (matches_seq _ _ _ _ _ _ "http"); [apply MLit | | reflexivity].
    eapply (matches_seq _ _ _ _ _ _ "s"); [apply MOptSome, MLit | | reflexivity].
    eapply matches_seq; [apply MLit | | reflexivity].
    eapply matches_seq; [apply MAltR, MLit | apply MLit | reflexivity].
Qed.

(** what the pattern of the remote links matches *)
Lemma jira_hard_matches (w : string) (cap : option string) :
  matches Jira.GOOGLE_DRIVE_HARDLINK_REGEX None w cap <->
  exists scheme host c t,
    (scheme = "http" \/ scheme = "https") /\ (host = "drive" \/ host = "docs") /\
    non_space c = true /\ all_chars non_space t = true /\ cap = None /\
    w = scheme ++ "://" ++ host ++ ".google.com/" ++ String c t.
Proof.
  unfold Jira.GOOGLE_DRIVE_HARDLINK_REGEX. split.
  - intros M. inversion M; subst; clear M.
    match goal with H : matches google_host _ _ _ |- _ =>
      apply google_host_matches in H as (-> & scheme & host & -> & Hs & Hh) end.
    inv_matches.
    exists scheme, host, a, s. repeat split; try assumption.
    rewrite !append_assoc. reflexivity.
  - intros (scheme & host & c & t & Hs & Hh & Hc & Ht & -> & ->).
    eapply matches_seq with (s1 := scheme ++ "://" ++ host ++ ".google.com")
                            (s2 := "/" ++ String c t).
    + now apply google_host_intro.
    + eapply (matches_seq _ _ _ _ _ _ "/" (String c t));
        [apply MLit | apply (MPlus non_space c t); assumption | reflexivity].
    + rewrite !append_assoc. reflexivity.
Qed.

(** X15. Which remote links are reported: a remote link gets its row
    exactly when it has in it, anywhere, [http://] or [https://], then
    [drive] or [docs], then [.google.com/], then at least one character
    that is not whitespace; what stands in front of the scheme and behind
    that character plays no part. *)
Theorem remote_link_reported_iff :
  forall project_key issue_key summary url results,
    (search Jira.GOOGLE_DRIVE_HARDLINK_REGEX url = true <->
     exists a scheme host c b,
       (scheme = "http" \/ scheme = "https") /\ (host = "drive" \/ host = "docs") /\
       non_space c = true /\
       url = a ++ scheme ++ "://" ++ host ++ ".google.com/" ++ String c b)
    /\ Jira.process_remote_links project_key issue_key summary [JStr url] results
       = Ok (if search Jira.GOOGLE_DRIVE_HARDLINK_REGEX url
             then (results ++ [[project_key; issue_key; summary; JStr url;
                                JStr "Remote Link"]])%list
             else results).
Proof.
  intros project_key issue_key summary url results. split.
  - split.
    + intros H. apply search_sound in H as (a & w & b & cap & -> & M).
      apply jira_hard_matches in M as (scheme & host & c & t & Hs & Hh & Hc & _ & _ & ->).
      exists a, scheme, host, c, (t ++ b). repeat split; try assumption.
      rewrite !append_assoc. reflexivity.
    + intros (a & scheme & host & c & b & Hs & Hh & Hc & ->).
      replace (a ++ scheme ++ "://" ++ host ++ ".google.com/" ++ String c b)
        with (a ++ (scheme ++ "://" ++ host ++ ".google.com/" ++ String c "") ++ b)
        by (now rewrite !append_assoc).
      apply (search_complete _ _ _ _ None).
      apply jira_hard_matches. exists scheme, host, c, "". now repeat split.
  - cbn [Jira.process_remote_links].
    now destruct (search Jira.GOOGLE_DRIVE_HARDLINK_REGEX url).
Qed.

Lemma url_pattern_matches (w : string) (cap : option string) :
  matches Jira.url_pattern None w cap ->
  exists scheme c t,
    (scheme = "http" \/ scheme = "https") /\
    non_space c = true /\ all_chars non_space t = true /\
    w = scheme ++ "://" ++ String c t.
Proof.
  unfold Jira.url_pattern. intros M. inv_matches.
  - exists "https", a, s. auto.
  - exists "http", a, s. auto.
Qed.

Lemma piece_of_inner (x a w b s : string) :
  s = a ++ w ++ b -> piece_of x w -> piece_of x s.
Proof.
  intros -> (a' & b' & ->). exists (a ++ a'), (b' ++ b).
  now rewrite !append_assoc.
Qed.

(** X16. A link reported for a field that is plain text (a summary, an
    environment in text form) is a piece of that text: it occurs in it as
    it is, starts with [http://] or [https://], has no whitespace in it and
    carries a marker. A plain-text field never makes the classifier
    raise. *)
Theorem text_field_links (s : string) :
  exists r,
    Jira.extract_google_drive_links (JStr s) = Ok r /\
    forall v, In v r ->
      exists u,
        v = JStr u /\ piece_of u s /\ all_chars non_space u = true /\
        (startswith "http://" u = true \/ startswith "https://" u = true) /\
        Jira.is_google_url u = true.
Proof.
  eexists. split; [reflexivity|].
  intros v Hv. cbn [Jira.keep_google] in Hv.
  apply in_map_iff in Hv as (u & <- & Hu).
  apply filter_In in Hu as [Hu Hg].
  exists u. split; [reflexivity|].
  apply findall_from_piece in Hu as (a & w & b & cap & E & M & ->).
  change (item_of Jira.url_pattern w cap) with w in *.
  apply url_pattern_matches in M as (scheme & c & t & Hs & Hc & Ht & ->).
  split; [now exists a, b|].
  split; [|split; [|exact Hg]].
  - destruct Hs as [-> | ->]; cbn [append all_chars]; now rewrite Hc, Ht.
  - destruct Hs as [-> | ->]; [left | right]; reflexivity.
Qed.

Lemma text_field_links_witness :
  exists u,
    JStr "https://docs.google.com/d/1" = JStr u /\
    piece_of u "see https://docs.google.com/d/1 please" /\
    all_chars non_space u = true /\
    (startswith "http://" u = true \/ startswith "https://" u = true) /\
    Jira.is_google_url u = true.
Proof.
  destruct (text_field_links "see https://docs.google.com/d/1 please")
    as (r & Hr & H).
  apply H. vm_compute in Hr. injection Hr as <-. left. reflexivity.
Defined.

(** X17. The wiki classifier invents nothing: every link it reports is a
    piece of the page body. A "Hardcoded" link starts with the scheme and
    one of the two hosts and has no whitespace in it; a "Smart Link" is an
    attribute value: it has no double quote in it, has [drive.google.com] in
    it, and stands in the body after the attribute name [data-card-url],
    an equals sign and an opening quote, and before a closing quote. *)
Theorem wiki_links_are_pieces (body url kind : string) :
  In (url, kind) (Confluence.extract_google_drive_links body) ->
  piece_of url body
  /\ (kind = "Hardcoded" ->
      all_chars non_space url = true /\
      exists scheme host rest,
        (scheme = "http" \/ scheme = "https") /\ (host = "drive" \/ host = "docs") /\
        url = scheme ++ "://" ++ host ++ ".google.com" ++ rest)
  /\ (kind = "Smart Link" ->
      all_chars (not_char "034") url = true /\
      str_contains "drive.google.com" url = true /\
      piece_of ("data-card-url=" ++ dq ++ url ++ dq) body).
Proof.
  intros H. apply in_wiki_links in H as [[-> H]|[-> H]].
  - apply findall_from_piece in H as (a & w & b & cap & E & M & ->).
    change (item_of Confluence.GOOGLE_DRIVE_HARDLINK_REGEX w cap) with w.
    unfold Confluence.GOOGLE_DRIVE_HARDLINK_REGEX in M.
    inversion M; subst; clear M.
    match goal with H : matches google_host _ _ _ |- _ =>
      apply google_host_matches in H as (-> & scheme & host & -> & Hs & Hh) end.
    inv_matches.
    split; [now eexists _, _|]. split; [|discriminate].
    intros _. split.
    + rewrite !append_assoc.
      destruct Hs as [-> | ->], Hh as [-> | ->]; cbn [append all_chars];
        match goal with
        | Ha : non_space _ = true, Hs : all_chars non_space _ = true |- _ =>
            now rewrite Ha, Hs
        end.
    + exists scheme, host, (String a0 s). repeat split; try assumption.
      now rewrite !append_assoc.
  - pose proof (smart_link_marker body url H) as Hm.
    apply findall_from_piece in H as (a & w & b & cap & E & M & ->).
    unfold Confluence.GOOGLE_DRIVE_SMARTLINK_REGEX in M. inv_matches.
    unfold item_of in *.
    change (has_group Confluence.GOOGLE_DRIVE_SMARTLINK_REGEX) with true in *.
    cbv iota in *.
    match goal with
    | |- piece_of ?g _ /\ _ => set (url := g) in *
    end.
    assert (Hp : piece_of ("data-card-url=" ++ dq ++ url ++ dq)
                   (a ++
                    ("<ac:structured-macro" ++ s0 ++
                     ("ac:name=" ++ dq ++ "inline-card" ++ dq) ++ s3 ++
                     ("data-card-url=" ++ dq) ++ url ++ dq) ++ b)).
    { exists (a ++ "<ac:structured-macro" ++ s0 ++
              ("ac:name=" ++ dq ++ "inline-card" ++ dq) ++ s3), b.
      now rewrite !append_assoc. }
    split; [|split; [discriminate|]].
    + destruct Hp as (a' & b' & Hp).
      eapply piece_of_inner; [exact Hp|].
      exists ("data-card-url=" ++ dq), dq. now rewrite !append_assoc.
    + intros _. split; [|split; [exact Hm | exact Hp]].
      unfold url. rewrite !all_chars_app.
      repeat match goal with
        | Hq : all_chars (not_char "034") _ = true |- _ => rewrite Hq; clear Hq
        end.
      reflexivity.
Qed.

Lemma wiki_links_are_pieces_witness :
  piece_of "https://drive.google.com/file/d/1"
           (Examples.inline_card "https://drive.google.com/file/d/1").
Proof.
  apply (wiki_links_are_pieces
           (Examples.inline_card "https://drive.google.com/file/d/1")
           "https://drive.google.com/file/d/1" "Smart Link").
  vm_compute. right. now left.
Defined.

(* ================================================================== *)
(** ** Remote links, comments and fields of one issue *)
(* ================================================================== *)

Lemma remote_link_urls_listed (links : list json) :
  Forall remote_link links ->
  Jira.remote_link_urls links = Ok (flat_map listed_url links).
Proof.
  induction 1 as [|l links (d & -> & Hd) _ IH]; [reflexivity|].
  cbn [Jira.remote_link_urls flat_map]. rewrite IH.
  unfold Jira.remote_link_url, listed_url, py_in, dict_has, Jira.get_or, py_get.
  destruct Hd as [-> | (o & ->)]; cbn [Py.bind]; [reflexivity|].
  destruct (dict_get "url" o); reflexivity.
Qed.

Lemma remote_link_urls_bad (links : list json) (bad : json) (e : exn) :
  In bad links -> Jira.remote_link_url bad = Raise e ->
  exists e', Jira.remote_link_urls links = Raise e'.
Proof.
  induction links as [|l links IH]; intros Hin Hbad; [destruct Hin|].
  destruct Hin as [-> | Hin]; cbn [Jira.remote_link_urls].
  - rewrite Hbad. now exists e.
  - destruct (Jira.remote_link_url l) as [o|e1]; cbn [Py.bind]; [|now exists e1].
    destruct (IH Hin Hbad) as [e' ->]. now exists e'.
Qed.

(** X18. The remote links of an issue come all or not at all. When the
    lookup raises, the issue has no remote link for the run. When it
    returns a list of well-formed links, each link with an [object] is
    listed with the [url] of the object, or with the empty string when the
    object has none, in order; a link without [object] is left out. When
    one element of the list makes the comprehension raise (a null, a number,
    an [object] that is no mapping), all the links of the issue are lost,
    those in front of it too, and nothing is raised. *)
Theorem issue_links_all_or_nothing :
  forall BASE repr request issue_key,
    (forall e,
        request (BASE ++ "/rest/api/3/issue/" ++ Jira.fmt repr issue_key
                 ++ "/remotelink") JNull = Raise e ->
        Jira.get_issue_links BASE repr request issue_key = [])
    /\ (forall links,
          request (BASE ++ "/rest/api/3/issue/" ++ Jira.fmt repr issue_key
                   ++ "/remotelink") JNull = Ok (JList links) ->
          (Forall remote_link links ->
           Jira.get_issue_links BASE repr request issue_key
           = flat_map listed_url links)
          /\ (forall bad e,
                In bad links -> Jira.remote_link_url bad = Raise e ->
                Jira.get_issue_links BASE repr request issue_key = [])).
Proof.
  intros BASE repr request issue_key. unfold Jira.get_issue_links. split.
  - intros e ->. reflexivity.
  - intros links ->. cbn [Py.bind py_iter]. split.
    + intros H. now rewrite (remote_link_urls_listed links H).
    + intros bad e Hin Hbad.
      destruct (remote_link_urls_bad links bad e Hin Hbad) as [e' ->].
      reflexivity.
Qed.

Lemma issue_links_all_or_nothing_witness :
  Jira.get_issue_links Examples.tracker_base (fun _ => "")
    Examples.tracker_with_null_remote_link (JStr "PRJ-7") = [].
Proof.
  apply (proj2 (proj2 (issue_links_all_or_nothing Examples.tracker_base
                         (fun _ => "") Examples.tracker_with_null_remote_link
                         (JStr "PRJ-7"))
                  [JObj [("object", JObj [("url", JStr "https://docs.google.com/d/1")])];
                   JNull]
                  eq_refl)
           JNull TypeError);
    [right; left; reflexivity | reflexivity].
Defined.

Lemma comment_loops_agree (project_key issue_key summary : json) :
  forall comments i acc results,
    match Jira.process_comments_loop comments acc with
    | Ok links =>
        exists per,
          Forall2 comment_links comments per /\
          links = (acc ++ concat per)%list /\
          Jira.process_issue_comments project_key issue_key summary i comments
            results
          = Ok (results ++ comment_rows project_key issue_key summary i per)%list
    | Raise e =>
        Jira.process_issue_comments project_key issue_key summary i comments
          results = Raise e
    end.
Proof.
  induction comments as [|c comments IH]; intros i acc results.
  - cbn. exists []. cbn. rewrite !app_nil_r. now repeat split.
  - cbn [Jira.process_comments_loop Jira.process_issue_comments].
    destruct (Jira.get_or c "body" (JObj [])) as [body|e] eqn:Eb; cbn [Py.bind];
      [|reflexivity].
    destruct (Jira.extract_google_drive_links body) as [ls|e] eqn:El;
      cbn [Py.bind]; [|reflexivity].
    specialize (IH (S i) (acc ++ ls)%list
                  (Jira.append_rows project_key issue_key summary
                     ("Comment " ++ Jira.decimal (i + 1)) ls results)).
    destruct (Jira.process_comments_loop comments (acc ++ ls)%list) as [links|e];
      [|exact IH].
    destruct IH as (per & Hper & -> & ->).
    exists (ls :: per). split; [constructor; [now exists body | exact Hper]|].
    split; [cbn [concat]; now rewrite app_assoc|].
    unfold Jira.append_rows. cbn [comment_rows]. now rewrite app_assoc.
Qed.

Lemma comment_rows_links (project_key issue_key summary : json) :
  forall per i,
    map link_of (comment_rows project_key issue_key summary i per) = concat per.
Proof.
  induction per as [|ls per IH]; intros i; [reflexivity|].
  cbn [comment_rows concat]. rewrite map_app, IH. f_equal.
  rewrite map_map. cbn. apply map_id.
Qed.

(** the rows of [comment_rows] are those of the links of each comment,
    under the number of the comment *)
Lemma comment_rows_labels (project_key issue_key summary : json) (row : Jira.row) :
  forall per i,
    In row (comment_rows project_key issue_key summary i per) <->
    exists n links l,
      nth_error per n = Some links /\ In l links /\
      row = [project_key; issue_key; summary; l;
             JStr ("Comment " ++ Jira.decimal (i + n + 1))].
Proof.
  induction per as [|ls per IH]; intros i; cbn [comment_rows].
  - split; [intros [] | intros ([|n] & links & l & H & _); discriminate H].
  - rewrite in_app_iff, in_map_iff, IH. split.
    + intros [(l & <- & Hl) | (n & links & l & Hn & Hl & ->)].
      * exists 0%nat, ls, l. rewrite Nat.add_0_r. now repeat split.
      * exists (S n), links, l. repeat split; try assumption.
        now replace (i + S n + 1)%nat with (S i + n + 1)%nat by lia.
    + intros ([|n] & links & l & Hn & Hl & ->); cbn [nth_error] in Hn.
      * injection Hn as <-. left. exists l. rewrite Nat.add_0_r. now split.
      * right. exists n, links, l. repeat split; try assumption.
        now replace (i + S n + 1)%nat with (S i + n + 1)%nat by lia.
Qed.

(** X19. The helper [process_comments] and the comment loop of the run do
    the same work. When the helper returns, its list is the links of the
    first comment, then those of the second, and so on, the links of a
    comment being what the classifier returns on its body; the loop appends
    one row for each of these links, in the same order, and the rows of the
    links of the n-th comment, and no other, carry the Source "Comment n"
    with n counted from 1; read back, the Link column of the appended rows
    is the helper's list. When the helper raises, the loop raises the same
    exception. *)
Theorem comment_rows_follow_process_comments :
  forall project_key issue_key summary comments results,
    (forall links,
        Jira.process_comments (JList comments) = Ok links ->
        exists per,
          Forall2 comment_links comments per /\
          links = concat per /\
          (exists rows,
              Jira.process_issue_comments project_key issue_key summary 0 comments
                results
              = Ok (results ++ rows)%list /\
              map link_of rows = links /\
              forall row,
                In row rows <->
                exists n links_n l,
                  nth_error per n = Some links_n /\ In l links_n /\
                  row = [project_key; issue_key; summary; l;
                         JStr ("Comment " ++ Jira.decimal (n + 1))]))
    /\ (forall e,
          Jira.process_comments (JList comments) = Raise e ->
          Jira.process_issue_comments project_key issue_key summary 0 comments
            results = Raise e).
Proof.
  intros project_key issue_key summary comments results.
  pose proof (comment_loops_agree project_key issue_key summary comments 0 []
                results) as H.
  unfold Jira.process_comments. cbn [py_iter Py.bind].
  destruct (Jira.process_comments_loop comments []) as [links|e].
  - destruct H as (per & Hper & -> & Hrows). split; [|discriminate].
    intros links' E. injection E as <-. exists per.
    split; [exact Hper|]. split; [reflexivity|].
    exists (comment_rows project_key issue_key summary 0 per).
    split; [exact Hrows|]. split; [apply comment_rows_links|].
    intros row. apply (comment_rows_labels project_key issue_key summary row per 0).
  - split; [discriminate|]. intros e' E. injection E as <-. exact H.
Qed.

Lemma comment_rows_follow_process_comments_witness :
  exists per,
    Forall2 comment_links [Examples.a_comment; Examples.no_link_comment;
                           Examples.a_comment] per /\
    [JStr "https://docs.google.com/d/1"; JStr "https://docs.google.com/d/1"]
    = concat per /\
    (exists rows,
        Jira.process_issue_comments (JStr "PRJ") (JStr "PRJ-7") (JStr "s") 0
          [Examples.a_comment; Examples.no_link_comment; Examples.a_comment] []
        = Ok ([] ++ rows)%list /\
        map link_of rows
        = [JStr "https://docs.google.com/d/1"; JStr "https://docs.google.com/d/1"] /\
        forall row,
          In row rows <->
          exists n links_n l,
            nth_error per n = Some links_n /\ In l links_n /\
            row = [JStr "PRJ"; JStr "PRJ-7"; JStr "s"; l;
                   JStr ("Comment " ++ Jira.decimal (n + 1))]).
Proof.
  apply (proj1 (comment_rows_follow_process_comments (JStr "PRJ") (JStr "PRJ-7")
                  (JStr "s")
                  [Examples.a_comment; Examples.no_link_comment;
                   Examples.a_comment] [])).
  vm_compute. reflexivity.
Defined.

Lemma scanned_field_eqb (k k' : string) :
  scanned_field k = true -> scanned_field k' = false -> String.eqb k' k = false.
Proof.
  intros Hk Hk'. destruct (String.eqb_spec k' k) as [->|]; [|reflexivity].
  congruence.
Qed.

Lemma dict_get_scanned (k : string) (fields : dict) :
  scanned_field k = true ->
  dict_get k (scanned_fields fields) = dict_get k fields.
Proof.
  intros Hk. induction fields as [|[k' v] fields IH]; [reflexivity|].
  unfold scanned_fields in *. cbn [filter fst].
  destruct (scanned_field k') eqn:E; cbn [dict_get].
  - now rewrite IH.
  - now rewrite (scanned_field_eqb k k' Hk E).
Qed.

Lemma custom_fields_scanned (project_key issue_key summary : json) :
  forall fields results,
    Jira.process_custom_fields project_key issue_key summary
      (scanned_fields fields) results
    = Jira.process_custom_fields project_key issue_key summary fields results.
Proof.
  induction fields as [|[k v] fields IH]; intros results; [reflexivity|].
  unfold scanned_fields in *. cbn [filter fst].
  destruct (startswith "customfield_" k) eqn:Ec.
  - assert (Hs : scanned_field k = true)
      by (unfold scanned_field; rewrite Ec; apply orb_true_r).
    rewrite Hs. cbn [Jira.process_custom_fields]. rewrite Ec.
    destruct (Jira.extract_google_drive_links v); cbn [Py.bind];
      [apply IH | reflexivity].
  - destruct (scanned_field k); cbn [Jira.process_custom_fields];
      rewrite ?Ec; apply IH.
Qed.

(** X20. The loop that builds the rows of an issue (the second loop over the
    issues; the first one only logs) reads five kinds of fields and no other: [summary],
    [description], [comment], [environment] and the fields whose name
    starts with [customfield_]. Taking every other field out of an issue
    changes neither the rows appended for it nor the exception it ends
    with: a link in the issue links, the issue type, the attachments or any
    other field is never reported, and no value there can end the run. *)
Theorem issue_loop_reads_scanned_fields_only :
  forall BASE repr request project_key issue issue' fields results,
    dict_get "key" issue' = dict_get "key" issue ->
    dict_get "fields" issue = Some (JObj fields) ->
    dict_get "fields" issue' = Some (JObj (scanned_fields fields)) ->
    Jira.process_issue BASE repr request project_key (JObj issue') results
    = Jira.process_issue BASE repr request project_key (JObj issue) results.
Proof.
  intros BASE repr request project_key issue issue' fields results Hk Hf Hf'.
  unfold Jira.process_issue, py_item, dict_item, Jira.get_or, py_get.
  rewrite Hk, Hf, Hf'.
  destruct (dict_get "key" issue) as [issue_key|]; cbn [Py.bind]; [|reflexivity].
  rewrite !dict_get_scanned by reflexivity.
  repeat match goal with
    | |- Py.bind ?m _ = Py.bind ?m _ =>
        destruct m; cbn [Py.bind]; [|reflexivity]
    end.
  rewrite custom_fields_scanned. reflexivity.
Qed.

Lemma issue_loop_reads_scanned_fields_only_witness :
  Jira.process_issue Examples.tracker_base (fun _ => "")
    (Examples.tracker_with_remote_link "https://drive.google.com/drive/folders/xyz")
    (JStr "P")
    (JObj [("key", JStr "P-1");
           ("fields", JObj (scanned_fields
                              (("issuetype", JNum 7) :: Examples.bare_fields)))])
    []
  = Jira.process_issue Examples.tracker_base (fun _ => "")
      (Examples.tracker_with_remote_link "https://drive.google.com/drive/folders/xyz")
      (JStr "P")
      (JObj [("key", JStr "P-1");
             ("fields", JObj (("issuetype", JNum 7) :: Examples.bare_fields))])
      [].
Proof.
  apply (issue_loop_reads_scanned_fields_only
           Examples.tracker_base (fun _ => "")
           (Examples.tracker_with_remote_link
              "https://drive.google.com/drive/folders/xyz")
           (JStr "P")
           [("key", JStr "P-1");
            ("fields", JObj (("issuetype", JNum 7) :: Examples.bare_fields))]
           [("key", JStr "P-1");
            ("fields", JObj (scanned_fields
                               (("issuetype", JNum 7) :: Examples.bare_fields)))]
           (("issuetype", JNum 7) :: Examples.bare_fields) []);
    reflexivity.
Defined.

(* ================================================================== *)
(** ** What is found, and how often *)
(* ================================================================== *)

Lemma findall_nonempty (r : regex) (s : string) :
  search r s = true -> exists x, In x (findall r s).
Proof.
  unfold findall. induction s as [|c s IH]; cbn [search findall_from].
  - destruct (match_at r "") as [[[whole cap] rest]|]; [|discriminate].
    intros _. eexists. now left.
  - destruct (match_at r (String c s)) as [[[whole cap] rest]|].
    + intros _. eexists. now left.
    + exact IH.
Qed.

Lemma wiki_hard_matches (w : string) (cap : option string) :
  matches Confluence.GOOGLE_DRIVE_HARDLINK_REGEX None w cap <->
  exists scheme host c t,
    (scheme = "http" \/ scheme = "https") /\ (host = "drive" \/ host = "docs") /\
    non_space c = true /\ all_chars non_space t = true /\ cap = None /\
    w = scheme ++ "://" ++ host ++ ".google.com" ++ String c t.
Proof.
  unfold Confluence.GOOGLE_DRIVE_HARDLINK_REGEX. split.
  - intros M. inversion M; subst; clear M.
    match goal with H : matches google_host _ _ _ |- _ =>
      apply google_host_matches in H as (-> & scheme & host & -> & Hs & Hh) end.
    inv_matches.
    exists scheme, host, a, s. repeat split; try assumption.
    rewrite !append_assoc. reflexivity.
  - intros (scheme & host & c & t & Hs & Hh & Hc & Ht & -> & ->).
    eapply matches_seq with (s1 := scheme ++ "://" ++ host ++ ".google.com")
                            (s2 := String c t).
    + now apply google_host_intro.
    + apply (MPlus non_space c t); assumption.
    + rewrite !append_assoc. reflexivity.
Qed.

Lemma wiki_smart_matches (w : string) (cap : option string) :
  matches Confluence.GOOGLE_DRIVE_SMARTLINK_REGEX None w cap <->
  exists g1 g2 u1 u2,
    all_chars (not_char ">") g1 = true /\ all_chars (not_char ">") g2 = true /\
    all_chars (not_char "034") u1 = true /\ all_chars (not_char "034") u2 = true /\
    cap = Some (u1 ++ "drive.google.com" ++ u2) /\
    w = "<ac:structured-macro" ++ g1
          ++ ("ac:name=" ++ dq ++ "inline-card" ++ dq) ++ g2
          ++ ("data-card-url=" ++ dq)
          ++ (u1 ++ "drive.google.com" ++ u2) ++ dq.
Proof.
  unfold Confluence.GOOGLE_DRIVE_SMARTLINK_REGEX. split.
  - intros M. inv_matches.
    eexists _, _, _, _. repeat split; eassumption.
  - intros (g1 & g2 & u1 & u2 & H1 & H2 & H3 & H4 & -> & ->).
    eapply matches_seq; [apply MLit | | reflexivity].
    eapply (matches_seq _ _ _ _ _ _ g1); [apply MStar; exact H1 | | reflexivity].
    eapply matches_seq; [apply MLit | | reflexivity].
    eapply (matches_seq _ _ _ _ _ _ g2); [apply MStar; exact H2 | | reflexivity].
    eapply matches_seq; [apply MLit | | reflexivity].
    eapply matches_seq; [| apply MLit | reflexivity].
    apply MGroup with (cap' := None).
    eapply matches_seq; [apply MStar; exact H3 | | reflexivity].
    eapply matches_seq; [apply MLit | apply MStar; exact H4 | reflexivity].
Qed.

(** X21. When a page has links to report. The wiki classifier returns a
    "Hardcoded" entry exactly when the body has in it [http://] or
    [https://], then [drive] or [docs], then [.google.com], then one more
    character that is not whitespace; it returns a "Smart Link" entry
    exactly when the body has in it an inline-card macro whose url attribute
    has [drive.google.com] in its value. *)
Theorem wiki_links_found_iff (body : string) :
  ((exists link, In (link, "Hardcoded") (Confluence.extract_google_drive_links body))
   <-> has_hard_link body)
  /\ ((exists link, In (link, "Smart Link") (Confluence.extract_google_drive_links body))
      <-> has_inline_card body).
Proof.
  unfold Confluence.extract_google_drive_links. split; split.
  - intros (link & H). apply in_app_or in H as [H|H];
      apply in_map_iff in H as (l & E & H); [|discriminate].
    apply findall_from_piece in H as (a & w & b & cap & -> & M & _).
    apply wiki_hard_matches in M as (scheme & host & c & t & Hs & Hh & Hc & _ & _ & ->).
    exists a, scheme, host, c, (t ++ b). repeat split; try assumption.
    rewrite !append_assoc. reflexivity.
  - intros (a & scheme & host & c & b & Hs & Hh & Hc & ->).
    destruct (findall_nonempty Confluence.GOOGLE_DRIVE_HARDLINK_REGEX
                (a ++ scheme ++ "://" ++ host ++ ".google.com" ++ String c b))
      as [x Hx].
    + replace (a ++ scheme ++ "://" ++ host ++ ".google.com" ++ String c b)
        with (a ++ (scheme ++ "://" ++ host ++ ".google.com" ++ String c "") ++ b)
        by (now rewrite !append_assoc).
      apply (search_complete _ _ _ _ None).
      apply wiki_hard_matches. exists scheme, host, c, "". now repeat split.
    + exists x. apply in_or_app. left. apply in_map_iff. now exists x.
  - intros (link & H). apply in_app_or in H as [H|H];
      apply in_map_iff in H as (l & E & H); [discriminate|].
    apply findall_from_piece in H as (a & w & b & cap & -> & M & _).
    apply wiki_smart_matches in M
      as (g1 & g2 & u1 & u2 & H1 & H2 & H3 & H4 & _ & ->).
    exists a, g1, g2, u1, u2, b. repeat split; try assumption.
    rewrite !append_assoc. reflexivity.
  - intros (a & g1 & g2 & u1 & u2 & b & H1 & H2 & H3 & H4 & ->).
    destruct (findall_nonempty Confluence.GOOGLE_DRIVE_SMARTLINK_REGEX
                (a ++ "<ac:structured-macro" ++ g1
                   ++ ("ac:name=" ++ dq ++ "inline-card" ++ dq) ++ g2
                   ++ ("data-card-url=" ++ dq)
                   ++ (u1 ++ "drive.google.com" ++ u2) ++ dq ++ b))
      as [x Hx].
    + replace (a ++ "<ac:structured-macro" ++ g1
                 ++ ("ac:name=" ++ dq ++ "inline-card" ++ dq) ++ g2
                 ++ ("data-card-url=" ++ dq)
                 ++ (u1 ++ "drive.google.com" ++ u2) ++ dq ++ b)
        with (a ++ ("<ac:structured-macro" ++ g1
                      ++ ("ac:name=" ++ dq ++ "inline-card" ++ dq) ++ g2
                      ++ ("data-card-url=" ++ dq)
                      ++ (u1 ++ "drive.google.com" ++ u2) ++ dq) ++ b)
        by (now rewrite !append_assoc).
      apply (search_complete _ _ _ _ (Some (u1 ++ "drive.google.com" ++ u2))).
      apply wiki_smart_matches. exists g1, g2, u1, u2. now repeat split.
    + exists x. apply in_or_app. right. apply in_map_iff. now exists x.
Qed.

Lemma rstrip_non_space (s : string) :
  all_chars non_space s = true -> rstrip s = s.
Proof.
  induction s as [|c s IH]; [reflexivity|].
  cbn [all_chars rstrip]. intros H. apply andb_prop in H as [Hc Hs].
  rewrite (IH Hs). unfold non_space in Hc. apply negb_true_iff in Hc.
  rewrite Hc. now destruct s.
Qed.

Lemma strip_non_space (s : string) :
  all_chars non_space s = true -> strip s = s.
Proof.
  intros H. unfold strip.
  assert (E : lstrip s = s).
  { destruct s as [|c s]; [reflexivity|]. cbn [all_chars lstrip] in *.
    apply andb_prop in H as [Hc _]. unfold non_space in Hc.
    apply negb_true_iff in Hc. now rewrite Hc. }
  rewrite E. now apply rstrip_non_space.
Qed.

Lemma url_bt (A : Type) (k : option string -> string -> option A) (x : A)
      (scheme rest : string) :
  (scheme = "http" \/ scheme = "https") ->
  rest <> EmptyString -> all_chars non_space rest = true ->
  k None EmptyString = Some x ->
  bt Jira.url_pattern k None (scheme ++ "://" ++ rest) = Some x.
Proof.
  intros Hs Hne Hall Hk.
  destruct rest as [|c rest]; [congruence|].
  apply andb_prop in Hall as [Hc Hall].
  unfold Jira.url_pattern.
  destruct Hs as [-> | ->]; cbn;
    rewrite Hc, (star_longest _ _ _ x Hall Hk); reflexivity.
Qed.

(** a text that is one URL and nothing else is found whole, once *)
Lemma url_findall (scheme rest : string) :
  (scheme = "http" \/ scheme = "https") ->
  rest <> EmptyString -> all_chars non_space rest = true ->
  findall Jira.url_pattern (scheme ++ "://" ++ rest) = [scheme ++ "://" ++ rest].
Proof.
  intros Hs Hne Hall. unfold findall.
  assert (M : match_at Jira.url_pattern (scheme ++ "://" ++ rest)
              = Some (scheme ++ "://" ++ rest, None, EmptyString)).
  { unfold match_at. apply url_bt; try assumption.
    cbv beta. change (String.length EmptyString) with 0. now rewrite take_all. }
  assert (Hcons : exists c s, scheme ++ "://" ++ rest = String c s)
    by (destruct Hs as [-> | ->]; eexists _, _; reflexivity).
  destruct Hcons as (c & s & E). rewrite E in *.
  rewrite (findall_from_match _ _ _ _ _ _ M).
  replace (String.length (String c s) - 1)%nat with (String.length s)
    by (cbn [String.length]; lia).
  rewrite findall_from_skip_all. reflexivity.
Qed.

(** X22. A link pasted into a document is reported twice. For a text node
    whose text is a URL (a scheme, [://] and at least one character, no
    whitespace) and whose link mark points to the same URL, the issue
    classifier returns the URL two times when it carries a marker, once
    for the text and once for the mark, and nothing when it carries none. *)
Theorem pasted_link_is_reported_twice (scheme rest : string) :
  (scheme = "http" \/ scheme = "https") ->
  rest <> EmptyString -> all_chars non_space rest = true ->
  Jira.extract_google_drive_links (linked_url (scheme ++ "://" ++ rest))
  = Ok (if Jira.is_google_url (scheme ++ "://" ++ rest)
        then [JStr (scheme ++ "://" ++ rest); JStr (scheme ++ "://" ++ rest)]
        else []).
Proof.
  intros Hs Hne Hall.
  assert (Hurl : all_chars non_space (scheme ++ "://" ++ rest) = true).
  { rewrite !all_chars_app, Hall. now destruct Hs as [-> | ->]. }
  pose proof (url_findall scheme rest Hs Hne Hall) as F.
  revert Hurl F. generalize (scheme ++ "://" ++ rest). intros url Hurl F.
  assert (E : Jira.extract_text_and_links (linked_url url) = Ok (url, [JStr url])).
  { unfold linked_url. cbn -[strip]. rewrite strip_space. now rewrite strip_non_space. }
  unfold Jira.extract_google_drive_links.
  change (match linked_url url with
          | JObj _ | JList _ => Jira.extract_text_and_links (linked_url url)
          | JStr s => Ok (s, [])
          | _ => Ok (EmptyString, [])
          end) with (Jira.extract_text_and_links (linked_url url)).
  rewrite E. cbn [Py.bind]. rewrite F.
  cbn [filter map Jira.keep_google Jira.is_google py_in Py.bind].
  unfold Jira.is_google_url.
  destruct (str_contains "drive.google.com" url);
    [reflexivity|].
  cbn [orb]. destruct (str_contains "docs.google.com" url); reflexivity.
Qed.

Lemma pasted_link_is_reported_twice_witness :
  Jira.extract_google_drive_links (linked_url ("https" ++ "://" ++ "docs.google.com/d/1"))
  = Ok (if Jira.is_google_url ("https" ++ "://" ++ "docs.google.com/d/1")
        then [JStr ("https" ++ "://" ++ "docs.google.com/d/1");
              JStr ("https" ++ "://" ++ "docs.google.com/d/1")]
        else []).
Proof.
  apply (pasted_link_is_reported_twice "https" "docs.google.com/d/1");
    [now right | discriminate | reflexivity].
Defined.

(* ================================================================== *)
(** ** Nothing in the text is missed *)
(* ================================================================== *)

Section Runs.
Context {A : Type}.

Lemma star_total (p : ascii -> bool) (k : string -> option A) (s : string) :
  (forall s', k s' <> None) -> star p k s <> None.
Proof.
  intros Hk. induction s as [|c s IH]; cbn [star]; [apply Hk|].
  destruct (p c); [|apply Hk].
  destruct (star p k s); [discriminate | apply Hk].
Qed.

(** a greedy run in front of a continuation that cannot fail is as long as
    it can be *)
Lemma star_maximal (p : ascii -> bool) (k : string -> option A) (s : string) (x : A) :
  (forall s', k s' <> None) ->
  star p k s = Some x -> exists s', k s' = Some x /\ stops p s'.
Proof.
  intros Hk. induction s as [|c s IH]; cbn [star]; intros H.
  - now exists "".
  - destruct (p c) eqn:Hp; [|now exists (String c s)].
    destruct (star p k s) as [y|] eqn:Hs; [apply IH; exact H|].
    now apply star_total in Hs.
Qed.
End Runs.

Lemma bt_maximal (p : ascii -> bool) (r : regex) :
  ends_in_run p r ->
  forall (A : Type) (k : option string -> string -> option A) cap s x,
    (forall cap' s', k cap' s' <> None) ->
    bt r k cap s = Some x ->
    exists cap' s', k cap' s' = Some x /\ stops p s'.
Proof.
  induction 1 as [|r1 r2 _ IH]; intros A k cap s x Hk H; cbn [bt] in H.
  - destruct s as [|c s]; [discriminate|]. destruct (p c); [|discriminate].
    apply star_maximal in H as (s' & H & Hs); [|intros s'; apply Hk].
    now exists cap, s'.
  - apply bt_sound in H as (s1 & s2 & cap1 & _ & _ & H).
    now apply IH in H.
Qed.

Lemma match_at_maximal (p : ascii -> bool) (r : regex) (s whole rest : string)
      (cap : option string) :
  ends_in_run p r -> match_at r s = Some (whole, cap, rest) -> stops p rest.
Proof.
  unfold match_at. intros Hr H.
  eapply bt_maximal in H as (cap' & s' & H & Hs); [|exact Hr|discriminate].
  injection H as _ _ <-. exact Hs.
Qed.

Lemma append_split (a x w y : string) :
  a ++ x = w ++ y ->
  (exists d, a = w ++ d /\ y = d ++ x) \/ (exists d, w = a ++ d /\ x = d ++ y).
Proof.
  revert w. induction a as [|c a IH]; intros w H.
  - right. now exists w.
  - destruct w as [|c' w].
    + left. now exists (String c a).
    + cbn [append] in H. injection H as <- H.
      destruct (IH _ H) as [(d & -> & ->) | (d & -> & ->)];
        [left | right]; now exists d.
Qed.

Lemma stops_non_space (u b rest d : string) :
  all_chars non_space u = true -> stops non_space rest ->
  u ++ b = d ++ rest -> exists e, d = u ++ e.
Proof.
  intros Hu Hrest E. apply append_split in E as [(e & -> & ->) | (e & -> & _)].
  - destruct e as [|c e]; [exists ""; now rewrite !append_nil_r|].
    rewrite all_chars_app in Hu. apply andb_prop in Hu as [_ Hu].
    cbn [all_chars] in Hu. apply andb_prop in Hu as [Hc _].
    cbn [append stops] in Hrest. congruence.
  - now exists e.
Qed.

Section Covering.
Variable r : regex.
Hypothesis no_group : has_group r = false.
Hypothesis run : ends_in_run non_space r.
Hypothesis words :
  forall whole cap,
    matches r None whole cap ->
    all_chars non_space whole = true /\ whole <> EmptyString.

(** every match of [r] in the text lies inside an item of [findall] *)
Lemma findall_covers (u b : string) (capu : option string) :
  matches r None u capu ->
  forall n a,
    (String.length a <= n)%nat ->
    exists x, In x (findall_from r 0 (a ++ u ++ b)) /\ piece_of u x.
Proof.
  intros Mu. destruct (words u capu Mu) as [Hu _].
  induction n as [|n IH]; intros a Hn.
  - destruct a as [|c a]; [|cbn [String.length] in Hn; lia].
    cbn [append].
    destruct (match_at_complete r u b capu Mu) as [[[whole cap] rest] E].
    pose proof (match_at_maximal _ _ _ _ _ _ run E) as Hstop.
    pose proof (match_at_sound _ _ _ _ _ E) as [Eq M].
    destruct (stops_non_space u b rest whole Hu Hstop Eq) as [e ->].
    exists (u ++ e). split.
    + destruct (u ++ b); cbn [findall_from]; rewrite E; left;
        unfold item_of; now rewrite no_group.
    + exists "", e. reflexivity.
  - destruct a as [|c a]; [apply (IH ""); cbn; lia|].
    cbn [String.length] in Hn.
    change (String c a ++ u ++ b) with (String c (a ++ u ++ b)).
    destruct (match_at r (String c (a ++ u ++ b))) as [[[whole cap] rest]|] eqn:E.
    + rewrite (findall_from_match _ _ _ _ _ _ E).
      pose proof (match_at_maximal _ _ _ _ _ _ run E) as Hstop.
      pose proof (match_at_sound _ _ _ _ _ E) as [Eq M].
      destruct (words whole cap M) as [Hw Hne].
      change (String c (a ++ u ++ b)) with (String c a ++ u ++ b) in Eq.
      destruct (append_split _ _ _ _ Eq) as [(d & Ea & Er) | (d & Ew & Ed)].
      * destruct whole as [|c' w]; [congruence|].
        cbn [append] in Ea. injection Ea as <- ->.
        replace (String.length (String c w) - 1)%nat with (String.length w)
          by (cbn [String.length]; lia).
        rewrite append_assoc, findall_from_skip.
        destruct (IH d) as (x & Hx & Hp).
        { rewrite length_append in Hn. lia. }
        exists x. split; [now right | exact Hp].
      * destruct (stops_non_space u b rest d Hu Hstop Ed) as [e ->].
        exists whole. split; [left; unfold item_of; now rewrite no_group|].
        exists (String c a), e. now rewrite Ew.
    + rewrite (findall_from_no_match _ _ _ E).
      destruct (IH a) as (x & Hx & Hp); [lia|]. now exists x.
Qed.
End Covering.

Lemma url_pattern_intro (u : string) :
  plain_url u -> matches Jira.url_pattern None u None.
Proof.
  intros (scheme & c & t & Hs & Hc & Ht & ->). unfold Jira.url_pattern.
  destruct Hs as [-> | ->].
  - eapply (matches_seq _ _ _ _ _ _ "http"); [apply MLit | | reflexivity].
    eapply (matches_seq _ _ _ _ _ _ ""); [apply MOptNone | | reflexivity].
    eapply (matches_seq _ _ _ _ _ _ "://");
      [apply MLit | apply (MPlus non_space c t); assumption | reflexivity].
  - eapply (matches_seq _ _ _ _ _ _ "http"); [apply MLit | | reflexivity].
    eapply (matches_seq _ _ _ _ _ _ "s"); [apply MOptSome, MLit | | reflexivity].
    eapply (matches_seq _ _ _ _ _ _ "://");
      [apply MLit | apply (MPlus non_space c t); assumption | reflexivity].
Qed.

Lemma url_pattern_words (whole : string) (cap : option string) :
  matches Jira.url_pattern None whole cap ->
  all_chars non_space whole = true /\ whole <> EmptyString.
Proof.
  intros M. apply url_pattern_matches in M as (scheme & c & t & Hs & Hc & Ht & ->).
  split; destruct Hs as [-> | ->]; cbn [append all_chars];
    try discriminate; now rewrite Hc, Ht.
Qed.

Lemma wiki_hard_words (whole : string) (cap : option string) :
  matches Confluence.GOOGLE_DRIVE_HARDLINK_REGEX None whole cap ->
  all_chars non_space whole = true /\ whole <> EmptyString.
Proof.
  intros M. apply wiki_hard_matches in M
    as (scheme & host & c & t & Hs & Hh & Hc & Ht & _ & ->).
  split; destruct Hs as [-> | ->], Hh as [-> | ->]; cbn [append all_chars];
    try discriminate; now rewrite Hc, Ht.
Qed.

Lemma startswith_app (m s b : string) :
  startswith m s = true -> startswith m (s ++ b) = true.
Proof.
  revert s. induction m as [|c m IH]; [reflexivity|].
  intros [|c' s]; cbn [startswith append]; [discriminate|].
  intros H. apply andb_prop in H as [-> H]. now rewrite IH.
Qed.

Lemma str_contains_app (m u b : string) :
  str_contains m u = true -> str_contains m (u ++ b) = true.
Proof.
  induction u as [|c u IH]; intros H.
  - cbn [str_contains] in H. rewrite orb_false_r in H.
    apply (startswith_app m "" b) in H. cbn [append] in *.
    destruct b; cbn [str_contains]; now rewrite H.
  - cbn [str_contains append] in *. apply orb_true_iff in H as [H|H];
      apply orb_true_iff; [left | right].
    + now apply (startswith_app m (String c u) b).
    + now apply IH.
Qed.

Lemma str_contains_piece (m u x : string) :
  str_contains m u = true -> piece_of u x -> str_contains m x = true.
Proof.
  intros H (a & b & ->). apply str_contains_later. now apply str_contains_app.
Qed.

Lemma keep_google_prefix (links : list json) :
  forall google_links r,
    Jira.keep_google links google_links = Ok r ->
    forall x, In x google_links -> In x r.
Proof.
  induction links as [|l links IH]; intros g r H x Hx; cbn [Jira.keep_google] in H.
  - now injection H as <-.
  - bind_ok H. apply (IH _ _ H).
    destruct a; [apply in_or_app; now left | exact Hx].
Qed.

(** X23. No marked URL in a text is missed. Take the text the issue
    classifier scans: the field itself when it is a string, the extracted
    text when it is a document. Every URL in it (a scheme, [://], at least
    one character, no whitespace) that carries a marker is reported, as it
    is or inside a longer reported link. The same holds for the plain-text
    pattern of the wiki classifier on a page body. *)
Theorem marked_urls_are_reported :
  (forall content text links r a u b,
      (content = JStr text /\ links = []
       \/ ((exists d, content = JObj d) \/ (exists items, content = JList items))
          /\ Jira.extract_text_and_links content = Ok (text, links)) ->
      Jira.extract_google_drive_links content = Ok r ->
      text = a ++ u ++ b -> plain_url u -> Jira.is_google_url u = true ->
      exists link, In (JStr link) r /\ piece_of u link)
  /\ (forall body a scheme host c t b,
        (scheme = "http" \/ scheme = "https") -> (host = "drive" \/ host = "docs") ->
        non_space c = true -> all_chars non_space t = true ->
        body = a ++ (scheme ++ "://" ++ host ++ ".google.com" ++ String c t) ++ b ->
        exists link,
          In (link, "Hardcoded") (Confluence.extract_google_drive_links body) /\
          piece_of (scheme ++ "://" ++ host ++ ".google.com" ++ String c t) link).
Proof.
  split.
  - intros content text links r a u b Hc Hr -> Hu Hg.
    assert (E : Jira.extract_google_drive_links content
                = Jira.keep_google links
                    (map JStr (filter Jira.is_google_url
                                 (findall Jira.url_pattern (a ++ u ++ b))))).
    { unfold Jira.extract_google_drive_links.
      destruct Hc as [[-> ->] | [[[d ->] | [items ->]] ->]]; reflexivity. }
    rewrite E in Hr.
    destruct (findall_covers Jira.url_pattern eq_refl
                (RunSeq _ _ _ (RunSeq _ _ _ (RunSeq _ _ _ (RunPlus _))))
                url_pattern_words u b None (url_pattern_intro u Hu)
                (String.length a) a (le_n _)) as (x & Hx & Hp).
    exists x. split; [|exact Hp].
    apply (keep_google_prefix _ _ _ Hr). apply in_map, filter_In. split; [exact Hx|].
    unfold Jira.is_google_url in *. apply orb_true_iff in Hg as [Hg|Hg];
      apply orb_true_iff; [left | right]; now apply (str_contains_piece _ u).
  - intros body a scheme host c t b Hs Hh Hc Ht ->.
    destruct (findall_covers Confluence.GOOGLE_DRIVE_HARDLINK_REGEX eq_refl
                (RunSeq _ _ _ (RunPlus _)) wiki_hard_words
                (scheme ++ "://" ++ host ++ ".google.com" ++ String c t) b None)
      with (n := String.length a) (a := a) as (x & Hx & Hp); [|lia|].
    + apply wiki_hard_matches. exists scheme, host, c, t. now repeat split.
    + exists x. split; [|exact Hp].
      unfold Confluence.extract_google_drive_links. apply in_or_app. left.
      apply in_map_iff. now exists x.
Qed.

Lemma marked_urls_are_reported_witness :
  exists link,
    In (link, "Hardcoded")
       (Confluence.extract_google_drive_links
          ("see " ++ ("https" ++ "://" ++ "docs" ++ ".google.com" ++ String "/" "d1")
                  ++ " now")) /\
    piece_of ("https" ++ "://" ++ "docs" ++ ".google.com" ++ String "/" "d1") link.
Proof.
  apply (proj2 marked_urls_are_reported
           ("see " ++ ("https" ++ "://" ++ "docs" ++ ".google.com" ++ String "/" "d1")
                   ++ " now")
           "see " "https" "docs" "/"%char "d1" " now");
    [now right | now right | reflexivity | reflexivity | reflexivity].
Defined.

(* ================================================================== *)
(** ** The three tests for a Google link, compared *)
(* ================================================================== *)

Lemma host_marker (scheme host rest : string) :
  (host = "drive" \/ host = "docs") ->
  Jira.is_google_url (scheme ++ "://" ++ host ++ ".google.com" ++ rest) = true.
Proof.
  intros Hh. unfold Jira.is_google_url. apply orb_true_iff.
  destruct Hh as [-> | ->]; [left | right].
  - replace (scheme ++ "://" ++ "drive" ++ ".google.com" ++ rest)
      with ((scheme ++ "://") ++ "drive.google.com" ++ rest)
      by (now rewrite !append_assoc).
    apply str_contains_mid.
  - replace (scheme ++ "://" ++ "docs" ++ ".google.com" ++ rest)
      with ((scheme ++ "://") ++ "docs.google.com" ++ rest)
      by (now rewrite !append_assoc).
    apply str_contains_mid.
Qed.

(** X24. The scripts test a link in three ways, and the tests are nested.
    A link that passes the pattern of the remote links also passes the
    plain-text pattern of the wiki script, and a link that passes that one
    also passes the marker test of the issue classifier. Neither converse
    holds: [https://docs.google.com?x] passes the wiki pattern and not the
    pattern of the remote links, [https://example.com/?u=docs.google.com]
    passes the marker test and neither pattern. *)
Theorem link_tests_are_nested :
  (forall url,
      search Jira.GOOGLE_DRIVE_HARDLINK_REGEX url = true ->
      search Confluence.GOOGLE_DRIVE_HARDLINK_REGEX url = true)
  /\ (forall url,
        search Confluence.GOOGLE_DRIVE_HARDLINK_REGEX url = true ->
        Jira.is_google_url url = true)
  /\ (search Confluence.GOOGLE_DRIVE_HARDLINK_REGEX "https://docs.google.com?x" = true
      /\ search Jira.GOOGLE_DRIVE_HARDLINK_REGEX "https://docs.google.com?x" = false)
  /\ (Jira.is_google_url "https://example.com/?u=docs.google.com" = true
      /\ search Confluence.GOOGLE_DRIVE_HARDLINK_REGEX
           "https://example.com/?u=docs.google.com" = false).
Proof.
  split; [|split; [|split; split; vm_compute; reflexivity]].
  - intros url H. apply search_sound in H as (a & w & b & cap & -> & M).
    apply jira_hard_matches in M as (scheme & host & c & t & Hs & Hh & Hc & Ht & _ & ->).
    apply (search_complete _ _ _ _ None). apply wiki_hard_matches.
    exists scheme, host, "/"%char, (String c t). repeat split; try assumption.
    cbn [all_chars]. now rewrite Hc, Ht.
  - intros url H. apply search_sound in H as (a & w & b & cap & -> & M).
    apply wiki_hard_matches in M as (scheme & host & c & t & Hs & Hh & _ & _ & _ & ->).
    unfold Jira.is_google_url.
    pose proof (host_marker scheme host (String c t) Hh) as Hm.
    unfold Jira.is_google_url in Hm. apply orb_true_iff in Hm as [Hm|Hm];
      apply orb_true_iff; [left | right];
      apply str_contains_later; now apply str_contains_app.
Qed.

(* ================================================================== *)
(** ** Scenario C: an issue with one remote link *)
(* ================================================================== *)





(* ================================================================== *)
(** ** One inline-card macro in a page body, under the two wiki patterns *)
(* ================================================================== *)

Section Literals.
Context {A : Type}.

Lemma lit_none (l : string) (k : string -> option A) (s : string) :
  startswith l s = false -> lit l k s = None.
Proof.
  revert s. induction l as [|a l IH]; intros s; cbn [startswith lit];
    [discriminate|].
  destruct s as [|c s]; [reflexivity|].
  destruct (Ascii.eqb a c); [apply IH | reflexivity].
Qed.

(** a greedy run stops where the class stops *)
Lemma star_run (p : ascii -> bool) (k : string -> option A) (s1 s2 : string)
      (x : A) :
  all_chars p s1 = true -> stops p s2 -> k s2 = Some x ->
  star p k (s1 ++ s2) = Some x.
Proof.
  intros H1 H2 Hk. induction s1 as [|c s1 IH]; cbn [append].
  - destruct s2 as [|c s2]; cbn [star]; [exact Hk|].
    cbn [stops] in H2. now rewrite H2.
  - cbn [all_chars] in H1. apply andb_prop in H1 as [Hc H1].
    cbn [star]. now rewrite Hc, (IH H1).
Qed.
End Literals.

Lemma str_contains_tail (m : string) (c : ascii) (s : string) :
  str_contains m (String c s) = false ->
  startswith m (String c s) = false /\ str_contains m s = false.
Proof. cbn [str_contains]. intros H. now apply orb_false_iff in H. Qed.

Lemma str_contains_suffix (m a s : string) :
  str_contains m (a ++ s) = false -> str_contains m s = false.
Proof.
  destruct (str_contains m s) eqn:E; [|reflexivity].
  intros H. now rewrite (str_contains_later m a s E) in H.
Qed.

Lemma str_contains_prefix_free (m a s : string) :
  str_contains m (a ++ s) = false -> str_contains m a = false.
Proof.
  destruct (str_contains m a) eqn:E; [|reflexivity].
  intros H. now rewrite (str_contains_app m a s E) in H.
Qed.

Lemma startswith_split (m s : string) :
  startswith m s = true -> exists b, s = m ++ b.
Proof.
  revert s. induction m as [|a m IH]; intros s H; [now exists s|].
  destruct s as [|c s]; [discriminate|]. cbn [startswith] in H.
  apply andb_prop in H as [Ha H]. apply Ascii.eqb_eq in Ha as ->.
  destruct (IH _ H) as [b ->]. now exists b.
Qed.

Lemma str_contains_split (m s : string) :
  str_contains m s = true -> exists a b, s = a ++ m ++ b.
Proof.
  induction s as [|c s IH]; cbn [str_contains]; intros H;
    apply orb_true_iff in H as [H|H].
  - apply startswith_split in H as [b ->]. now exists "", b.
  - discriminate.
  - apply startswith_split in H as [b ->]. now exists "", b.
  - destruct (IH H) as (a & b & ->). now exists (String c a), b.
Qed.

(** *** The plain-text pattern *)

Lemma hard_needs_http (s : string) :
  startswith "http" s = false ->
  match_at Confluence.GOOGLE_DRIVE_HARDLINK_REGEX s = None.
Proof.
  intros H. unfold match_at, Confluence.GOOGLE_DRIVE_HARDLINK_REGEX, google_host.
  cbn [bt]. now apply lit_none.
Qed.

(** no match in a text without [http] *)
Lemma hard_none (s : string) :
  str_contains "http" s = false ->
  findall_from Confluence.GOOGLE_DRIVE_HARDLINK_REGEX 0 s = [].
Proof.
  induction s as [|c s IH]; intros H.
  - cbn [findall_from]. now rewrite hard_needs_http.
  - apply str_contains_tail in H as [H1 H2].
    rewrite findall_from_no_match by now apply hard_needs_http.
    now apply IH.
Qed.

(** [http] does not begin in a text without it and end in what follows,
    when that starts with neither [t] nor [p] *)
Lemma startswith_http_front (front : string) (c : ascii) (s : string) :
  front <> EmptyString ->
  Ascii.eqb "t" c = false -> Ascii.eqb "p" c = false ->
  startswith "http" front = false ->
  startswith "http" (front ++ String c s) = false.
Proof.
  intros Hne Ht Hp H.
  destruct front as [|c1 [|c2 [|c3 [|c4 front]]]]; [congruence| | | |];
    cbn [append startswith] in *;
    rewrite ?Ht, ?Hp, ?andb_false_r; try reflexivity; exact H.
Qed.

Lemma hard_skip_front (front : string) (c : ascii) (s : string) :
  Ascii.eqb "t" c = false -> Ascii.eqb "p" c = false ->
  str_contains "http" front = false ->
  findall_from Confluence.GOOGLE_DRIVE_HARDLINK_REGEX 0 (front ++ String c s)
  = findall_from Confluence.GOOGLE_DRIVE_HARDLINK_REGEX 0 (String c s).
Proof.
  intros Ht Hp. induction front as [|c1 front IH]; intros H; [reflexivity|].
  apply str_contains_tail in H as [H1 H2].
  change (String c1 front ++ String c s) with (String c1 (front ++ String c s)).
  rewrite findall_from_no_match; [now apply IH|].
  apply hard_needs_http.
  change (String c1 (front ++ String c s)) with (String c1 front ++ String c s).
  now apply startswith_http_front.
Qed.

(** the match at a URL takes the run of characters that are not
    whitespace, whatever they are, and stops at the first whitespace *)
Lemma hard_match_run (scheme host word rest : string) :
  (scheme = "http" \/ scheme = "https") -> (host = "drive" \/ host = "docs") ->
  word <> EmptyString -> all_chars non_space word = true ->
  stops non_space rest ->
  match_at Confluence.GOOGLE_DRIVE_HARDLINK_REGEX
           ((scheme ++ "://" ++ host ++ ".google.com" ++ word) ++ rest)
  = Some (scheme ++ "://" ++ host ++ ".google.com" ++ word, None, rest).
Proof.
  intros Hs Hh Hne Hall Hstop. unfold match_at.
  set (s := (scheme ++ "://" ++ host ++ ".google.com" ++ word) ++ rest).
  assert (Hk : (fun (cap : option string) (s' : string) =>
                  Some (take (String.length s - String.length s') s, cap, s'))
                 None rest
               = Some (scheme ++ "://" ++ host ++ ".google.com" ++ word, None, rest)).
  { cbv beta. unfold s. now rewrite take_consumed. }
  revert Hk. generalize (fun (cap : option string) (s' : string) =>
                  Some (take (String.length s - String.length s') s, cap, s')).
  intros k Hk. unfold s. clear s.
  destruct word as [|c word]; [congruence|].
  cbn [all_chars] in Hall. apply andb_prop in Hall as [Hc Hall].
  unfold Confluence.GOOGLE_DRIVE_HARDLINK_REGEX, google_host.
  destruct Hs as [-> | ->], Hh as [-> | ->]; cbn;
    rewrite Hc, (star_run _ _ _ _ _ Hall Hstop Hk); reflexivity.
Qed.

(** the plain-text pattern on a body with one Google URL, in quotes or not:
    one match, from the scheme to the next whitespace *)
Lemma hard_findall_one (front scheme host word rest : string) (c : ascii) :
  Ascii.eqb "t" c = false -> Ascii.eqb "p" c = false -> Ascii.eqb "h" c = false ->
  str_contains "http" front = false ->
  (scheme = "http" \/ scheme = "https") -> (host = "drive" \/ host = "docs") ->
  word <> EmptyString -> all_chars non_space word = true ->
  stops non_space rest -> str_contains "http" rest = false ->
  findall Confluence.GOOGLE_DRIVE_HARDLINK_REGEX
          (front ++ String c ((scheme ++ "://" ++ host ++ ".google.com" ++ word)
                              ++ rest))
  = [scheme ++ "://" ++ host ++ ".google.com" ++ word].
Proof.
  intros Ht Hp Hh Hfront Hs Hhost Hne Hall Hstop Hrest. unfold findall.
  rewrite hard_skip_front by assumption.
  rewrite findall_from_no_match
    by (apply hard_needs_http; cbn [startswith]; now rewrite Hh).
  pose proof (hard_match_run scheme host word rest Hs Hhost Hne Hall Hstop) as M.
  assert (Hcons : exists c' s',
             scheme ++ "://" ++ host ++ ".google.com" ++ word = String c' s')
    by (destruct Hs as [-> | ->]; eexists _, _; reflexivity).
  destruct Hcons as (c' & s' & E). rewrite E in *.
  change (String c' s' ++ rest) with (String c' (s' ++ rest)) in *.
  rewrite (findall_from_match _ _ _ _ _ _ M).
  unfold item_of. cbn [has_group Confluence.GOOGLE_DRIVE_HARDLINK_REGEX].
  change (has_group Confluence.GOOGLE_DRIVE_HARDLINK_REGEX) with false.
  cbv iota. f_equal.
  replace (String.length (String c' s') - 1)%nat with (String.length s')
    by (cbn [String.length]; lia).
  rewrite findall_from_skip. now apply hard_none.
Qed.

(** *** The smart-link pattern *)

(** two readings of a text as [.. "value" ..], the values without a quote:
    the same reading, or the first value stands in the text around the
    second *)
Lemma quoted_value_unique (u u' c url r r' : string) :
  count_char "034" c = 0%nat -> count_char "034" url = 0%nat ->
  u' ++ dq ++ c ++ dq ++ r' = u ++ dq ++ url ++ dq ++ r ->
  (u' = u /\ c = url /\ r' = r) \/ piece_of c u \/ piece_of c r.
Proof.
  intros Hc Hurl E. unfold dq in E. cbn [append] in E.
  destruct (append_split _ _ _ _ E) as [(d & Eu & Ex) | (d & Eu & Ex)].
  - destruct d as [|x d]; cbn [append] in Ex.
    + injection Ex as Ex. symmetry in Ex.
      destruct (split_at_char _ _ _ _ _ Hc Hurl Ex) as [-> ->].
      left. rewrite append_nil_r in Eu. now repeat split.
    + injection Ex as <- Ex. right. right.
      destruct (append_split _ _ _ _ Ex) as [(e & Ee & Er) | (e & Ee & Er)];
        destruct e as [|y e]; cbn [append] in Er.
      * injection Er as Er. exists "", (String "034" r'). now rewrite <- Er.
      * injection Er as <- _.
        rewrite Ee, count_char_app in Hurl. cbn in Hurl. lia.
      * injection Er as Er. exists "", (String "034" r'). now rewrite Er.
      * injection Er as _ Er. exists (e ++ dq), (String "034" r').
        rewrite Er. unfold dq. now rewrite !append_assoc.
  - destruct d as [|x d]; cbn [append] in Ex.
    + injection Ex as Ex.
      destruct (split_at_char _ _ _ _ _ Hc Hurl Ex) as [-> ->].
      left. rewrite append_nil_r in Eu. now repeat split.
    + injection Ex as <- Ex. right. left.
      destruct (append_split _ _ _ _ Ex) as [(e & Ee & Er) | (e & Ee & Er)].
      * destruct e as [|y e]; cbn [append] in Er.
        -- rewrite append_nil_r in Ee. subst d. exists (u' ++ dq), "".
           rewrite Eu, append_nil_r. unfold dq. now rewrite !append_assoc.
        -- injection Er as <- _.
           rewrite Ee, count_char_app in Hc. cbn in Hc. lia.
      * exists (u' ++ dq), e. rewrite Eu, Ee. unfold dq.
        now rewrite !append_assoc.
Qed.

(** every item of the smart-link pattern has the marker in it, so a text
    without the marker has no match *)
Lemma smart_none (s : string) :
  str_contains "drive.google.com" s = false ->
  findall_from Confluence.GOOGLE_DRIVE_SMARTLINK_REGEX 0 s = [].
Proof.
  intros H.
  destruct (findall_from Confluence.GOOGLE_DRIVE_SMARTLINK_REGEX 0 s)
    as [|x l] eqn:E; [reflexivity|].
  assert (Hx : In x (findall_from Confluence.GOOGLE_DRIVE_SMARTLINK_REGEX 0 s))
    by (rewrite E; now left).
  apply findall_from_piece in Hx as (a & w & b & cap & -> & M & _).
  apply wiki_smart_matches in M as (g1 & g2 & u1 & u2 & _ & _ & _ & _ & _ & ->).
  apply str_contains_suffix in H. apply str_contains_prefix_free in H.
  rewrite !append_assoc in H.
  replace ("<ac:structured-macro" ++ g1 ++ "ac:name=" ++ dq ++ "inline-card" ++ dq
           ++ g2 ++ "data-card-url=" ++ dq ++ u1 ++ "drive.google.com" ++ u2 ++ dq)
    with (("<ac:structured-macro" ++ g1 ++ "ac:name=" ++ dq ++ "inline-card" ++ dq
           ++ g2 ++ "data-card-url=" ++ dq ++ u1) ++ "drive.google.com" ++ u2 ++ dq)
    in H by (now rewrite !append_assoc).
  now rewrite str_contains_mid in H.
Qed.

(** in a text with one quoted value that has the marker in it, and no marker
    elsewhere, every match of the smart-link pattern ends at the closing
    quote of that value and captures it *)
Lemma smart_match_unique (u url r w rest : string) (cap : option string) :
  all_chars (not_char "034") url = true ->
  str_contains "drive.google.com" u = false ->
  str_contains "drive.google.com" r = false ->
  u ++ dq ++ url ++ dq ++ r = w ++ rest ->
  matches Confluence.GOOGLE_DRIVE_SMARTLINK_REGEX None w cap ->
  cap = Some url /\ rest = r.
Proof.
  intros Hq Hu Hr E M.
  apply wiki_smart_matches in M
    as (g1 & g2 & u1 & u2 & _ & _ & H1 & H2 & -> & ->).
  assert (Hc : count_char "034" (u1 ++ "drive.google.com" ++ u2) = 0%nat).
  { apply count_char_zero. rewrite !all_chars_app, H1, H2. reflexivity. }
  apply count_char_zero in Hq.
  assert (E' : ("<ac:structured-macro" ++ g1
                  ++ ("ac:name=" ++ dq ++ "inline-card" ++ dq) ++ g2
                  ++ "data-card-url=")
               ++ dq ++ (u1 ++ "drive.google.com" ++ u2) ++ dq ++ rest
               = u ++ dq ++ url ++ dq ++ r).
  { rewrite E. now rewrite !append_assoc. }
  destruct (quoted_value_unique _ _ _ _ _ _ Hc Hq E')
    as [(_ & -> & ->) | [Hp | Hp]]; [now split | |].
  - rewrite (str_contains_piece "drive.google.com" _ u (str_contains_mid _ u1 u2) Hp)
      in Hu. discriminate.
  - rewrite (str_contains_piece "drive.google.com" _ r (str_contains_mid _ u1 u2) Hp)
      in Hr. discriminate.
Qed.

Lemma smart_nonempty (w : string) (cap : option string) :
  matches Confluence.GOOGLE_DRIVE_SMARTLINK_REGEX None w cap ->
  exists c w', w = String c w'.
Proof.
  intros M. apply wiki_smart_matches in M
    as (g1 & g2 & u1 & u2 & _ & _ & _ & _ & _ & ->).
  eexists _, _. reflexivity.
Qed.

(** one step of the scan at a place where the pattern matches *)
Lemma smart_step (s url back w rest : string) (cap : option string) :
  (forall w rest cap,
      s = w ++ rest ->
      matches Confluence.GOOGLE_DRIVE_SMARTLINK_REGEX None w cap ->
      cap = Some url /\ rest = back) ->
  str_contains "drive.google.com" back = false ->
  match_at Confluence.GOOGLE_DRIVE_SMARTLINK_REGEX s = Some (w, cap, rest) ->
  findall_from Confluence.GOOGLE_DRIVE_SMARTLINK_REGEX 0 s = [url].
Proof.
  intros Huniq Hback Hy.
  pose proof (match_at_sound _ _ _ _ _ Hy) as [E Mw].
  destruct (Huniq _ _ _ E Mw) as [-> ->].
  destruct (smart_nonempty _ _ Mw) as (c & w' & ->).
  subst s. cbn [append] in Hy |- *.
  rewrite (findall_from_match _ _ _ _ _ _ Hy).
  unfold item_of.
  change (has_group Confluence.GOOGLE_DRIVE_SMARTLINK_REGEX) with true.
  cbv iota. f_equal.
  replace (String.length (String c w') - 1)%nat with (String.length w')
    by (cbn [String.length]; lia).
  rewrite findall_from_skip. now apply smart_none.
Qed.

Lemma smart_scan (u0 url back : string) :
  all_chars (not_char "034") url = true ->
  str_contains "drive.google.com" back = false ->
  matches Confluence.GOOGLE_DRIVE_SMARTLINK_REGEX None
          (u0 ++ dq ++ url ++ dq) (Some url) ->
  forall pre,
    str_contains "drive.google.com" (pre ++ u0) = false ->
    findall_from Confluence.GOOGLE_DRIVE_SMARTLINK_REGEX 0
                 ((pre ++ u0) ++ dq ++ url ++ dq ++ back)
    = [url].
Proof.
  intros Hq Hback M. induction pre as [|c pre IH]; intros Hfront.
  - cbn [append] in *.
    destruct (match_at_complete _ _ back _ M) as [[[w cap] rest] Hy].
    replace ((u0 ++ dq ++ url ++ dq) ++ back)
      with (u0 ++ dq ++ url ++ dq ++ back) in Hy
      by (now rewrite !append_assoc).
    apply (smart_step _ url back w rest cap); [|exact Hback|exact Hy].
    intros w' rest' cap' E Mw.
    now apply (smart_match_unique u0 url back w' rest' cap').
  - change ((String c pre ++ u0) ++ dq ++ url ++ dq ++ back)
      with (String c ((pre ++ u0) ++ dq ++ url ++ dq ++ back)).
    destruct (match_at Confluence.GOOGLE_DRIVE_SMARTLINK_REGEX
                (String c ((pre ++ u0) ++ dq ++ url ++ dq ++ back)))
      as [[[w cap] rest]|] eqn:Hy.
    + apply (smart_step _ url back w rest cap); [|exact Hback|exact Hy].
      intros w' rest' cap' E Mw.
      now apply (smart_match_unique (String c (pre ++ u0)) url back w' rest' cap').
    + rewrite (findall_from_no_match _ _ _ Hy). apply IH.
      change (String c pre ++ u0) with (String c (pre ++ u0)) in Hfront.
      now apply str_contains_tail in Hfront.
Qed.

(** the smart-link pattern on a body with one inline-card macro: one item,
    the value of the url attribute *)
Lemma smart_findall_one (pre g1 g2 url back : string) :
  all_chars (not_char ">") g1 = true -> all_chars (not_char ">") g2 = true ->
  all_chars (not_char "034") url = true ->
  str_contains "drive.google.com" url = true ->
  str_contains "drive.google.com" back = false ->
  str_contains "drive.google.com" (card_front pre g1 g2) = false ->
  findall Confluence.GOOGLE_DRIVE_SMARTLINK_REGEX
          (card_front pre g1 g2 ++ dq ++ url ++ dq ++ back)
  = [url].
Proof.
  intros Hg1 Hg2 Hq Hm Hback Hfront. unfold findall.
  change (card_front pre g1 g2) with (pre ++ card_front "" g1 g2) in *.
  apply smart_scan; try assumption.
  apply str_contains_split in Hm as (u1 & u2 & ->).
  rewrite !all_chars_app in Hq.
  apply andb_prop in Hq as [Hq1 Hq]. apply andb_prop in Hq as [_ Hq2].
  apply wiki_smart_matches. exists g1, g2, u1, u2.
  repeat split; try assumption.
  unfold card_front. rewrite !append_assoc. reflexivity.
Qed.

Lemma nth_error_label {A : Type} (l : list A) (label label' : string)
      (i : nat) (x : A) :
  nth_error (map (fun link => (link, label)) l) i = Some (x, label') ->
  label' = label /\ (i < List.length l)%nat.
Proof.
  revert i. induction l as [|a l IH]; intros [|i] H; cbn in H; try discriminate.
  - injection H as _ <-. split; [reflexivity | cbn; lia].
  - destruct (IH _ H) as [-> Hi]. split; [reflexivity | cbn; lia].
Qed.

(** C10, as amended. In what the wiki classifier returns, no "Smart Link"
    entry stands in front of a "Hardcoded" entry, wherever the links stand
    in the page: a plain link behind a macro is listed in front of the
    macro's "Smart Link". A page body with one inline-card macro (the
    opening of the tag, the name attribute, the url attribute, in this
    order and with no [>] between them), and with neither [http] nor
    [drive.google.com] outside the value of the url attribute, gives two
    entries when the value starts with a scheme and one of the two hosts,
    has [drive.google.com] in it and has neither whitespace nor a double
    quote in it: first the value, the closing quote and the characters
    behind it up to the next whitespace, labeled "Hardcoded", then the
    value itself, labeled "Smart Link". *)
Theorem wiki_inline_card_matches :
  (forall body i j link link',
      nth_error (Confluence.extract_google_drive_links body) i
      = Some (link, "Smart Link") ->
      nth_error (Confluence.extract_google_drive_links body) j
      = Some (link', "Hardcoded") ->
      (j < i)%nat)
  /\ (forall pre g1 g2 scheme host path run rest,
        all_chars (not_char ">") g1 = true -> all_chars (not_char ">") g2 = true ->
        str_contains "http" (card_front pre g1 g2) = false ->
        str_contains "drive.google.com" (card_front pre g1 g2) = false ->
        (scheme = "http" \/ scheme = "https") -> (host = "drive" \/ host = "docs") ->
        str_contains "drive.google.com"
          (scheme ++ "://" ++ host ++ ".google.com" ++ path) = true ->
        all_chars non_space path = true ->
        all_chars (not_char "034") path = true ->
        all_chars non_space run = true -> stops non_space rest ->
        str_contains "http" (run ++ rest) = false ->
        str_contains "drive.google.com" (run ++ rest) = false ->
        Confluence.extract_google_drive_links
          (card_front pre g1 g2 ++ dq
             ++ (scheme ++ "://" ++ host ++ ".google.com" ++ path) ++ dq
             ++ run ++ rest)
        = [((scheme ++ "://" ++ host ++ ".google.com" ++ path) ++ dq ++ run,
            "Hardcoded");
           (scheme ++ "://" ++ host ++ ".google.com" ++ path, "Smart Link")])
  /\ Confluence.extract_google_drive_links
       (Examples.inline_card "https://drive.google.com/a"
          ++ " https://docs.google.com/b")
     = [("https://drive.google.com/a" ++ dq ++ "/>", "Hardcoded");
        ("https://docs.google.com/b", "Hardcoded");
        ("https://drive.google.com/a", "Smart Link")].
Proof.
  split; [|split; [|vm_compute; reflexivity]].
  - intros body i j link link'. unfold Confluence.extract_google_drive_links.
    set (hard := findall Confluence.GOOGLE_DRIVE_HARDLINK_REGEX body).
    set (smart := findall Confluence.GOOGLE_DRIVE_SMARTLINK_REGEX body).
    intros Hi Hj.
    assert (Li : (List.length (map (fun link => (link, "Hardcoded")) hard) <= i)%nat).
    { destruct (Nat.le_gt_cases
                  (List.length (map (fun link => (link, "Hardcoded")) hard)) i)
        as [H|H]; [exact H|].
      rewrite nth_error_app1 in Hi by exact H.
      apply nth_error_label in Hi as [Hi _]. discriminate Hi. }
    destruct (Nat.le_gt_cases
                (List.length (map (fun link => (link, "Hardcoded")) hard)) j)
      as [H|H]; [|lia].
    rewrite nth_error_app2 in Hj by exact H.
    apply nth_error_label in Hj as [Hj _]. discriminate Hj.
  - intros pre g1 g2 scheme host path run rest Hg1 Hg2 Hfh Hfm Hs Hh Hm
           Hpath Hquote Hrun Hstop Hbh Hbm.
    unfold Confluence.extract_google_drive_links.
    assert (Hprefix : forall p : ascii -> bool,
               p "h"%char = true -> p "t"%char = true -> p "p"%char = true ->
               p "s"%char = true -> p ":"%char = true -> p "/"%char = true ->
               p "d"%char = true -> p "r"%char = true -> p "i"%char = true ->
               p "v"%char = true -> p "e"%char = true -> p "."%char = true ->
               p "g"%char = true -> p "o"%char = true -> p "l"%char = true ->
               p "c"%char = true -> p "m"%char = true ->
               all_chars p path = true ->
               all_chars p (scheme ++ "://" ++ host ++ ".google.com" ++ path) = true).
    { intros p Ph Pt Pp Ps Pc Psl Pd Pr Pi Pv Pe Pdot Pg Po Pl Pcc Pm Hp.
      destruct Hs as [-> | ->], Hh as [-> | ->]; cbn [append all_chars];
        rewrite ?Ph, ?Pt, ?Pp, ?Ps, ?Pc, ?Psl, ?Pd, ?Pr, ?Pi, ?Pv, ?Pe, ?Pdot,
          ?Pg, ?Po, ?Pl, ?Pcc, ?Pm; exact Hp. }
    assert (Hq : all_chars (not_char "034")
                   (scheme ++ "://" ++ host ++ ".google.com" ++ path) = true)
      by (apply Hprefix; try reflexivity; exact Hquote).
    assert (Eh : findall Confluence.GOOGLE_DRIVE_HARDLINK_REGEX
                   (card_front pre g1 g2 ++ dq
                      ++ (scheme ++ "://" ++ host ++ ".google.com" ++ path) ++ dq
                      ++ run ++ rest)
                 = [(scheme ++ "://" ++ host ++ ".google.com" ++ path)
                      ++ dq ++ run]).
    { replace (card_front pre g1 g2 ++ dq
                 ++ (scheme ++ "://" ++ host ++ ".google.com" ++ path) ++ dq
                 ++ run ++ rest)
        with (card_front pre g1 g2
                ++ String "034"
                     ((scheme ++ "://" ++ host ++ ".google.com"
                              ++ (path ++ dq ++ run)) ++ rest))
        by (unfold dq; rewrite !append_assoc; reflexivity).
      replace ((scheme ++ "://" ++ host ++ ".google.com" ++ path) ++ dq ++ run)
        with (scheme ++ "://" ++ host ++ ".google.com" ++ (path ++ dq ++ run))
        by (now rewrite !append_assoc).
      apply hard_findall_one; try assumption; try reflexivity.
      - destruct path; discriminate.
      - rewrite !all_chars_app, Hpath, Hrun. reflexivity.
      - now apply str_contains_suffix in Hbh. }
    rewrite Eh.
    rewrite (smart_findall_one pre g1 g2 _ (run ++ rest)) by assumption.
    reflexivity.
Qed.

Lemma wiki_inline_card_matches_witness :
  Confluence.extract_google_drive_links
    (card_front "<p>" " " (" ac:schema-version=" ++ dq ++ "1" ++ dq ++ " ") ++ dq
       ++ ("https" ++ "://" ++ "docs" ++ ".google.com" ++ "/d/1?u=drive.google.com")
       ++ dq ++ "/></p>" ++ " and more")
  = [(("https" ++ "://" ++ "docs" ++ ".google.com" ++ "/d/1?u=drive.google.com")
        ++ dq ++ "/></p>", "Hardcoded");
     ("https" ++ "://" ++ "docs" ++ ".google.com" ++ "/d/1?u=drive.google.com",
      "Smart Link")].
Proof.
  apply (proj1 (proj2 wiki_inline_card_matches)
           "<p>" " " (" ac:schema-version=" ++ dq ++ "1" ++ dq ++ " ")
           "https" "docs" "/d/1?u=drive.google.com" "/></p>" " and more");
    try reflexivity; now right.
Defined.
